(** * Handbook content pipeline: navigation assembly, page lookup, prev/next
    and breadcrumbs.

    A shallow embedding of [src/lib/handbook.ts], of the prev/next
    computation of [src/components/handbook/article-content.tsx] and of
    [generateBreadcrumbJsonLd] in
    [src/app/front-end-engineer-handbook/[slug]/page.tsx]; then of the
    other exports of these files, of the two handbook routes and of the
    state computations of [src/components/handbook/sidebar.tsx].

    Modelling conventions.
    - A file name, a slug or a title is a [string] (a sequence of 8-bit
      characters); on these [toLowerCase] is modelled on the ASCII
      letters.  [slugifyCategory] is also given on sequences of UTF-16
      code units (module [Utf16]), where [toLowerCase] can turn a
      character outside ASCII into an ASCII letter.
    - A JavaScript number that comes from an integer front-matter field
      is a [Z].
    - [null] and [undefined] are [None].
    - An exception is the [Throw] case of [result].
    - The content directory is the list of its entries in the order
      [fs.readdirSync] enumerates them; gray-matter and remark are
      libraries outside the repository: a file is represented by what
      [matter] makes of its text, and the remark pipeline is a function
      parameter.
    - gray-matter keeps every text it is given in a cache, which it fills
      before it parses.  A text that parses gives the same [data] and
      [content] at every call.  A text on which [matter] throws is
      answered from the cache by the later calls of the same process, with
      empty [data]: a [Throw] that comes from [matter] is the outcome of
      the first parse of the text in the process.
    - [getHandbookPage] comes twice: on the entries of the content
      directory, for a slug that is a single path segment, and through
      [path.join] and the file system (module [Fs]) for any slug. *)

From Stdlib Require Import String Ascii List ZArith Lia Bool.
From Stdlib Require Import Sorting.Sorted Sorting.Permutation.
Import ListNotations.

Local Open Scope string_scope.
Local Open Scope Z_scope.
Local Open Scope list_scope.

(* ------------------------------------------------------------------ *)
(** ** JavaScript string helpers *)

Module JsString.

Local Open Scope char_scope.

Definition code (c : ascii) : N := N_of_ascii c.

(** [c] is in the character class [a-z0-9]. *)
Definition is_slug_char (c : ascii) : bool :=
  ((97 <=? code c) && (code c <=? 122) || (48 <=? code c) && (code c <=? 57))%N.

Definition is_hyphen (c : ascii) : bool := Ascii.eqb c "-".

(** One character of [String.prototype.toLowerCase], for the ASCII
    characters; [Utf16] treats the others. *)
Definition lower_char (c : ascii) : ascii :=
  if ((65 <=? code c) && (code c <=? 90))%N
  then ascii_of_N (code c + 32)
  else c.

Definition toLowerCase (l : list ascii) : list ascii := map lower_char l.

(** [.replace(/[^a-z0-9]+/g, '-')].  The flag [in_run] records that the
    previous character belonged to the run being replaced, so that a
    maximal run yields one hyphen. *)
Fixpoint replace_runs (in_run : bool) (l : list ascii) : list ascii :=
  match l with
  | [] => []
  | c :: t =>
      if is_slug_char c then c :: replace_runs false t
      else if in_run then replace_runs true t
           else "-" :: replace_runs true t
  end.

(** The [^-] alternative of [/(^-|-$)/g]. *)
Definition strip_leading (l : list ascii) : list ascii :=
  match l with
  | c :: t => if is_hyphen c then t else l
  | [] => []
  end.

(** The [-$] alternative of [/(^-|-$)/g]. *)
Fixpoint strip_trailing (l : list ascii) : list ascii :=
  match l with
  | [] => []
  | [c] => if is_hyphen c then [] else [c]
  | c :: t => c :: strip_trailing t
  end.

(** [.replace(/(^-|-$)/g, '')]: the scan removes a hyphen at offset 0,
    then a hyphen in last position that the first match has not
    consumed. *)
Definition trim_hyphens (l : list ascii) : list ascii :=
  strip_trailing (strip_leading l).

(** [s.endsWith(suffix)]: some tail of [s] is [suffix]. *)
Fixpoint endsWith (s suffix : string) : bool :=
  if String.eqb s suffix then true
  else match s with
       | EmptyString => false
       | String _ t => endsWith t suffix
       end.

(** [s.replace(/\.md$/, '')]: the tail [.md], if there is one, is cut. *)
Fixpoint strip_md (s : string) : string :=
  if String.eqb s ".md" then EmptyString
  else match s with
       | EmptyString => EmptyString
       | String c t => String c (strip_md t)
       end.

(** JavaScript truthiness of a string. *)
Definition truthy (s : string) : bool := negb (String.eqb s "").

End JsString.

(* ------------------------------------------------------------------ *)
(** ** [slugifyCategory] *)

Definition slugify_chars (l : list ascii) : list ascii :=
  JsString.trim_hyphens (JsString.replace_runs false (JsString.toLowerCase l)).

(** [category.toLowerCase().replace(/[^a-z0-9]+/g, '-').replace(/(^-|-$)/g, '')] *)
Definition slugifyCategory (category : string) : string :=
  string_of_list_ascii (slugify_chars (list_ascii_of_string category)).

(* ------------------------------------------------------------------ *)
(** ** Exceptions *)

Inductive result (A : Type) : Type :=
| Ok (a : A)
| Throw (e : string).

Arguments Ok {A} a.
Arguments Throw {A} e.

Definition bind {A B : Type} (r : result A) (k : A -> result B) : result B :=
  match r with
  | Ok a => k a
  | Throw e => Throw e
  end.

Notation "x <- r ;; k" := (bind r (fun x => k))
  (at level 61, r at next level, right associativity).

(** [Array.prototype.map] with a callback that may throw: the first
    exception aborts the whole call. *)
Fixpoint mapM {A B : Type} (f : A -> result B) (l : list A) : result (list B) :=
  match l with
  | [] => Ok []
  | x :: t => y <- f x ;; ys <- mapM f t ;; Ok (y :: ys)
  end.

(* ------------------------------------------------------------------ *)
(** ** JavaScript operators on optional values *)

(** [s || d] where [s] is a string or [undefined]. *)
Definition or_string (s : option string) (d : string) : string :=
  match s with
  | Some v => if JsString.truthy v then v else d
  | None => d
  end.

(** [s || null] where [s] is a string or [undefined]. *)
Definition or_null (s : option string) : option string :=
  match s with
  | Some v => if JsString.truthy v then Some v else None
  | None => None
  end.

(** [n ?? d]. *)
Definition nullish (n : option Z) (d : Z) : Z :=
  match n with
  | Some v => v
  | None => d
  end.

(** [n || d] where [n] is a number. *)
Definition or_number (n : Z) (d : Z) : Z := if n =? 0 then d else n.

(** [n || d] where [n] is a number or [undefined]. *)
Definition or_number_opt (n : option Z) (d : Z) : Z :=
  match n with
  | Some v => or_number v d
  | None => d
  end.

(** Truthiness of [page.category], a string or [null]/[undefined]. *)
Definition truthy_opt (s : option string) : bool :=
  match s with
  | Some v => JsString.truthy v
  | None => false
  end.

(* ------------------------------------------------------------------ *)
(** ** [Array.prototype.sort] with a comparator [(a, b) => key a - key b]

    The sort is stable (ECMAScript 2019); with a consistent comparator its
    result is the one stable ordering, computed here by insertion. *)

Section Sort.
Context {A : Type} (key : A -> Z).

Fixpoint insert_by (x : A) (l : list A) : list A :=
  match l with
  | [] => [x]
  | y :: t => if key x <=? key y then x :: l else y :: insert_by x t
  end.

Fixpoint sort_by (l : list A) : list A :=
  match l with
  | [] => []
  | x :: t => insert_by x (sort_by t)
  end.

End Sort.

(* ------------------------------------------------------------------ *)
(** ** [Map<string, V>]: keys in insertion order *)

Module JsMap.

Definition t (V : Type) : Type := list (string * V).

Fixpoint get {V : Type} (m : t V) (k : string) : option V :=
  match m with
  | [] => None
  | (k', v) :: r => if String.eqb k' k then Some v else get r k
  end.

Definition has {V : Type} (m : t V) (k : string) : bool :=
  match get m k with
  | Some _ => true
  | None => false
  end.

(** [m.set(k, v)]: a present key keeps its place, a new key goes last. *)
Fixpoint set {V : Type} (m : t V) (k : string) (v : V) : t V :=
  match m with
  | [] => [(k, v)]
  | (k', v') :: r =>
      if String.eqb k' k then (k', v) :: r else (k', v') :: set r k v
  end.

Definition keys {V : Type} (m : t V) : list string := map fst m.

(** [m.forEach(v => f v)] where [f] updates the value in place. *)
Definition map_values {V W : Type} (f : V -> W) (m : t V) : t W :=
  map (fun e => (fst e, f (snd e))) m.

End JsMap.

(* ------------------------------------------------------------------ *)
(** ** Data model *)

(** The [data] object gray-matter extracts from the front matter. *)
Record FrontMatter : Type := mkFrontMatter {
  fm_title : option string;
  fm_description : option string;
  fm_keywords : option (list string);
  fm_order : option Z;
  fm_category : option string;
  fm_categoryOrder : option Z
}.

(** The value of [matter(fileContents)]. *)
Record Matter : Type := mkMatter {
  data : FrontMatter;
  content : string
}.

(** What a directory entry holds, seen through [fs.readFileSync] followed
    by [matter]: a regular file parses or makes [matter] throw, the first
    time the process parses its text; reading a subdirectory throws. *)
Inductive DirEntry : Type :=
| RegularFile (parsed : result Matter)
| Subdirectory.

Record ContentFile : Type := mkFile {
  fileName : string;
  entry : DirEntry
}.

(** The content directory, in [fs.readdirSync] order. *)
Definition ContentDir : Type := list ContentFile.

Module HandbookNavItem.
Record t : Type := mk {
  slug : string;
  title : string;
  order : Z;
  category : option string;
  categoryOrder : Z
}.
End HandbookNavItem.

Module HandbookCategory.
Record t : Type := mk {
  name : string;
  slug : string;
  order : Z;
  items : list HandbookNavItem.t
}.
End HandbookCategory.

Module HandbookNavigation.
Record t : Type := mk {
  introduction : option HandbookNavItem.t;
  categories : list HandbookCategory.t
}.
End HandbookNavigation.

Module HandbookPage.
Record t : Type := mk {
  slug : string;
  title : string;
  description : string;
  keywords : list string;
  order : Z;
  category : option string;
  categoryOrder : option Z;
  content : string;
  contentHtml : string
}.
End HandbookPage.

(* ------------------------------------------------------------------ *)
(** ** [getHandbookNavigation] *)

Definition is_md (f : ContentFile) : bool := JsString.endsWith (fileName f) ".md".

Definition readMatter (f : ContentFile) : result Matter :=
  match entry f with
  | RegularFile parsed => parsed
  | Subdirectory => Throw "EISDIR: illegal operation on a directory, read"
  end.

(** The object literal of lines 76-82.  The title falls back on the file
    stem, before [index] is mapped to the empty slug. *)
Definition navItemOf (file_name : string) (d : FrontMatter) : HandbookNavItem.t :=
  let slug := JsString.strip_md file_name in
  {| HandbookNavItem.slug := if String.eqb slug "index" then "" else slug;
     HandbookNavItem.title := or_string (fm_title d) slug;
     HandbookNavItem.order := nullish (fm_order d) 999;
     HandbookNavItem.category := or_null (fm_category d);
     HandbookNavItem.categoryOrder := nullish (fm_categoryOrder d) 999 |}.

Definition readNavItem (f : ContentFile) : result HandbookNavItem.t :=
  m <- readMatter f ;; Ok (navItemOf (fileName f) (data m)).

(** [allPages]: every [.md] entry, read and projected. *)
Definition allPages (dir : ContentDir) : result (list HandbookNavItem.t) :=
  mapM readNavItem (filter is_md dir).

Definition is_introduction (p : HandbookNavItem.t) : bool :=
  String.eqb (HandbookNavItem.slug p) "".

Definition is_categorized (p : HandbookNavItem.t) : bool :=
  negb (String.eqb (HandbookNavItem.slug p) "")
  && truthy_opt (HandbookNavItem.category p).

Definition GroupState : Type :=
  (JsMap.t (list HandbookNavItem.t) * JsMap.t Z)%type.

(** [categoryMap.get(c)!.push(page)].  The key has been set just before,
    so the lookup finds an array. *)
Definition push_item (m : JsMap.t (list HandbookNavItem.t)) (c : string)
    (page : HandbookNavItem.t) : JsMap.t (list HandbookNavItem.t) :=
  match JsMap.get m c with
  | Some its => JsMap.set m c (its ++ [page])
  | None => m
  end.

(** The body of [categorizedPages.forEach], lines 93-101. *)
Definition group_step (st : GroupState) (page : HandbookNavItem.t) : GroupState :=
  match HandbookNavItem.category page with
  | Some c =>
      if JsString.truthy c then
        let st' :=
          if negb (JsMap.has (fst st) c)
          then (JsMap.set (fst st) c [],
                JsMap.set (snd st) c (or_number (HandbookNavItem.categoryOrder page) 999))
          else st in
        (push_item (fst st') c page, snd st')
      else st
  | None => st
  end.

Definition group_pages (pages : list HandbookNavItem.t) : GroupState :=
  fold_left group_step pages ([], []).

Definition mkCategory (categoryOrderMap : JsMap.t Z)
    (e : string * list HandbookNavItem.t) : HandbookCategory.t :=
  {| HandbookCategory.name := fst e;
     HandbookCategory.slug := slugifyCategory (fst e);
     HandbookCategory.order := or_number_opt (JsMap.get categoryOrderMap (fst e)) 999;
     HandbookCategory.items := snd e |}.

(** Lines 85-118, after the files have been read. *)
Definition buildNavigation (pages : list HandbookNavItem.t) : HandbookNavigation.t :=
  let introduction := find is_introduction pages in
  let categorizedPages := filter is_categorized pages in
  let '(categoryMap, categoryOrderMap) := group_pages categorizedPages in
  let categoryMap := JsMap.map_values (sort_by HandbookNavItem.order) categoryMap in
  let categories :=
    sort_by HandbookCategory.order (map (mkCategory categoryOrderMap) categoryMap) in
  {| HandbookNavigation.introduction := introduction;
     HandbookNavigation.categories := categories |}.

Definition getHandbookNavigation (dir : ContentDir) : result HandbookNavigation.t :=
  pages <- allPages dir ;; Ok (buildNavigation pages).

(** ** [getAllHandbookPages] *)

Definition flatten (nav : HandbookNavigation.t) : list HandbookNavItem.t :=
  match HandbookNavigation.introduction nav with
  | Some i => [i]
  | None => []
  end ++ concat (map HandbookCategory.items (HandbookNavigation.categories nav)).

Definition getAllHandbookPages (dir : ContentDir) : result (list HandbookNavItem.t) :=
  nav <- getHandbookNavigation dir ;; Ok (flatten nav).

(** ** [getAllHandbookSlugs] *)

Definition slugOfFileName (file_name : string) : string :=
  let slug := JsString.strip_md file_name in
  if String.eqb slug "index" then "" else slug.

Definition getAllHandbookSlugs (dir : ContentDir) : list string :=
  map (fun f => slugOfFileName (fileName f)) (filter is_md dir).

(** ** [getHandbookPage] *)

Definition fileNameOfSlug (slug : string) : string :=
  if String.eqb slug "" then "index.md" else (slug ++ ".md")%string.

(** The entry [path.join(handbookDirectory, fileName)] names, if any, when
    [file_name] is a single path segment other than [.] and [..]: the
    joined path is then the entry of that name.  [Fs.join] and [Fs.nodeAt]
    treat every file name. *)
Definition lookupFile (dir : ContentDir) (file_name : string) : option ContentFile :=
  find (fun f => String.eqb (fileName f) file_name) dir.

Section Page.
(** The remark pipeline [remark().use(html, { sanitize: false })], a
    function of the markdown body. *)
Variable remarkHtml : string -> string.

Definition pageOf (slug : string) (m : Matter) : HandbookPage.t :=
  let d := data m in
  {| HandbookPage.slug := slug;
     HandbookPage.title := or_string (fm_title d) slug;
     HandbookPage.description := or_string (fm_description d) "";
     HandbookPage.keywords :=
       match fm_keywords d with Some ks => ks | None => [] end;
     HandbookPage.order := nullish (fm_order d) 999;
     HandbookPage.category := or_null (fm_category d);
     HandbookPage.categoryOrder := fm_categoryOrder d;
     HandbookPage.content := content m;
     HandbookPage.contentHtml := remarkHtml (content m) |}.

Definition getHandbookPage (dir : ContentDir) (slug : string)
    : result (option HandbookPage.t) :=
  match lookupFile dir (fileNameOfSlug slug) with
  | None => Ok None
  | Some f => m <- readMatter f ;; Ok (Some (pageOf slug m))
  end.

End Page.

(* ------------------------------------------------------------------ *)
(** ** [ArticleContent]: previous and next page *)

Fixpoint findIndex_from {A : Type} (p : A -> bool) (l : list A) (i : Z) : Z :=
  match l with
  | [] => -1
  | x :: t => if p x then i else findIndex_from p t (i + 1)
  end.

(** [l.findIndex(p)]: the first index where [p] holds, or -1. *)
Definition findIndex {A : Type} (p : A -> bool) (l : list A) : Z :=
  findIndex_from p l 0.

(** [l[i]]: [undefined] outside the array. *)
Definition at_index {A : Type} (l : list A) (i : Z) : option A :=
  if i <? 0 then None else nth_error l (Z.to_nat i).

(** Lines 11-13 of [ArticleContent]: the pair [(prevPage, nextPage)]. *)
Definition ArticleContent (page : HandbookPage.t) (pages : list HandbookNavItem.t)
    : option HandbookNavItem.t * option HandbookNavItem.t :=
  let currentIndex :=
    findIndex (fun p => String.eqb (HandbookNavItem.slug p) (HandbookPage.slug page)) pages in
  let prevPage :=
    if currentIndex >? 0 then at_index pages (currentIndex - 1) else None in
  let nextPage :=
    if currentIndex <? Z.of_nat (length pages) - 1
    then at_index pages (currentIndex + 1) else None in
  (prevPage, nextPage).

(* ------------------------------------------------------------------ *)
(** ** [generateBreadcrumbJsonLd] *)

Record ListItem : Type := mkListItem {
  position : Z;
  name : string;
  item : string
}.

Definition handbookUrl : string :=
  "https://dima-tolmachev.com/front-end-engineer-handbook".

(** [category.toLowerCase().replace(/[^a-z0-9]+/g, '-')], the anchor of the
    category breadcrumb (no trimming there). *)
Definition categoryAnchor (category : string) : string :=
  string_of_list_ascii
    (JsString.replace_runs false (JsString.toLowerCase (list_ascii_of_string category))).

(** The [itemListElement] array of the returned object. *)
Definition generateBreadcrumbJsonLd (page : HandbookPage.t) (slug : string)
    : list ListItem :=
  let breadcrumbs :=
    [ mkListItem 1 "Home" "https://dima-tolmachev.com";
      mkListItem 2 "Front-end Engineer Handbook" handbookUrl ] in
  let pageUrl := (handbookUrl ++ "/" ++ slug)%string in
  match HandbookPage.category page with
  | Some c =>
      if JsString.truthy c then
        breadcrumbs
          ++ [ mkListItem 3 c (handbookUrl ++ "#" ++ categoryAnchor c)%string ]
          ++ [ mkListItem 4 (HandbookPage.title page) pageUrl ]
      else
        breadcrumbs ++ [ mkListItem 3 (HandbookPage.title page) pageUrl ]
  | None =>
      breadcrumbs ++ [ mkListItem 3 (HandbookPage.title page) pageUrl ]
  end.

(* ------------------------------------------------------------------ *)
(** ** Specification vocabulary *)

(** A character list in which every character is in [a-z0-9] or is a
    hyphen, and no hyphen follows a hyphen.  [after_hyphen] tells that a
    hyphen stands just before the list. *)
Fixpoint collapsed (after_hyphen : bool) (l : list ascii) : bool :=
  match l with
  | [] => true
  | c :: t =>
      if JsString.is_slug_char c then collapsed false t
      else JsString.is_hyphen c && negb after_hyphen && collapsed true t
  end.

Definition head_not_hyphen (l : list ascii) : bool :=
  match l with
  | c :: _ => negb (JsString.is_hyphen c)
  | [] => true
  end.

(** Ascending order of the sort keys. *)
Definition key_le {A : Type} (key : A -> Z) (a b : A) : Prop := key a <= key b.

(** [page] passes the tests of the grouping loop for the category [c]. *)
Definition grouped_under (c : string) (page : HandbookNavItem.t) : bool :=
  match HandbookNavItem.category page with
  | Some c' => JsString.truthy c' && String.eqb c' c
  | None => false
  end.

(** [page] is one of [categorizedPages] and declares the category [c]. *)
Definition belongs_to (c : string) (page : HandbookNavItem.t) : bool :=
  is_categorized page && grouped_under c page.

Definition nonempty {A : Type} (l : list A) : option (list A) :=
  match l with
  | [] => None
  | _ :: _ => Some l
  end.

(** What the loop records in [categoryOrderMap] for a group. *)
Definition first_order (its : list HandbookNavItem.t) : option Z :=
  match its with
  | [] => None
  | p :: _ => Some (or_number (HandbookNavItem.categoryOrder p) 999)
  end.

(** The state of the grouping loop once it has gone through [l]. *)
Definition group_inv (l : list HandbookNavItem.t) (st : GroupState) : Prop :=
  NoDup (JsMap.keys (fst st))
  /\ (forall c, JsMap.get (fst st) c = nonempty (filter (grouped_under c) l))
  /\ (forall c, JsMap.get (snd st) c = first_order (filter (grouped_under c) l))
  /\ Permutation (concat (map snd (fst st)))
                 (filter (fun p => truthy_opt (HandbookNavItem.category p)) l).

(* ------------------------------------------------------------------ *)
(** ** Sample directories *)

Definition frontMatter (order : option Z) (category : option string)
    (categoryOrder : option Z) : FrontMatter :=
  mkFrontMatter None None None order category categoryOrder.

Definition markdown (file_name : string) (d : FrontMatter) : ContentFile :=
  mkFile file_name (RegularFile (Ok (mkMatter d "body"))).

(** The directory of the first scenario of the handbook description, with
    two more pages that tie on [order]. *)
Definition scenario_dir : ContentDir :=
  [ markdown "index.md" (frontMatter (Some 0) None None);
    markdown "a.md" (frontMatter (Some 2) (Some "Fundamentals") (Some 1));
    markdown "b.md" (frontMatter (Some 1) (Some "Fundamentals") (Some 1));
    markdown "c.md" (frontMatter (Some 1) (Some "Fundamentals") (Some 1));
    markdown "d.md" (frontMatter (Some 1) (Some "Career") (Some 4));
    mkFile "notes.txt" (RegularFile (Throw "not front matter")) ].

(** An introduction and a page that declares no category. *)
Definition orphan_dir : ContentDir :=
  [ markdown "index.md" (frontMatter (Some 0) None None);
    markdown "orphan.md" (frontMatter (Some 1) None None) ].

(** The introduction declares a category, with another order than the
    first page grouped under it. *)
Definition index_first_dir : ContentDir :=
  [ markdown "index.md" (frontMatter None (Some "X") (Some 5));
    markdown "zeta.md" (frontMatter None (Some "X") (Some 1)) ].

(** A category whose first page declares [categoryOrder: 0]. *)
Definition zero_dir : ContentDir :=
  [ markdown "a.md" (frontMatter (Some 3) (Some "A") (Some 0));
    markdown "b.md" (frontMatter (Some 0) (Some "A") (Some 1));
    markdown "c.md" (frontMatter (Some 1) (Some "B") (Some 5)) ].

(** A markdown file on which [matter] throws. *)
Definition malformed_dir : ContentDir :=
  [ mkFile "a.md" (RegularFile (Throw "YAMLException")) ].

(** A file named [.md] and no [index.md]. *)
Definition dotfile_dir : ContentDir :=
  [ markdown ".md" (frontMatter None None None) ].

Definition identity_html (body : string) : string := body.

(** The pages and categories these directories give. *)
Definition scenario_index : HandbookNavItem.t :=
  HandbookNavItem.mk "" "index" 0 None 999.
Definition scenario_a : HandbookNavItem.t :=
  HandbookNavItem.mk "a" "a" 2 (Some "Fundamentals") 1.
Definition scenario_b : HandbookNavItem.t :=
  HandbookNavItem.mk "b" "b" 1 (Some "Fundamentals") 1.
Definition scenario_c : HandbookNavItem.t :=
  HandbookNavItem.mk "c" "c" 1 (Some "Fundamentals") 1.
Definition scenario_d : HandbookNavItem.t :=
  HandbookNavItem.mk "d" "d" 1 (Some "Career") 4.

Definition scenario_pages : list HandbookNavItem.t :=
  [scenario_index; scenario_a; scenario_b; scenario_c; scenario_d].

Definition scenario_fundamentals : HandbookCategory.t :=
  HandbookCategory.mk "Fundamentals" "fundamentals" 1
    [scenario_b; scenario_c; scenario_a].

Definition scenario_career : HandbookCategory.t :=
  HandbookCategory.mk "Career" "career" 4 [scenario_d].

Definition scenario_nav : HandbookNavigation.t :=
  HandbookNavigation.mk (Some scenario_index)
    [scenario_fundamentals; scenario_career].

Definition index_first_intro : HandbookNavItem.t :=
  HandbookNavItem.mk "" "index" 999 (Some "X") 5.
Definition index_first_zeta : HandbookNavItem.t :=
  HandbookNavItem.mk "zeta" "zeta" 999 (Some "X") 1.

Definition index_first_category : HandbookCategory.t :=
  HandbookCategory.mk "X" "x" 1 [index_first_zeta].

Definition index_first_nav : HandbookNavigation.t :=
  HandbookNavigation.mk (Some index_first_intro) [index_first_category].

Definition zero_a : HandbookNavItem.t := HandbookNavItem.mk "a" "a" 3 (Some "A") 0.
Definition zero_b : HandbookNavItem.t := HandbookNavItem.mk "b" "b" 0 (Some "A") 1.
Definition zero_c : HandbookNavItem.t := HandbookNavItem.mk "c" "c" 1 (Some "B") 5.

Definition zero_category_A : HandbookCategory.t :=
  HandbookCategory.mk "A" "a" 999 [zero_b; zero_a].
Definition zero_category_B : HandbookCategory.t :=
  HandbookCategory.mk "B" "b" 5 [zero_c].

Definition zero_nav : HandbookNavigation.t :=
  HandbookNavigation.mk None [zero_category_B; zero_category_A].

Definition orphan_index : HandbookNavItem.t :=
  HandbookNavItem.mk "" "index" 0 None 999.

Definition orphan_page : HandbookPage.t :=
  HandbookPage.mk "orphan" "orphan" "" [] 1 None None "body" "body".

(* ------------------------------------------------------------------ *)
(** ** [getAllCategories] and [generateStaticParams] *)

Definition getAllCategories (dir : ContentDir) : result (list (string * string)) :=
  nav <- getHandbookNavigation dir ;;
  Ok (map (fun c => (HandbookCategory.name c, HandbookCategory.slug c))
          (HandbookNavigation.categories nav)).

(** [slugs.filter(slug => slug !== '').map((slug) => ({ slug }))]; a
    parameter object is represented by its only field. *)
Definition generateStaticParams (dir : ContentDir) : list string :=
  filter (fun slug => negb (String.eqb slug "")) (getAllHandbookSlugs dir).

(* ------------------------------------------------------------------ *)
(** ** [categoryMeta] *)

Record CategoryMeta : Type := mkCategoryMeta {
  meta_description : string;
  meta_keywords : list string
}.

Definition categoryMeta : JsMap.t CategoryMeta :=
  [ ("Fundamentals",
     mkCategoryMeta
       "Master the core concepts of front-end development including JavaScript, HTML, CSS, and browser fundamentals."
       ["javascript fundamentals"; "web fundamentals"; "frontend basics"; "browser apis"]);
    ("Frameworks & Libraries",
     mkCategoryMeta
       "Learn modern front-end frameworks and libraries including React, TypeScript, and state management."
       ["react"; "typescript"; "frontend frameworks"; "state management"; "react hooks"]);
    ("Advanced Topics",
     mkCategoryMeta
       "Advanced front-end engineering topics including performance optimization, system design, and architecture."
       ["web performance"; "frontend architecture"; "system design"; "scalability"]);
    ("Career",
     mkCategoryMeta
       "Career development guidance for front-end engineers including interview preparation and growth strategies."
       ["frontend career"; "software engineering career"; "tech interviews"; "career growth"]) ].

(** The property names every object literal inherits from
    [Object.prototype]. *)
Definition objectPrototypeKeys : list string :=
  [ "constructor"; "__defineGetter__"; "__defineSetter__"; "hasOwnProperty";
    "__lookupGetter__"; "__lookupSetter__"; "isPrototypeOf";
    "propertyIsEnumerable"; "toString"; "valueOf"; "__proto__";
    "toLocaleString" ].

(** The value of [categoryMeta[key]]: an entry of the table, an inherited
    member (a truthy value without [description] or [keywords]), or
    [undefined]. *)
Inductive MetaLookup : Type :=
| OwnMeta (m : CategoryMeta)
| InheritedMember
| NoMeta.

Definition categoryMetaAt (key : string) : MetaLookup :=
  match JsMap.get categoryMeta key with
  | Some m => OwnMeta m
  | None =>
      if existsb (String.eqb key) objectPrototypeKeys then InheritedMember
      else NoMeta
  end.

(* ------------------------------------------------------------------ *)
(** ** JSON-LD and metadata objects *)

Unset Elimination Schemes.

Inductive json : Type :=
| JUndefined
| JString (s : string)
| JNumber (n : Z)
| JBool (b : bool)
| JArray (elements : list json)
| JObject (fields : list (string * json)).

Set Elimination Schemes.

(** [o.key], for a key the literal writes once. *)
Definition field (key : string) (o : json) : option json :=
  match o with
  | JObject fields => JsMap.get fields key
  | _ => None
  end.

(** [keywords.join(', ')]. *)
Definition join (separator : string) (l : list string) : string :=
  String.concat separator l.

Definition toLowerCaseString (s : string) : string :=
  string_of_list_ascii (JsString.toLowerCase (list_ascii_of_string s)).

Definition pageUrl (slug : string) : string :=
  ("https://dima-tolmachev.com/front-end-engineer-handbook/" ++ slug)%string.

(** [generateJsonLd] of the article route.  The constant [categorySlug] it
    computes is not used by the returned object. *)
Definition generateJsonLd (page : HandbookPage.t) (slug : string) : json :=
  let url := pageUrl slug in
  JObject
    ([ ("@context", JString "https://schema.org");
       ("@type", JString "TechArticle");
       ("headline", JString (HandbookPage.title page));
       ("description", JString (HandbookPage.description page));
       ("author",
        JObject [ ("@type", JString "Person");
                  ("name", JString "Dima Tolmachev");
                  ("url", JString "https://dima-tolmachev.com") ]);
       ("publisher",
        JObject [ ("@type", JString "Person");
                  ("name", JString "Dima Tolmachev") ]);
       ("mainEntityOfPage",
        JObject [ ("@type", JString "WebPage"); ("@id", JString url) ]);
       ("url", JString url);
       ("keywords", JString (join ", " (HandbookPage.keywords page)));
       ("articleSection",
        JString (or_string (HandbookPage.category page) "Technology"));
       ("inLanguage", JString "en-US");
       ("isPartOf",
        JObject [ ("@type", JString "Book");
                  ("name", JString "Front-end Engineer Handbook");
                  ("url", JString handbookUrl) ]) ]
     ++ match HandbookPage.category page with
        | Some c =>
            if JsString.truthy c then
              match categoryMetaAt c with
              | OwnMeta m =>
                  [ ("about",
                     JObject [ ("@type", JString "Thing");
                               ("name", JString c);
                               ("description", JString (meta_description m)) ]) ]
              | InheritedMember =>
                  [ ("about",
                     JObject [ ("@type", JString "Thing");
                               ("name", JString c);
                               ("description", JUndefined) ]) ]
              | NoMeta => []
              end
            else []
        | None => []
        end).

(** The [faqs] array of [generateFAQJsonLd]: question and answer. *)
Definition faqsOf (page : HandbookPage.t) (category : string) : list (string * string) :=
  if String.eqb category "Fundamentals" then
    [ (("What are the key " ++ toLowerCaseString (HandbookPage.title page)
        ++ " concepts every front-end developer should know?")%string,
       HandbookPage.description page) ]
  else if String.eqb category "Frameworks & Libraries" then
    [ (("How do I get started with " ++ HandbookPage.title page ++ "?")%string,
       HandbookPage.description page) ]
  else if String.eqb category "Career" then
    [ (("How can " ++ toLowerCaseString (HandbookPage.title page)
        ++ " help my front-end career?")%string,
       HandbookPage.description page) ]
  else [].

Definition generateFAQJsonLd (page : HandbookPage.t) : option json :=
  match HandbookPage.category page with
  | Some c =>
      if JsString.truthy c then
        match faqsOf page c with
        | [] => None
        | faqs =>
            Some (JObject
              [ ("@context", JString "https://schema.org");
                ("@type", JString "FAQPage");
                ("mainEntity",
                 JArray (map (fun faq =>
                   JObject [ ("@type", JString "Question");
                             ("name", JString (fst faq));
                             ("acceptedAnswer",
                              JObject [ ("@type", JString "Answer");
                                        ("text", JString (snd faq)) ]) ])
                   faqs)) ])
        end
      else None
  | None => None
  end.

(** The keywords [generateMetadata] collects: the page's own, then
    [(page.category && categoryMeta[page.category]?.keywords) || []]. *)
Definition metadataKeywords (page : HandbookPage.t) : list string :=
  HandbookPage.keywords page
  ++ match HandbookPage.category page with
     | Some c =>
         if JsString.truthy c then
           match categoryMetaAt c with
           | OwnMeta m => meta_keywords m
           | InheritedMember => []
           | NoMeta => []
           end
         else []
     | None => []
     end.

Definition robotsMetadata : json :=
  JObject [ ("index", JBool true);
            ("follow", JBool true);
            ("googleBot",
             JObject [ ("index", JBool true);
                       ("follow", JBool true);
                       ("max-video-preview", JNumber (-1));
                       ("max-image-preview", JString "large");
                       ("max-snippet", JNumber (-1)) ]) ].

Section Routes.
Variable remarkHtml : string -> string.

(** [generateMetadata] of the article route. *)
Definition generateMetadata (dir : ContentDir) (slug : string) : result json :=
  page <- getHandbookPage remarkHtml dir slug ;;
  match page with
  | None => Ok (JObject [ ("title", JString "Page Not Found") ])
  | Some page =>
      let title := HandbookPage.title page in
      let fullTitle := (title ++ " | Front-end Engineer Handbook")%string in
      let description := HandbookPage.description page in
      let url := pageUrl slug in
      Ok (JObject
        [ ("title", JString title);
          ("description", JString description);
          ("keywords", JString (join ", " (metadataKeywords page)));
          ("authors", JArray [ JObject [ ("name", JString "Dima Tolmachev") ] ]);
          ("creator", JString "Dima Tolmachev");
          ("publisher", JString "Dima Tolmachev");
          ("openGraph",
           JObject
             ([ ("title", JString fullTitle);
                ("description", JString description);
                ("type", JString "article");
                ("url", JString url);
                ("siteName", JString "Front-end Engineer Handbook");
                ("locale", JString "en_US");
                ("images",
                 JArray [ JObject [ ("url", JString "/og-handbook.png");
                                    ("width", JNumber 1200);
                                    ("height", JNumber 630);
                                    ("alt", JString title) ] ]) ]
              ++ match HandbookPage.category page with
                 | Some c => if JsString.truthy c then [ ("section", JString c) ] else []
                 | None => []
                 end));
          ("twitter",
           JObject [ ("card", JString "summary_large_image");
                     ("title", JString fullTitle);
                     ("description", JString description);
                     ("creator", JString "@dimatolmachev");
                     ("images", JArray [ JString "/og-handbook.png" ]) ]);
          ("robots", robotsMetadata);
          ("alternates", JObject [ ("canonical", JString url) ]) ])
  end.

(** What a route component comes to: a rendered tree, the [notFound()]
    signal, or an exception. *)
Inductive outcome (A : Type) : Type :=
| Rendered (a : A)
| NotFound
| Failed (e : string).

(** The values the article route passes to the tree it renders. *)
Record ArticleView : Type := mkArticleView {
  view_navigation : HandbookNavigation.t;
  view_articleJsonLd : json;
  view_breadcrumbJsonLd : list ListItem;
  view_faqJsonLd : option json;
  view_page : HandbookPage.t;
  view_prevNext : option HandbookNavItem.t * option HandbookNavItem.t
}.

(** [HandbookArticlePage], lines 235-272. *)
Definition HandbookArticlePage (dir : ContentDir) (slug : string)
    : outcome ArticleView :=
  match getHandbookNavigation dir with
  | Throw e => Failed ArticleView e
  | Ok navigation =>
      match getAllHandbookPages dir with
      | Throw e => Failed ArticleView e
      | Ok pages =>
          match getHandbookPage remarkHtml dir slug with
          | Throw e => Failed ArticleView e
          | Ok None => NotFound ArticleView
          | Ok (Some page) =>
              Rendered ArticleView
                {| view_navigation := navigation;
                   view_articleJsonLd := generateJsonLd page slug;
                   view_breadcrumbJsonLd := generateBreadcrumbJsonLd page slug;
                   view_faqJsonLd := generateFAQJsonLd page;
                   view_page := page;
                   view_prevNext := ArticleContent page pages |}
          end
      end
  end.

(** The values the handbook index route passes on; [None] is the
    [Page not found] element it renders when there is no [index.md]. *)
Record IndexView : Type := mkIndexView {
  index_navigation : HandbookNavigation.t;
  index_page : HandbookPage.t;
  index_prevNext : option HandbookNavItem.t * option HandbookNavItem.t
}.

(** The default export [HandbookPage] of
    [src/app/front-end-engineer-handbook/page.tsx]; the JSON-LD scripts it
    also emits depend on the page alone. *)
Definition HandbookIndexPage (dir : ContentDir) : outcome (option IndexView) :=
  match getHandbookNavigation dir with
  | Throw e => Failed _ e
  | Ok navigation =>
      match getAllHandbookPages dir with
      | Throw e => Failed _ e
      | Ok pages =>
          match getHandbookPage remarkHtml dir "" with
          | Throw e => Failed _ e
          | Ok None => Rendered _ None
          | Ok (Some page) =>
              Rendered _
                (Some {| index_navigation := navigation;
                         index_page := page;
                         index_prevNext := ArticleContent page pages |})
          end
      end
  end.

End Routes.

Arguments Rendered {A} a.
Arguments NotFound {A}.
Arguments Failed {A} e.

(* ------------------------------------------------------------------ *)
(** ** The sidebar *)

Module JsSet.

(** [Set<string>]: members in insertion order. *)
Definition t : Type := list string.

Definition has (s : t) (x : string) : bool := existsb (String.eqb x) s.

Definition add (s : t) (x : string) : t := if has s x then s else s ++ [x].


End JsSet.

Module Sidebar.

(** [s.slice(n)] for [n >= 0]. *)
Fixpoint slice (n : nat) (s : string) : string :=
  match n, s with
  | O, _ => s
  | S n', String _ t => slice n' t
  | S _, EmptyString => EmptyString
  end.

(** [s.replace(pattern, '')] with a string pattern: the first occurrence
    goes. *)
Fixpoint remove_first (pattern s : string) : string :=
  if String.prefix pattern s then slice (String.length pattern) s
  else match s with
       | EmptyString => EmptyString
       | String c t => String c (remove_first pattern t)
       end.

(** Lines 106-109. *)
Definition currentSlug (pathname : string) : string :=
  let path := remove_first "/front-end-engineer-handbook" pathname in
  if String.eqb path "" || String.eqb path "/" then "" else slice 1 path.

(** The [href] of a [CategoryItem], line 21. *)
Definition categoryItemHref (page : HandbookNavItem.t) : string :=
  ("/front-end-engineer-handbook/" ++ HandbookNavItem.slug page)%string.

Definition hasItem (slug : string) (category : HandbookCategory.t) : bool :=
  existsb (fun item => String.eqb (HandbookNavItem.slug item) slug)
    (HandbookCategory.items category).

(** [navigation.categories.find(category => category.items.some(...))]. *)
Definition activeCategory (navigation : HandbookNavigation.t) (slug : string)
    : option HandbookCategory.t :=
  find (hasItem slug) (HandbookNavigation.categories navigation).

(** The state the mount effect leaves, lines 116-124. *)
Definition expandOnMount (navigation : HandbookNavigation.t) (slug : string) : JsSet.t :=
  match activeCategory navigation slug with
  | Some active => [HandbookCategory.slug active]
  | None => []
  end.

(** The state update of the navigation effect, lines 127-137. *)
Definition expandOnNavigate (navigation : HandbookNavigation.t) (slug : string)
    (mounted : bool) (expandedCategories : JsSet.t) : JsSet.t :=
  if negb mounted then expandedCategories
  else match activeCategory navigation slug with
       | Some active =>
           if negb (JsSet.has expandedCategories (HandbookCategory.slug active))
           then JsSet.add expandedCategories (HandbookCategory.slug active)
           else expandedCategories
       | None => expandedCategories
       end.


(** Lines 158-164. *)
Definition categoryActiveStates (navigation : HandbookNavigation.t) (slug : string)
    : JsMap.t bool :=
  fold_left
    (fun states category =>
       JsMap.set states (HandbookCategory.slug category) (hasItem slug category))
    (HandbookNavigation.categories navigation) [].

(** [expandedCategories.has(category.slug)], line 238. *)
Definition isExpanded (expandedCategories : JsSet.t) (category : HandbookCategory.t)
    : bool :=
  JsSet.has expandedCategories (HandbookCategory.slug category).


(** [categoryActiveStates.get(category.slug) || false]. *)
Definition hasActiveItem (states : JsMap.t bool) (category : HandbookCategory.t) : bool :=
  match JsMap.get states (HandbookCategory.slug category) with
  | Some b => b
  | None => false
  end.

End Sidebar.

(** The [href] of the previous and next links of [ArticleContent], lines 49
    and 61. *)
Definition articleLinkHref (target : HandbookNavItem.t) : string :=
  if String.eqb (HandbookNavItem.slug target) "" then "/front-end-engineer-handbook"
  else ("/front-end-engineer-handbook/" ++ HandbookNavItem.slug target)%string.

(* ------------------------------------------------------------------ *)
(** ** Vocabulary for the generated objects *)

(** [o.k1.k2...]. *)
Fixpoint path (keys : list string) (o : json) : option json :=
  match keys with
  | [] => Some o
  | k :: rest =>
      match field k o with
      | Some v => path rest v
      | None => None
      end
  end.

(** [c] is an ASCII letter or digit: [toLowerCase] sends it into
    [a-z0-9]. *)
Definition is_alphanumeric (c : ascii) : bool :=
  JsString.is_slug_char (JsString.lower_char c).

(* ------------------------------------------------------------------ *)
(** ** Paths: [path.join] and [fs.existsSync]

    [path.join(handbookDirectory, fileName)] normalises the joined path:
    empty segments and [.] are dropped and [..] leaves the directory it
    follows.  A slug with separators can therefore name a file that is not
    an entry of the content directory, or an entry under another
    spelling.  The model is that of POSIX paths, with names compared
    character by character. *)

Module Fs.

(** [p.split('/')]. *)
Fixpoint segments (p : string) : list string :=
  match p with
  | EmptyString => [EmptyString]
  | String c t =>
      if Ascii.eqb c "/" then EmptyString :: segments t
      else match segments t with
           | segment :: rest => String c segment :: rest
           | [] => [String c EmptyString]
           end
  end.

(** One segment met while normalising an absolute path, whose segments so
    far are [stack]. *)
Definition step (stack : list string) (segment : string) : list string :=
  if String.eqb segment "" || String.eqb segment "." then stack
  else if String.eqb segment ".." then removelast stack
  else stack ++ [segment].

(** [path.join(base, relative)] for a normalised absolute [base]. *)
Definition join (base : list string) (relative : string) : list string :=
  fold_left step (segments relative) base.

(** [p] without the leading [base], if it starts with it. *)
Fixpoint strip_prefix (base p : list string) : option (list string) :=
  match base, p with
  | [], _ => Some p
  | b :: base', s :: p' => if String.eqb b s then strip_prefix base' p' else None
  | _ :: _, [] => None
  end.

(** The name under which [p] is a direct child of [base]. *)
Definition childName (base p : list string) : option string :=
  match strip_prefix base p with
  | Some [name] => Some name
  | _ => None
  end.

(** The file system the handbook code reads: the working directory, the
    entries of the content directory in [readdirSync] order, and whatever
    lies at any other normalised absolute path. *)
Record t : Type := mk {
  cwd : list string;
  handbook : ContentDir;
  elsewhere : list string -> option DirEntry
}.

(** [path.join(process.cwd(), 'content/handbook')]. *)
Definition handbookDirectory (fs : t) : list string :=
  join (cwd fs) "content/handbook".

Definition nodeAt (fs : t) (p : list string) : option DirEntry :=
  match childName (handbookDirectory fs) p with
  | Some name => option_map entry (lookupFile (handbook fs) name)
  | None => elsewhere fs p
  end.

Definition existsSync (fs : t) (p : list string) : bool :=
  match nodeAt fs p with
  | Some _ => true
  | None => false
  end.

(** [fs.readFileSync] followed by [matter]. *)
Definition readEntry (e : DirEntry) : result Matter :=
  match e with
  | RegularFile parsed => parsed
  | Subdirectory => Throw "EISDIR: illegal operation on a directory, read"
  end.

(** [getHandbookPage], lines 137-164, for any slug. *)
Definition getHandbookPage (remarkHtml : string -> string) (fs : t) (slug : string)
    : result (option HandbookPage.t) :=
  let fullPath := join (handbookDirectory fs) (fileNameOfSlug slug) in
  if negb (existsSync fs fullPath) then Ok None
  else match nodeAt fs fullPath with
       | Some e => m <- readEntry e ;; Ok (Some (pageOf remarkHtml slug m))
       | None => Throw "ENOENT: no such file or directory, open"
       end.

End Fs.

(** [slug] holds a path separator. *)
Fixpoint has_slash (s : string) : bool :=
  match s with
  | EmptyString => false
  | String c t => Ascii.eqb c "/" || has_slash t
  end.

(** A file system with a page next to the content directory. *)
Definition sample_fs : Fs.t :=
  Fs.mk ["srv"; "site"] scenario_dir
    (fun p =>
       if list_eq_dec string_dec p ["srv"; "site"; "content"; "outside.md"]
       then Some (RegularFile (Ok (mkMatter (frontMatter None None None) "outside")))
       else None).

(** A file system whose content directory is [dir], with nothing beside
    it. *)
Definition fs_of (dir : ContentDir) : Fs.t :=
  Fs.mk ["srv"; "site"] dir (fun _ => None).

(** A page next to a markdown file on which [matter] throws and to a file
    named [.md], without [index.md]. *)
Definition mixed_dir : ContentDir :=
  [ mkFile "bad.md" (RegularFile (Throw "YAMLException"));
    markdown "a.md" (frontMatter None None None);
    markdown ".md" (frontMatter None None None) ].

(** The introduction declares a category with [categoryOrder: 0]; the first
    page grouped under the category declares 3. *)
Definition index_zero_dir : ContentDir :=
  [ markdown "index.md" (frontMatter None (Some "X") (Some 0));
    markdown "zeta.md" (frontMatter None (Some "X") (Some 3)) ].

Definition index_zero_intro : HandbookNavItem.t :=
  HandbookNavItem.mk "" "index" 999 (Some "X") 0.
Definition index_zero_zeta : HandbookNavItem.t :=
  HandbookNavItem.mk "zeta" "zeta" 999 (Some "X") 3.

Definition index_zero_category : HandbookCategory.t :=
  HandbookCategory.mk "X" "x" 3 [index_zero_zeta].

Definition index_zero_nav : HandbookNavigation.t :=
  HandbookNavigation.mk (Some index_zero_intro) [index_zero_category].

(** Two categories whose names give the same slug. *)
Definition colliding_dir : ContentDir :=
  [ markdown "templates.md" (frontMatter None (Some "C++") (Some 1));
    markdown "linq.md" (frontMatter None (Some "C#") (Some 2)) ].

Definition colliding_templates : HandbookNavItem.t :=
  HandbookNavItem.mk "templates" "templates" 999 (Some "C++") 1.
Definition colliding_linq : HandbookNavItem.t :=
  HandbookNavItem.mk "linq" "linq" 999 (Some "C#") 2.

Definition colliding_cpp : HandbookCategory.t :=
  HandbookCategory.mk "C++" "c" 1 [colliding_templates].
Definition colliding_csharp : HandbookCategory.t :=
  HandbookCategory.mk "C#" "c" 2 [colliding_linq].

Definition colliding_nav : HandbookNavigation.t :=
  HandbookNavigation.mk None [colliding_cpp; colliding_csharp].

(* ------------------------------------------------------------------ *)
(** ** [slugifyCategory] on UTF-16 strings

    A JavaScript string is a sequence of 16-bit code units, and
    [toLowerCase] follows the Unicode case mapping: it can send a
    character outside ASCII into [a-z] (U+212A to [k]) or to several code
    units (U+0130).  Here the string is a list of code units and
    [toLowerCase] is a parameter, of which only its action on ASCII
    strings is used. *)

Module Utf16.

Local Open Scope N_scope.

(** The code unit is in the character class [a-z0-9]. *)
Definition is_slug_unit (u : N) : bool :=
  (97 <=? u) && (u <=? 122) || (48 <=? u) && (u <=? 57).

Definition hyphen : N := 45.

Definition is_hyphen (u : N) : bool := u =? hyphen.

Definition is_ascii (u : N) : bool := u <? 128.

(** [toLowerCase] on an ASCII code unit. *)
Definition lower_ascii (u : N) : N :=
  if (65 <=? u) && (u <=? 90) then u + 32 else u.

(** What is known of [String.prototype.toLowerCase]: on a string of ASCII
    characters it lower-cases the letters and keeps the rest. *)
Definition ascii_law (toLowerCase : list N -> list N) : Prop :=
  forall l, forallb is_ascii l = true -> toLowerCase l = map lower_ascii l.

(** [.replace(/[^a-z0-9]+/g, '-')]. *)
Fixpoint replace_runs (in_run : bool) (l : list N) : list N :=
  match l with
  | [] => []
  | u :: t =>
      if is_slug_unit u then u :: replace_runs false t
      else if in_run then replace_runs true t
           else hyphen :: replace_runs true t
  end.

Definition strip_leading (l : list N) : list N :=
  match l with
  | u :: t => if is_hyphen u then t else l
  | [] => []
  end.

Fixpoint strip_trailing (l : list N) : list N :=
  match l with
  | [] => []
  | [u] => if is_hyphen u then [] else [u]
  | u :: t => u :: strip_trailing t
  end.

(** [.replace(/(^-|-$)/g, '')]. *)
Definition trim_hyphens (l : list N) : list N :=
  strip_trailing (strip_leading l).

(** [slugifyCategory], lines 61-63. *)
Definition slugifyCategory (toLowerCase : list N -> list N) (category : list N)
    : list N :=
  trim_hyphens (replace_runs false (toLowerCase category)).

(** *** The slug in the words of the handbook description

    Lower-case the name, replace each run of non-alphanumeric characters
    with a single hyphen, trim the leading and trailing hyphens. *)

(** What follows the run of non-alphanumeric characters [l] starts with. *)
Fixpoint drop_run (l : list N) : list N :=
  match l with
  | u :: t => if is_slug_unit u then l else drop_run t
  | [] => []
  end.

Fixpoint replace_each_run_upto (fuel : nat) (l : list N) : list N :=
  match fuel with
  | O => []
  | S fuel' =>
      match l with
      | [] => []
      | u :: t =>
          if is_slug_unit u then u :: replace_each_run_upto fuel' t
          else hyphen :: replace_each_run_upto fuel' (drop_run t)
      end
  end.

Definition replace_each_run (l : list N) : list N :=
  replace_each_run_upto (length l) l.

Fixpoint drop_leading_hyphens (l : list N) : list N :=
  match l with
  | u :: t => if is_hyphen u then drop_leading_hyphens t else l
  | [] => []
  end.

Fixpoint drop_trailing_hyphens (l : list N) : list N :=
  match l with
  | [] => []
  | u :: t =>
      match drop_trailing_hyphens t with
      | [] => if is_hyphen u then [] else [u]
      | t' => u :: t'
      end
  end.

Definition slugify_spec (toLowerCase : list N -> list N) (name : list N) : list N :=
  drop_trailing_hyphens (drop_leading_hyphens (replace_each_run (toLowerCase name))).

(** *** Shape of a slug *)

Fixpoint collapsed (after_hyphen : bool) (l : list N) : bool :=
  match l with
  | [] => true
  | u :: t =>
      if is_slug_unit u then collapsed false t
      else is_hyphen u && negb after_hyphen && collapsed true t
  end.

Definition head_not_hyphen (l : list N) : bool :=
  match l with
  | u :: _ => negb (is_hyphen u)
  | [] => true
  end.

(** The code units of an 8-bit string. *)
Definition of_string (s : string) : list N :=
  map N_of_ascii (list_ascii_of_string s).

(** A [toLowerCase] that agrees with the Unicode mapping on ASCII, on the
    Kelvin sign U+212A and on U+0130. *)
Definition toLowerCase_sample (l : list N) : list N :=
  flat_map
    (fun u =>
       if u =? 8490 then [107]
       else if u =? 304 then [105; 775]
            else [lower_ascii u])
    l.

End Utf16.

(* ================================================================== *)
(** * Properties *)

(** ** Slugs *)

Section SlugFacts.
Import JsString.

Lemma slug_char_not_hyphen (c : ascii) :
  is_slug_char c = true -> is_hyphen c = false.
Proof.
  unfold is_hyphen. destruct (Ascii.eqb_spec c "-"%char) as [-> | ]; [ | reflexivity].
  vm_compute. discriminate.
Qed.

Lemma lower_char_slug (c : ascii) : is_slug_char c = true -> lower_char c = c.
Proof.
  unfold lower_char, is_slug_char.
  destruct ((65 <=? code c)%N && (code c <=? 90)%N) eqn:E; [ | reflexivity].
  intros H. exfalso.
  apply andb_prop in E as [E1 E2].
  apply N.leb_le in E1, E2.
  apply orb_prop in H as [H | H]; apply andb_prop in H as [H1 H2];
    apply N.leb_le in H1, H2; lia.
Qed.

Lemma lower_char_hyphen (c : ascii) : is_hyphen c = true -> lower_char c = c.
Proof.
  unfold is_hyphen. intros H. apply Ascii.eqb_eq in H. subst c. reflexivity.
Qed.

Lemma replace_runs_collapsed (l : list ascii) :
  forall b, collapsed b (replace_runs b l) = true.
Proof.
  induction l as [ | c t IH]; intros b; simpl; [reflexivity | ].
  destruct (is_slug_char c) eqn:E.
  - simpl. rewrite E. apply IH.
  - destruct b; [apply IH | ].
    simpl. rewrite IH. reflexivity.
Qed.

Lemma collapsed_weaken (l : list ascii) :
  collapsed true l = true -> collapsed false l = true.
Proof.
  destruct l as [ | c t]; simpl; [reflexivity | ].
  destruct (is_slug_char c); [tauto | ].
  rewrite andb_false_r. discriminate.
Qed.

Lemma replace_runs_fixed (l : list ascii) :
  forall b, collapsed b l = true -> replace_runs b l = l.
Proof.
  induction l as [ | c t IH]; intros b; simpl; [reflexivity | ].
  destruct (is_slug_char c).
  - intros H. f_equal. apply IH, H.
  - intros H. apply andb_prop in H as [H Ht]. apply andb_prop in H as [Hc Hb].
    destruct b; [discriminate | ].
    apply Ascii.eqb_eq in Hc. subst c. f_equal. apply IH, Ht.
Qed.

Lemma toLowerCase_fixed (l : list ascii) :
  forall b, collapsed b l = true -> toLowerCase l = l.
Proof.
  induction l as [ | c t IH]; intros b; simpl; [reflexivity | ].
  destruct (is_slug_char c) eqn:E.
  - intros H. rewrite (lower_char_slug c E). f_equal. eapply IH, H.
  - intros H. apply andb_prop in H as [H Ht]. apply andb_prop in H as [Hc _].
    rewrite (lower_char_hyphen c Hc). f_equal. eapply IH, Ht.
Qed.

Lemma strip_leading_collapsed (l : list ascii) :
  collapsed false l = true -> collapsed false (strip_leading l) = true.
Proof.
  destruct l as [ | c t]; simpl; [reflexivity | ].
  destruct (is_hyphen c) eqn:Hc.
  - destruct (is_slug_char c) eqn:E.
    + apply slug_char_not_hyphen in E. congruence.
    + simpl. intros H. apply collapsed_weaken, H.
  - simpl. rewrite Hc. tauto.
Qed.

Lemma strip_trailing_collapsed (l : list ascii) :
  forall b, collapsed b l = true -> collapsed b (strip_trailing l) = true.
Proof.
  induction l as [ | c t IH]; intros b; [reflexivity | ].
  destruct t as [ | c' t'].
  - simpl. destruct (is_hyphen c) eqn:Hc; [reflexivity | ].
    simpl. rewrite Hc. tauto.
  - change (strip_trailing (c :: c' :: t')) with (c :: strip_trailing (c' :: t')).
    remember (c' :: t') as u. simpl.
    destruct (is_slug_char c).
    + apply IH.
    + intros H. apply andb_prop in H as [H Ht]. rewrite H. apply IH, Ht.
Qed.

Lemma strip_leading_head (l : list ascii) :
  collapsed false l = true -> head_not_hyphen (strip_leading l) = true.
Proof.
  destruct l as [ | c t]; simpl; [reflexivity | ].
  destruct (is_hyphen c) eqn:Hc; [ | simpl; rewrite Hc; reflexivity].
  destruct (is_slug_char c) eqn:E.
  - apply slug_char_not_hyphen in E. congruence.
  - simpl. destruct t as [ | c' t']; simpl; [reflexivity | ].
    destruct (is_slug_char c') eqn:E'.
    + intros _. rewrite (slug_char_not_hyphen c' E'). reflexivity.
    + rewrite andb_false_r. discriminate.
Qed.

Lemma strip_trailing_head (l : list ascii) :
  head_not_hyphen l = true -> head_not_hyphen (strip_trailing l) = true.
Proof.
  destruct l as [ | c [ | c' t']]; simpl; try tauto.
  destruct (is_hyphen c) eqn:Hc; [reflexivity | ]. simpl. rewrite Hc. tauto.
Qed.

Lemma strip_leading_fixed (l : list ascii) :
  head_not_hyphen l = true -> strip_leading l = l.
Proof.
  destruct l as [ | c t]; simpl; [reflexivity | ].
  destruct (is_hyphen c); [discriminate | reflexivity].
Qed.

Lemma strip_trailing_idem (l : list ascii) :
  forall b, collapsed b l = true ->
  strip_trailing (strip_trailing l) = strip_trailing l.
Proof.
  induction l as [ | c t IH]; intros b; [reflexivity | ].
  destruct t as [ | c' t'].
  - simpl. destruct (is_hyphen c) eqn:Hc; [reflexivity | ].
    simpl. rewrite Hc. reflexivity.
  - change (strip_trailing (c :: c' :: t')) with (c :: strip_trailing (c' :: t')).
    intros H.
    assert (Ht : exists b', collapsed b' (c' :: t') = true).
    { remember (c' :: t') as u. simpl in H.
      destruct (is_slug_char c); [eauto | ].
      apply andb_prop in H as [_ H]. eauto. }
    destruct Ht as [b' Ht]. specialize (IH b' Ht).
    destruct (strip_trailing (c' :: t')) as [ | d u] eqn:Eu.
    + (* the tail was a lone hyphen, so [c] is not one *)
      destruct t' as [ | c'' t''].
      * simpl in Eu. destruct (is_hyphen c') eqn:Hc'; [ | discriminate].
        remember [c'] as u. simpl in H. subst u.
        destruct (is_slug_char c) eqn:E.
        -- simpl. rewrite (slug_char_not_hyphen c E). reflexivity.
        -- apply andb_prop in H as [_ H]. simpl in H.
           destruct (is_slug_char c') eqn:E'.
           ++ apply slug_char_not_hyphen in E'. congruence.
           ++ rewrite andb_false_r in H. discriminate.
      * discriminate.
    + change (strip_trailing (c :: d :: u)) with (c :: strip_trailing (d :: u)).
      rewrite IH. reflexivity.
Qed.

Lemma trim_hyphens_collapsed (l : list ascii) :
  collapsed false l = true -> collapsed false (trim_hyphens l) = true.
Proof.
  intros H. unfold trim_hyphens.
  apply strip_trailing_collapsed, strip_leading_collapsed, H.
Qed.

Lemma trim_hyphens_idem (l : list ascii) :
  collapsed false l = true -> trim_hyphens (trim_hyphens l) = trim_hyphens l.
Proof.
  intros H. unfold trim_hyphens.
  rewrite (strip_leading_fixed (strip_trailing (strip_leading l))).
  - apply (strip_trailing_idem _ false), strip_leading_collapsed, H.
  - apply strip_trailing_head, strip_leading_head, H.
Qed.

Lemma slugify_chars_collapsed (l : list ascii) :
  collapsed false (slugify_chars l) = true.
Proof.
  apply trim_hyphens_collapsed, replace_runs_collapsed.
Qed.

Lemma slugify_chars_idem (l : list ascii) :
  slugify_chars (slugify_chars l) = slugify_chars l.
Proof.
  pose proof (slugify_chars_collapsed l) as H.
  unfold slugify_chars at 1.
  rewrite (toLowerCase_fixed _ false H), (replace_runs_fixed _ false H).
  apply trim_hyphens_idem, replace_runs_collapsed.
Qed.

End SlugFacts.

(** On 8-bit names, applying [slugifyCategory] to its own result changes
    nothing. *)
Lemma slugifyCategory_8bit_idem :
  (forall s : string, slugifyCategory (slugifyCategory s) = slugifyCategory s)
  /\ slugifyCategory "Frameworks & Libraries" = "frameworks-libraries".
Proof.
  split; [ | reflexivity].
  intros s. unfold slugifyCategory.
  rewrite list_ascii_of_string_of_list_ascii.
  f_equal. apply slugify_chars_idem.
Qed.

(* ------------------------------------------------------------------ *)
(** ** The stable sort *)

Section SortFacts.
Context {A : Type} (key : A -> Z).

Lemma insert_by_perm (x : A) (l : list A) :
  Permutation (insert_by key x l) (x :: l).
Proof.
  induction l as [ | y t IH]; simpl; [reflexivity | ].
  destruct (key x <=? key y); [reflexivity | ].
  rewrite IH. apply perm_swap.
Qed.

Lemma sort_by_perm (l : list A) : Permutation (sort_by key l) l.
Proof.
  induction l as [ | x t IH]; simpl; [reflexivity | ].
  rewrite insert_by_perm. apply perm_skip, IH.
Qed.

Lemma insert_by_sorted (x : A) (l : list A) :
  StronglySorted (key_le key) l -> StronglySorted (key_le key) (insert_by key x l).
Proof.
  induction 1 as [ | y t Hs IH Hall]; simpl.
  - repeat constructor.
  - destruct (Z.leb_spec (key x) (key y)) as [Hle | Hgt].
    + constructor; [constructor; assumption | ].
      constructor; [exact Hle | ].
      eapply Forall_impl; [ | exact Hall].
      unfold key_le. intros a Ha. lia.
    + constructor; [exact IH | ].
      eapply Permutation_Forall; [symmetry; apply insert_by_perm | ].
      constructor; [unfold key_le; lia | exact Hall].
Qed.

Lemma sort_by_sorted (l : list A) : StronglySorted (key_le key) (sort_by key l).
Proof.
  induction l as [ | x t IH]; simpl; [constructor | ].
  apply insert_by_sorted, IH.
Qed.

(** Stability: the elements with a given key keep their relative order. *)
Lemma insert_by_filter (k : Z) (x : A) (l : list A) :
  filter (fun a => key a =? k) (insert_by key x l)
  = filter (fun a => key a =? k) (x :: l).
Proof.
  induction l as [ | y t IH]; [reflexivity | ].
  simpl insert_by.
  destruct (Z.leb_spec (key x) (key y)) as [Hle | Hgt]; [reflexivity | ].
  simpl in *. rewrite IH.
  destruct (Z.eqb_spec (key x) k) as [Hx | Hx]; [ | reflexivity].
  destruct (Z.eqb_spec (key y) k) as [Hy | Hy]; [lia | reflexivity].
Qed.

Lemma sort_by_stable (k : Z) (l : list A) :
  filter (fun a => key a =? k) (sort_by key l)
  = filter (fun a => key a =? k) l.
Proof.
  induction l as [ | x t IH]; [reflexivity | ].
  simpl sort_by. rewrite insert_by_filter. simpl. rewrite IH. reflexivity.
Qed.

Lemma sort_by_In (x : A) (l : list A) : In x (sort_by key l) <-> In x l.
Proof.
  split; apply Permutation_in; [ | symmetry]; apply sort_by_perm.
Qed.

End SortFacts.

(* ------------------------------------------------------------------ *)
(** ** The insertion-ordered map *)

Section JsMapFacts.
Context {V : Type}.
Implicit Types (m : JsMap.t V) (k : string) (v : V).

Lemma get_set_same m k v : JsMap.get (JsMap.set m k v) k = Some v.
Proof.
  induction m as [ | [k' v'] r IH]; simpl.
  - rewrite String.eqb_refl. reflexivity.
  - destruct (String.eqb k' k) eqn:E; simpl; rewrite E; [reflexivity | exact IH].
Qed.

Lemma get_set_other m k v k' :
  k <> k' -> JsMap.get (JsMap.set m k v) k' = JsMap.get m k'.
Proof.
  intros Hne. induction m as [ | [k0 v0] r IH]; simpl.
  - apply String.eqb_neq in Hne. rewrite Hne. reflexivity.
  - destruct (String.eqb_spec k0 k) as [-> | Hk]; simpl.
    + apply String.eqb_neq in Hne. rewrite Hne. reflexivity.
    + rewrite IH. reflexivity.
Qed.

Lemma get_None_keys m k : JsMap.get m k = None <-> ~ In k (JsMap.keys m).
Proof.
  induction m as [ | [k0 v0] r IH]; simpl; [tauto | ].
  destruct (String.eqb_spec k0 k) as [-> | Hk].
  - split; [discriminate | tauto].
  - rewrite IH. tauto.
Qed.

Lemma set_absent m k v : JsMap.get m k = None -> JsMap.set m k v = m ++ [(k, v)].
Proof.
  induction m as [ | [k0 v0] r IH]; simpl; [reflexivity | ].
  destruct (String.eqb k0 k); [discriminate | ].
  intros H. rewrite (IH H). reflexivity.
Qed.

Lemma keys_set_present m k v v0 :
  JsMap.get m k = Some v0 -> JsMap.keys (JsMap.set m k v) = JsMap.keys m.
Proof.
  induction m as [ | [k0 v1] r IH]; simpl; [discriminate | ].
  destruct (String.eqb k0 k); [reflexivity | ].
  intros H. simpl. f_equal. apply IH, H.
Qed.

Lemma keys_set_NoDup m k v :
  NoDup (JsMap.keys m) -> NoDup (JsMap.keys (JsMap.set m k v)).
Proof.
  intros Hnd. destruct (JsMap.get m k) as [v0 | ] eqn:E.
  - rewrite (keys_set_present m k v v0 E). exact Hnd.
  - rewrite (set_absent m k v E). unfold JsMap.keys. rewrite map_app. simpl.
    apply NoDup_app; [exact Hnd | repeat constructor; simpl; tauto | ].
    intros x Hx [<- | []]. apply get_None_keys in E. tauto.
Qed.

Lemma In_get m k v : NoDup (JsMap.keys m) -> In (k, v) m -> JsMap.get m k = Some v.
Proof.
  induction m as [ | [k0 v0] r IH]; simpl; [tauto | ].
  intros Hnd [Heq | Hin].
  - inversion Heq; subst. rewrite String.eqb_refl. reflexivity.
  - inversion Hnd as [ | ? ? Hnotin Hnd']; subst.
    destruct (String.eqb_spec k0 k) as [-> | Hk].
    + exfalso. apply Hnotin. change k with (fst (k, v)). apply in_map, Hin.
    + apply IH; assumption.
Qed.

End JsMapFacts.

Lemma concat_set_push {V : Type} (m : JsMap.t (list V)) (k : string) (its x : list V) :
  JsMap.get m k = Some its ->
  Permutation (concat (map snd (JsMap.set m k (its ++ x)))) (concat (map snd m) ++ x).
Proof.
  induction m as [ | [k0 v0] r IH]; simpl; [discriminate | ].
  destruct (String.eqb k0 k).
  - intros H. inversion H; subst. simpl.
    rewrite <- !app_assoc. apply Permutation_app_head, Permutation_app_comm.
  - intros H. simpl. rewrite <- app_assoc. apply Permutation_app_head, IH, H.
Qed.

Lemma Permutation_concat {V : Type} (l l' : list (list V)) :
  Permutation l l' -> Permutation (concat l) (concat l').
Proof.
  induction 1; simpl.
  - reflexivity.
  - apply Permutation_app_head. assumption.
  - rewrite !app_assoc. apply Permutation_app_tail, Permutation_app_comm.
  - etransitivity; eassumption.
Qed.

Lemma concat_map_perm {U V : Type} (f g : U -> list V) (l : list U) :
  (forall u, Permutation (f u) (g u)) ->
  Permutation (concat (map f l)) (concat (map g l)).
Proof.
  intros H. induction l as [ | u t IH]; simpl; [reflexivity | ].
  apply Permutation_app; [apply H | exact IH].
Qed.

(* ------------------------------------------------------------------ *)
(** ** The grouping loop *)

Lemma nonempty_Some {A : Type} (l its : list A) :
  nonempty l = Some its -> l = its /\ its <> [].
Proof.
  destruct l; simpl; [discriminate | ].
  intros H. inversion H; subst. split; [reflexivity | discriminate].
Qed.

Lemma nonempty_None {A : Type} (l : list A) : nonempty l = None -> l = [].
Proof. destruct l; [reflexivity | discriminate]. Qed.

Lemma nonempty_snoc {A : Type} (l : list A) (x : A) :
  nonempty (l ++ [x]) = Some (l ++ [x]).
Proof. destruct l; reflexivity. Qed.

Lemma first_order_snoc (its : list HandbookNavItem.t) (p : HandbookNavItem.t) :
  its <> [] -> first_order (its ++ [p]) = first_order its.
Proof. destruct its; [congruence | reflexivity]. Qed.

Lemma group_step_skip (st : GroupState) (p : HandbookNavItem.t) :
  truthy_opt (HandbookNavItem.category p) = false -> group_step st p = st.
Proof.
  unfold group_step, truthy_opt.
  destruct (HandbookNavItem.category p) as [c | ]; [ | reflexivity].
  intros ->. reflexivity.
Qed.

Lemma grouped_under_skip (c : string) (p : HandbookNavItem.t) :
  truthy_opt (HandbookNavItem.category p) = false -> grouped_under c p = false.
Proof.
  unfold grouped_under, truthy_opt.
  destruct (HandbookNavItem.category p) as [c' | ]; [ | reflexivity].
  intros ->. reflexivity.
Qed.

Lemma group_step_inv (l : list HandbookNavItem.t) (st : GroupState)
    (p : HandbookNavItem.t) :
  group_inv l st -> group_inv (l ++ [p]) (group_step st p).
Proof.
  destruct st as [cm om]. unfold group_inv at 1. cbn [fst snd].
  intros (Hnd & Hcm & Hom & Hperm).
  destruct (truthy_opt (HandbookNavItem.category p)) eqn:Et.
  2:{ rewrite (group_step_skip _ _ Et). unfold group_inv.
      split; [exact Hnd | ].
      repeat split; intros; rewrite filter_app; simpl;
        rewrite ?(grouped_under_skip _ _ Et), ?Et, app_nil_r; auto. }
  assert (Hc0 : exists c0, HandbookNavItem.category p = Some c0
                           /\ JsString.truthy c0 = true).
  { unfold truthy_opt in Et. destruct (HandbookNavItem.category p); eauto.
    discriminate. }
  destruct Hc0 as (c0 & Ecat & Etr).
  assert (Hself : grouped_under c0 p = true).
  { unfold grouped_under. rewrite Ecat, Etr, String.eqb_refl. reflexivity. }
  assert (Hother : forall c, c0 <> c -> grouped_under c p = false).
  { intros c Hne. unfold grouped_under. rewrite Ecat.
    apply String.eqb_neq in Hne. rewrite Hne. apply andb_false_r. }
  unfold group_step. rewrite Ecat, Etr. cbn [fst snd].
  unfold JsMap.has.
  destruct (JsMap.get cm c0) as [its | ] eqn:Eget; cbn [negb fst snd].
  - (* the category has been seen before *)
    unfold push_item. rewrite Eget.
    pose proof (Hcm c0) as Hits. rewrite Eget in Hits.
    symmetry in Hits. apply nonempty_Some in Hits as [Hits Hne].
    unfold group_inv; cbn [fst snd]. repeat split.
    + apply keys_set_NoDup, Hnd.
    + intros c. rewrite filter_app. simpl.
      destruct (String.eqb_spec c0 c) as [<- | Hc].
      * rewrite get_set_same, Hself, Hits. symmetry. apply nonempty_snoc.
      * rewrite get_set_other by exact Hc.
        rewrite (Hother c Hc), app_nil_r. apply Hcm.
    + intros c. rewrite filter_app. simpl.
      destruct (String.eqb_spec c0 c) as [<- | Hc].
      * rewrite Hself, Hits, first_order_snoc by exact Hne.
        rewrite <- Hits. apply Hom.
      * rewrite (Hother c Hc), app_nil_r. apply Hom.
    + rewrite filter_app. simpl. rewrite Et.
      rewrite (concat_set_push cm c0 its [p] Eget).
      apply Permutation_app_tail, Hperm.
  - (* first page of its category *)
    unfold push_item. rewrite get_set_same.
    pose proof (Hcm c0) as Hits. rewrite Eget in Hits.
    symmetry in Hits. apply nonempty_None in Hits.
    unfold group_inv; cbn [fst snd]. repeat split.
    + apply keys_set_NoDup, keys_set_NoDup, Hnd.
    + intros c. rewrite filter_app. simpl.
      destruct (String.eqb_spec c0 c) as [<- | Hc].
      * rewrite get_set_same, Hself, Hits. reflexivity.
      * rewrite !get_set_other by exact Hc.
        rewrite (Hother c Hc), app_nil_r. apply Hcm.
    + intros c. rewrite filter_app. simpl.
      destruct (String.eqb_spec c0 c) as [<- | Hc].
      * rewrite get_set_same, Hself, Hits. reflexivity.
      * rewrite get_set_other by exact Hc.
        rewrite (Hother c Hc), app_nil_r. apply Hom.
    + rewrite filter_app. simpl. rewrite Et.
      rewrite (concat_set_push (JsMap.set cm c0 []) c0 [] [p])
        by apply get_set_same.
      rewrite (set_absent cm c0 [] Eget), map_app, concat_app. simpl.
      rewrite app_nil_r. apply Permutation_app_tail, Hperm.
Qed.

Lemma group_pages_inv (l : list HandbookNavItem.t) : group_inv l (group_pages l).
Proof.
  unfold group_pages.
  induction l as [ | p l IH] using rev_ind.
  - simpl. unfold group_inv. simpl. repeat split; auto. constructor.
  - rewrite fold_left_app. simpl. apply group_step_inv, IH.
Qed.

(* ------------------------------------------------------------------ *)
(** ** File names and slugs *)

Section NameFacts.
Import JsString.

Lemma endsWith_eq (s suffix : string) :
  endsWith s suffix =
  if String.eqb s suffix then true
  else match s with
       | EmptyString => false
       | String _ t => endsWith t suffix
       end.
Proof. destruct s; reflexivity. Qed.

Lemma strip_md_eq (s : string) :
  strip_md s =
  if String.eqb s ".md" then EmptyString
  else match s with
       | EmptyString => EmptyString
       | String c t => String c (strip_md t)
       end.
Proof. destruct s; reflexivity. Qed.

Lemma strip_md_append (s : string) :
  endsWith s ".md" = true -> s = (strip_md s ++ ".md")%string.
Proof.
  induction s as [ | c t IH]; [discriminate | ].
  rewrite endsWith_eq, strip_md_eq.
  destruct (String.eqb_spec (String c t) ".md") as [E | E].
  - intros _. exact E.
  - intros H. simpl. f_equal. apply IH, H.
Qed.

Lemma fileNameOfSlug_slug (file_name : string) :
  endsWith file_name ".md" = true ->
  slugOfFileName file_name <> "" ->
  fileNameOfSlug (slugOfFileName file_name) = file_name.
Proof.
  intros Hmd Hne. unfold fileNameOfSlug.
  destruct (String.eqb_spec (slugOfFileName file_name) "") as [E | _]; [tauto | ].
  unfold slugOfFileName in *.
  destruct (String.eqb (strip_md file_name) "index"); [tauto | ].
  symmetry. apply strip_md_append, Hmd.
Qed.

Lemma empty_slug_names (file_name : string) :
  endsWith file_name ".md" = true ->
  slugOfFileName file_name = "" ->
  file_name = "index.md" \/ file_name = ".md".
Proof.
  intros Hmd. apply strip_md_append in Hmd. unfold slugOfFileName.
  destruct (String.eqb_spec (strip_md file_name) "index") as [E | _].
  - intros _. left. rewrite Hmd, E. reflexivity.
  - intros E. right. rewrite Hmd, E. reflexivity.
Qed.

End NameFacts.

Lemma navItemOf_slug (file_name : string) (d : FrontMatter) :
  HandbookNavItem.slug (navItemOf file_name d) = slugOfFileName file_name.
Proof. reflexivity. Qed.

(* ------------------------------------------------------------------ *)
(** ** Reading the directory *)

Lemma mapM_Forall2 {A B : Type} (f : A -> result B) (l : list A) :
  forall ys, mapM f l = Ok ys -> Forall2 (fun x y => f x = Ok y) l ys.
Proof.
  induction l as [ | x t IH]; simpl; intros ys H.
  - inversion H. constructor.
  - destruct (f x) as [y | e] eqn:Ex; simpl in H; [ | discriminate].
    destruct (mapM f t) as [ys' | e] eqn:Et; simpl in H; [ | discriminate].
    inversion H; subst. constructor; [exact Ex | apply IH; reflexivity].
Qed.

Lemma Forall2_In_l {A B : Type} (R : A -> B -> Prop) (l : list A) (l' : list B) :
  Forall2 R l l' -> forall x, In x l -> exists y, In y l' /\ R x y.
Proof.
  induction 1 as [ | a b t t' Hab _ IH]; simpl; [tauto | ].
  intros x [-> | Hin]; [eauto | ].
  destruct (IH x Hin) as (y & Hy & Hr). eauto.
Qed.

Lemma Forall2_In_r {A B : Type} (R : A -> B -> Prop) (l : list A) (l' : list B) :
  Forall2 R l l' -> forall y, In y l' -> exists x, In x l /\ R x y.
Proof.
  induction 1 as [ | a b t t' Hab _ IH]; simpl; [tauto | ].
  intros y [-> | Hin]; [eauto | ].
  destruct (IH y Hin) as (x & Hx & Hr). eauto.
Qed.

Lemma readNavItem_Ok (f : ContentFile) (it : HandbookNavItem.t) :
  readNavItem f = Ok it ->
  exists m, readMatter f = Ok m /\ it = navItemOf (fileName f) (data m).
Proof.
  unfold readNavItem. destruct (readMatter f) as [m | e]; simpl; [ | discriminate].
  intros H. inversion H. eauto.
Qed.

(** Every page of [allPages] comes from a markdown entry that parses. *)
Lemma allPages_In (dir : ContentDir) (pages : list HandbookNavItem.t)
    (it : HandbookNavItem.t) :
  allPages dir = Ok pages -> In it pages ->
  exists f m, In f dir /\ is_md f = true /\ readMatter f = Ok m
              /\ it = navItemOf (fileName f) (data m).
Proof.
  intros H Hin. apply mapM_Forall2 in H.
  destruct (Forall2_In_r _ _ _ H it Hin) as (f & Hf & Hr).
  apply filter_In in Hf as [Hf Hmd].
  apply readNavItem_Ok in Hr as (m & Hm & ->). eauto 6.
Qed.

(** Every markdown entry parses when [allPages] returns, and its page is
    listed. *)
Lemma allPages_file (dir : ContentDir) (pages : list HandbookNavItem.t)
    (f : ContentFile) :
  allPages dir = Ok pages -> In f dir -> is_md f = true ->
  exists m, readMatter f = Ok m /\ In (navItemOf (fileName f) (data m)) pages.
Proof.
  intros H Hin Hmd. apply mapM_Forall2 in H.
  assert (Hf : In f (filter is_md dir)) by (apply filter_In; auto).
  destruct (Forall2_In_l _ _ _ H f Hf) as (it & Hit & Hr).
  apply readNavItem_Ok in Hr as (m & Hm & ->). eauto.
Qed.

Lemma allPages_slugs (dir : ContentDir) (pages : list HandbookNavItem.t) :
  allPages dir = Ok pages ->
  map HandbookNavItem.slug pages
  = map slugOfFileName (map fileName (filter is_md dir)).
Proof.
  intros H. apply mapM_Forall2 in H.
  induction H as [ | f it t t' Hr _ IH]; simpl; [reflexivity | ].
  apply readNavItem_Ok in Hr as (m & _ & ->). rewrite IH. reflexivity.
Qed.

Lemma same_name_same_file (dir : ContentDir) (f g : ContentFile) :
  NoDup (map fileName dir) -> In f dir -> In g dir ->
  fileName f = fileName g -> f = g.
Proof.
  induction dir as [ | h t IH]; simpl; [tauto | ].
  intros Hnd Hf Hg E. inversion Hnd as [ | ? ? Hnotin Hnd']; subst.
  destruct Hf as [-> | Hf], Hg as [-> | Hg]; auto.
  - exfalso. apply Hnotin. rewrite E. apply in_map, Hg.
  - exfalso. apply Hnotin. rewrite <- E. apply in_map, Hf.
Qed.

Lemma lookupFile_In (dir : ContentDir) (f : ContentFile) :
  NoDup (map fileName dir) -> In f dir -> lookupFile dir (fileName f) = Some f.
Proof.
  intros Hnd Hin. unfold lookupFile.
  destruct (find (fun g => String.eqb (fileName g) (fileName f)) dir) as [g | ] eqn:E.
  - apply find_some in E as [Hg E]. apply String.eqb_eq in E.
    f_equal. eapply same_name_same_file; eassumption.
  - eapply find_none in E; [ | exact Hin]. rewrite String.eqb_refl in E.
    discriminate.
Qed.

Lemma lookupFile_None (dir : ContentDir) (file_name : string) :
  lookupFile dir file_name = None <-> ~ In file_name (map fileName dir).
Proof.
  unfold lookupFile. split.
  - intros H Hin. apply in_map_iff in Hin as (f & <- & Hf).
    eapply find_none in H; [ | exact Hf]. rewrite String.eqb_refl in H.
    discriminate.
  - intros H.
    destruct (find (fun f => String.eqb (fileName f) file_name) dir) as [g | ] eqn:E;
      [ | reflexivity].
    apply find_some in E as [Hg E]. apply String.eqb_eq in E.
    exfalso. apply H. rewrite <- E. apply in_map, Hg.
Qed.

(* ------------------------------------------------------------------ *)
(** ** The assembled navigation *)

Lemma filter_filter {A : Type} (f g : A -> bool) (l : list A) :
  filter f (filter g l) = filter (fun x => g x && f x) l.
Proof.
  induction l as [ | x t IH]; simpl; [reflexivity | ].
  destruct (g x); simpl; [ | exact IH].
  destruct (f x); rewrite IH; reflexivity.
Qed.

Lemma is_categorized_inv (p : HandbookNavItem.t) :
  is_categorized p = true ->
  HandbookNavItem.slug p <> "" /\ truthy_opt (HandbookNavItem.category p) = true.
Proof.
  unfold is_categorized. intros H. apply andb_prop in H as [Hs Hc].
  split; [ | exact Hc].
  apply negb_true_iff, String.eqb_neq in Hs. exact Hs.
Qed.

Lemma filter_categorized_truthy (pages : list HandbookNavItem.t) :
  filter (fun p => truthy_opt (HandbookNavItem.category p)) (filter is_categorized pages)
  = filter is_categorized pages.
Proof.
  rewrite filter_filter. apply filter_ext. intros p.
  destruct (is_categorized p) eqn:E; [ | reflexivity].
  apply is_categorized_inv in E as [_ ->]. reflexivity.
Qed.

Lemma filter_categorized_grouped (c : string) (pages : list HandbookNavItem.t) :
  filter (grouped_under c) (filter is_categorized pages)
  = filter (belongs_to c) pages.
Proof. apply filter_filter. Qed.

Lemma buildNavigation_introduction (pages : list HandbookNavItem.t) :
  HandbookNavigation.introduction (buildNavigation pages)
  = find is_introduction pages.
Proof.
  unfold buildNavigation. destruct (group_pages _). reflexivity.
Qed.

(** The categories come out in ascending [order]. *)
Lemma buildNavigation_sorted (pages : list HandbookNavItem.t) :
  StronglySorted (key_le HandbookCategory.order)
    (HandbookNavigation.categories (buildNavigation pages)).
Proof.
  unfold buildNavigation. destruct (group_pages _). cbn.
  apply sort_by_sorted.
Qed.

(** What a category of the navigation is made of: the pages of
    [categorizedPages] that declare its name, sorted, and the
    [categoryOrder] of the first of them, passed twice through [|| 999]. *)
Lemma buildNavigation_category (pages : list HandbookNavItem.t)
    (c : HandbookCategory.t) :
  In c (HandbookNavigation.categories (buildNavigation pages)) ->
  exists p0 rest,
    filter (belongs_to (HandbookCategory.name c)) pages = p0 :: rest
    /\ HandbookCategory.items c = sort_by HandbookNavItem.order (p0 :: rest)
    /\ HandbookCategory.order c
       = or_number (or_number (HandbookNavItem.categoryOrder p0) 999) 999
    /\ HandbookCategory.slug c = slugifyCategory (HandbookCategory.name c).
Proof.
  unfold buildNavigation.
  pose proof (group_pages_inv (filter is_categorized pages)) as Hinv.
  destruct (group_pages (filter is_categorized pages)) as [cm om].
  destruct Hinv as (Hnd & Hcm & Hom & _). cbn [fst snd] in *.
  cbn [HandbookNavigation.categories].
  intros Hin. apply sort_by_In in Hin.
  apply in_map_iff in Hin as (e & <- & He).
  apply in_map_iff in He as ([k its] & <- & Hk).
  cbn [mkCategory fst snd HandbookCategory.name HandbookCategory.items
       HandbookCategory.order HandbookCategory.slug].
  apply (In_get _ _ _ Hnd) in Hk.
  rewrite Hcm, filter_categorized_grouped in Hk.
  apply nonempty_Some in Hk as [Hk Hne].
  destruct its as [ | p0 rest]; [congruence | ].
  exists p0, rest. repeat split; [exact Hk | ].
  rewrite Hom, filter_categorized_grouped, Hk. reflexivity.
Qed.

(** The items of the categories are [categorizedPages], rearranged. *)
Lemma buildNavigation_items (pages : list HandbookNavItem.t) :
  Permutation
    (concat (map HandbookCategory.items
               (HandbookNavigation.categories (buildNavigation pages))))
    (filter is_categorized pages).
Proof.
  unfold buildNavigation.
  pose proof (group_pages_inv (filter is_categorized pages)) as Hinv.
  destruct (group_pages (filter is_categorized pages)) as [cm om].
  destruct Hinv as (_ & _ & _ & Hperm). cbn [fst snd] in *.
  cbn [HandbookNavigation.categories].
  rewrite filter_categorized_truthy in Hperm.
  rewrite <- Hperm.
  etransitivity.
  { apply Permutation_concat, Permutation_map, sort_by_perm. }
  unfold JsMap.map_values. rewrite !map_map. cbn [mkCategory HandbookCategory.items snd].
  apply concat_map_perm. intros e. apply sort_by_perm.
Qed.

Lemma flatten_In (pages : list HandbookNavItem.t) (it : HandbookNavItem.t) :
  In it (flatten (buildNavigation pages)) <->
  find is_introduction pages = Some it \/ (In it pages /\ is_categorized it = true).
Proof.
  unfold flatten. rewrite buildNavigation_introduction, in_app_iff.
  assert (Hc : In it (concat (map HandbookCategory.items
                     (HandbookNavigation.categories (buildNavigation pages))))
               <-> In it pages /\ is_categorized it = true).
  { rewrite <- filter_In. split; apply Permutation_in;
      [ | symmetry]; apply buildNavigation_items. }
  rewrite Hc. destruct (find is_introduction pages) as [i | ]; simpl.
  - split; intros [H | H]; auto.
    + destruct H as [-> | []]. auto.
    + inversion H. auto.
  - split; intros [H | H]; auto; [contradiction | discriminate].
Qed.

Lemma category_item (pages : list HandbookNavItem.t) (c : HandbookCategory.t)
    (it : HandbookNavItem.t) :
  In c (HandbookNavigation.categories (buildNavigation pages)) ->
  In it (HandbookCategory.items c) ->
  In it pages /\ belongs_to (HandbookCategory.name c) it = true.
Proof.
  intros Hc Hit.
  destruct (buildNavigation_category pages c Hc) as (p0 & rest & Hf & Hi & _).
  rewrite Hi in Hit. apply sort_by_In in Hit. rewrite <- Hf in Hit.
  apply filter_In in Hit. exact Hit.
Qed.

(* ------------------------------------------------------------------ *)
(** ** Positional lookup *)

Section FindIndex.
Context {A : Type} (p : A -> bool).

Lemma findIndex_from_absent (l : list A) :
  forall i, (forall x, In x l -> p x = false) -> findIndex_from p l i = -1.
Proof.
  induction l as [ | x t IH]; intros i H; simpl; [reflexivity | ].
  rewrite (H x) by (left; reflexivity).
  apply IH. intros y Hy. apply H. right. exact Hy.
Qed.

Lemma findIndex_from_first (l : list A) :
  forall (n : nat) (i : Z) (x : A),
    nth_error l n = Some x -> p x = true ->
    (forall m y, (m < n)%nat -> nth_error l m = Some y -> p y = false) ->
    findIndex_from p l i = i + Z.of_nat n.
Proof.
  induction l as [ | x0 t IH]; intros n i x Hn Hx Hbefore.
  - destruct n; discriminate.
  - destruct n as [ | n']; simpl in *.
    + inversion Hn; subst. rewrite Hx. lia.
    + rewrite (Hbefore 0%nat x0) by (auto; lia).
      rewrite (IH n' (i + 1) x Hn Hx); [lia | ].
      intros m y Hm Hy. apply (Hbefore (S m) y); [lia | exact Hy].
Qed.

End FindIndex.

Lemma at_index_nat {A : Type} (l : list A) (n : nat) :
  at_index l (Z.of_nat n) = nth_error l n.
Proof.
  unfold at_index. destruct (Z.ltb_spec (Z.of_nat n) 0) as [H | _]; [lia | ].
  rewrite Nat2Z.id. reflexivity.
Qed.

(** Where the slugs are pairwise distinct, [findIndex] lands on the only
    position that holds the slug. *)
Lemma ArticleContent_at (page : HandbookPage.t) (pages : list HandbookNavItem.t)
    (i : nat) (p : HandbookNavItem.t) :
  NoDup (map HandbookNavItem.slug pages) ->
  nth_error pages i = Some p ->
  HandbookPage.slug page = HandbookNavItem.slug p ->
  ArticleContent page pages
  = (match i with O => None | S j => nth_error pages j end, nth_error pages (S i)).
Proof.
  intros Hnd Hi Hslug. unfold ArticleContent, findIndex.
  assert (Hlen : (i < length pages)%nat) by (apply nth_error_Some; congruence).
  rewrite (findIndex_from_first _ pages i 0 p Hi).
  - f_equal.
    + destruct i as [ | j]; [reflexivity | ].
      destruct (Z.gtb_spec (0 + Z.of_nat (S j)) 0) as [_ | H]; [ | lia].
      replace (0 + Z.of_nat (S j) - 1) with (Z.of_nat j) by lia.
      apply at_index_nat.
    + destruct (Z.ltb_spec (0 + Z.of_nat i) (Z.of_nat (length pages) - 1)) as [_ | H].
      * replace (0 + Z.of_nat i + 1) with (Z.of_nat (S i)) by lia.
        apply at_index_nat.
      * symmetry. apply nth_error_None. lia.
  - rewrite Hslug. apply String.eqb_refl.
  - intros m y Hm Hy. apply String.eqb_neq. rewrite Hslug. intros E.
    assert (Hm' : m = i).
    { apply (proj1 (NoDup_nth_error (map HandbookNavItem.slug pages)) Hnd).
      - rewrite length_map. lia.
      - rewrite !nth_error_map, Hy, Hi. simpl. f_equal. exact E. }
    lia.
Qed.

(** With the slug nowhere in a list that starts with [first], the index is
    -1: the test [-1 > 0] fails, the test [-1 < length - 1] succeeds, and
    [pages[0]] is read. *)
Lemma ArticleContent_absent (page : HandbookPage.t) (first : HandbookNavItem.t)
    (rest : list HandbookNavItem.t) :
  ~ In (HandbookPage.slug page) (map HandbookNavItem.slug (first :: rest)) ->
  ArticleContent page (first :: rest) = (None, Some first).
Proof.
  intros Hnot. unfold ArticleContent, findIndex.
  rewrite findIndex_from_absent.
  - destruct (Z.ltb_spec (-1) (Z.of_nat (length (first :: rest)) - 1)) as [_ | H].
    + reflexivity.
    + rewrite length_cons in H. lia.
  - intros x Hx. apply String.eqb_neq. intros E. apply Hnot.
    rewrite <- E. apply in_map, Hx.
Qed.

(* ------------------------------------------------------------------ *)
(** ** Slugs of the flattened list are pairwise distinct *)

Lemma NoDup_map_filter {A B : Type} (f : A -> B) (g : A -> bool) (l : list A) :
  NoDup (map f l) -> NoDup (map f (filter g l)).
Proof.
  induction l as [ | x t IH]; simpl; [tauto | ].
  intros H. inversion H as [ | ? ? Hnotin Hnd]; subst.
  destruct (g x); simpl; [ | auto].
  constructor; [ | auto].
  intros Hin. apply Hnotin. apply in_map_iff in Hin as (y & E & Hy).
  apply filter_In in Hy as [Hy _]. rewrite <- E. apply in_map, Hy.
Qed.

Lemma filter_map_comm {A B : Type} (f : A -> B) (g : B -> bool) (l : list A) :
  filter g (map f l) = map f (filter (fun x => g (f x)) l).
Proof.
  induction l as [ | x t IH]; simpl; [reflexivity | ].
  destruct (g (f x)); simpl; rewrite IH; reflexivity.
Qed.

Lemma slugs_of_names_NoDup (names : list string) :
  NoDup names ->
  (forall n, In n names -> JsString.endsWith n ".md" = true) ->
  NoDup (filter (fun s => negb (String.eqb s "")) (map slugOfFileName names)).
Proof.
  induction names as [ | a t IH]; simpl; [constructor | ].
  intros Hnd Hmd. inversion Hnd as [ | ? ? Hnotin Hnd']; subst.
  assert (IH' := IH Hnd' (fun n Hn => Hmd n (or_intror Hn))).
  destruct (String.eqb_spec (slugOfFileName a) "") as [E | E]; simpl; [exact IH' | ].
  constructor; [ | exact IH'].
  intros Hin. apply filter_In in Hin as [Hin _].
  apply in_map_iff in Hin as (n & En & Hn).
  apply Hnotin.
  rewrite <- (fileNameOfSlug_slug a) by auto.
  rewrite <- En, fileNameOfSlug_slug; [exact Hn | auto | congruence].
Qed.

Lemma categorized_slugs_NoDup (dir : ContentDir) (pages : list HandbookNavItem.t) :
  NoDup (map fileName dir) -> allPages dir = Ok pages ->
  NoDup (map HandbookNavItem.slug (filter is_categorized pages)).
Proof.
  intros Hnd Hpages.
  assert (H1 : NoDup (filter (fun s => negb (String.eqb s ""))
                        (map HandbookNavItem.slug pages))).
  { rewrite (allPages_slugs dir pages Hpages).
    apply slugs_of_names_NoDup.
    - apply NoDup_map_filter, Hnd.
    - intros n Hn. apply in_map_iff in Hn as (f & <- & Hf).
      apply filter_In in Hf as [_ Hf]. exact Hf. }
  rewrite filter_map_comm in H1.
  apply (NoDup_map_filter _ (fun p => truthy_opt (HandbookNavItem.category p))) in H1.
  rewrite filter_filter in H1. exact H1.
Qed.

Lemma flatten_slugs_NoDup (dir : ContentDir) (pages : list HandbookNavItem.t) :
  NoDup (map fileName dir) -> allPages dir = Ok pages ->
  NoDup (map HandbookNavItem.slug (flatten (buildNavigation pages))).
Proof.
  intros Hnd Hpages.
  pose proof (categorized_slugs_NoDup dir pages Hnd Hpages) as Hcat.
  pose proof (buildNavigation_items pages) as Hperm.
  unfold flatten. rewrite buildNavigation_introduction, map_app.
  assert (Hrest : NoDup (map HandbookNavItem.slug
             (concat (map HandbookCategory.items
                (HandbookNavigation.categories (buildNavigation pages)))))).
  { eapply Permutation_NoDup; [ | exact Hcat].
    symmetry. apply Permutation_map, Hperm. }
  destruct (find is_introduction pages) as [i | ] eqn:Ei; simpl; [ | exact Hrest].
  constructor; [ | exact Hrest].
  apply find_some in Ei as [_ Ei]. unfold is_introduction in Ei.
  apply String.eqb_eq in Ei. rewrite Ei.
  intros Hin. apply in_map_iff in Hin as (it & E & Hit).
  eapply Permutation_in in Hit; [ | exact Hperm].
  apply filter_In in Hit as [_ Hit].
  apply is_categorized_inv in Hit as [Hne _]. congruence.
Qed.

(* ================================================================== *)
(** * The handbook properties *)

(** ** Previous and next page *)

(** C1.  When the current slug is nowhere in a non-empty flattened list,
    the positional lookup gives index -1; [prevPage] is then absent, but
    [nextPage] is the first page of the list, not absent. *)
Theorem prev_next_of_unlisted_slug (page : HandbookPage.t)
    (pages : list HandbookNavItem.t) :
  pages <> [] ->
  ~ In (HandbookPage.slug page) (map HandbookNavItem.slug pages) ->
  fst (ArticleContent page pages) = None
  /\ snd (ArticleContent page pages) = hd_error pages
  /\ snd (ArticleContent page pages) <> None.
Proof.
  intros Hne Hnot. destruct pages as [ | first rest]; [congruence | ].
  rewrite (ArticleContent_absent page first rest Hnot). simpl.
  repeat split. discriminate.
Qed.

Lemma prev_next_of_unlisted_slug_witness :
  getAllHandbookPages orphan_dir = Ok [orphan_index]
  /\ getHandbookPage identity_html orphan_dir "orphan" = Ok (Some orphan_page)
  /\ [orphan_index] <> []
  /\ ~ In (HandbookPage.slug orphan_page) (map HandbookNavItem.slug [orphan_index])
  /\ snd (ArticleContent orphan_page [orphan_index]) = Some orphan_index.
Proof.
  assert (Hne : [orphan_index] <> []) by discriminate.
  assert (Hnot : ~ In (HandbookPage.slug orphan_page)
                      (map HandbookNavItem.slug [orphan_index])).
  { simpl. intros [H | []]. discriminate. }
  split; [reflexivity | ]. split; [reflexivity | ].
  split; [exact Hne | ]. split; [exact Hnot | ].
  exact (proj1 (proj2 (prev_next_of_unlisted_slug orphan_page [orphan_index] Hne Hnot))).
Defined.

(** C2.  In the flattened list of a directory (file names pairwise
    distinct), the page whose slug stands at position [i] has no previous
    page when [i] is first, no next page when [i] is last, and otherwise
    the neighbours at [i-1] and [i+1]. *)
Theorem prev_next_of_listed_slug (dir : ContentDir)
    (pages : list HandbookNavItem.t) (page : HandbookPage.t)
    (i : nat) (p : HandbookNavItem.t) :
  NoDup (map fileName dir) ->
  getAllHandbookPages dir = Ok pages ->
  nth_error pages i = Some p ->
  HandbookPage.slug page = HandbookNavItem.slug p ->
  (i = 0%nat -> fst (ArticleContent page pages) = None)
  /\ (S i = length pages -> snd (ArticleContent page pages) = None)
  /\ ((0 < i)%nat -> (S i < length pages)%nat ->
      fst (ArticleContent page pages) = nth_error pages (i - 1)
      /\ snd (ArticleContent page pages) = nth_error pages (i + 1)
      /\ fst (ArticleContent page pages) <> None
      /\ snd (ArticleContent page pages) <> None).
Proof.
  intros Hnd Hall Hi Hslug.
  unfold getAllHandbookPages, getHandbookNavigation in Hall.
  destruct (allPages dir) as [all | e] eqn:Epages; simpl in Hall; [ | discriminate].
  inversion Hall; subst pages; clear Hall.
  pose proof (flatten_slugs_NoDup dir all Hnd Epages) as Hslugs.
  rewrite (ArticleContent_at page _ i p Hslugs Hi Hslug). cbn [fst snd].
  split; [intros ->; reflexivity | ].
  split; [intros E; apply nth_error_None; lia | ].
  intros Hpos Hlt. destruct i as [ | j]; [lia | ].
  replace (S j - 1)%nat with j by lia. replace (S j + 1)%nat with (S (S j)) by lia.
  repeat split; apply nth_error_Some; lia.
Qed.

Lemma prev_next_of_listed_slug_witness :
  getAllHandbookPages scenario_dir
    = Ok [scenario_index; scenario_b; scenario_c; scenario_a; scenario_d]
  /\ ArticleContent
       (HandbookPage.mk "c" "c" "" [] 1 (Some "Fundamentals") (Some 1) "body" "body")
       [scenario_index; scenario_b; scenario_c; scenario_a; scenario_d]
     = (Some scenario_b, Some scenario_a).
Proof.
  split; [reflexivity | ].
  destruct (proj2 (proj2
    (prev_next_of_listed_slug scenario_dir
       [scenario_index; scenario_b; scenario_c; scenario_a; scenario_d]
       (HandbookPage.mk "c" "c" "" [] 1 (Some "Fundamentals") (Some 1) "body" "body")
       2%nat scenario_c
       ltac:(repeat constructor; simpl; intuition discriminate)
       eq_refl eq_refl eq_refl))
    ltac:(lia) ltac:(simpl; lia)) as (Hprev & Hnext & _).
  apply injective_projections; assumption.
Defined.

(** ** Ordering of the navigation *)

Lemma getHandbookNavigation_Ok (dir : ContentDir) (nav : HandbookNavigation.t) :
  getHandbookNavigation dir = Ok nav ->
  exists pages, allPages dir = Ok pages /\ nav = buildNavigation pages.
Proof.
  unfold getHandbookNavigation.
  destruct (allPages dir) as [pages | e]; simpl; [ | discriminate].
  intros H. inversion H. eauto.
Qed.

Lemma find_filter {A : Type} (f : A -> bool) (l : list A) :
  find f l = hd_error (filter f l).
Proof.
  induction l as [ | x t IH]; simpl; [reflexivity | ].
  destruct (f x); [reflexivity | exact IH].
Qed.

(** C3.  In the navigation of a directory, the categories are in ascending
    [order]; inside a category the items are in ascending [order], and the
    items that share an [order] stand as their files are enumerated:
    [pages] lists the markdown files in directory order, and for each key
    the items with that key are the pages of the category with that key,
    in the order of [pages]. *)
Theorem navigation_sorted_and_stable (dir : ContentDir)
    (nav : HandbookNavigation.t) (pages : list HandbookNavItem.t) :
  getHandbookNavigation dir = Ok nav ->
  allPages dir = Ok pages ->
  Forall2 (fun f p => readNavItem f = Ok p) (filter is_md dir) pages
  /\ StronglySorted (key_le HandbookCategory.order) (HandbookNavigation.categories nav)
  /\ forall c, In c (HandbookNavigation.categories nav) ->
       StronglySorted (key_le HandbookNavItem.order) (HandbookCategory.items c)
       /\ forall k : Z,
            filter (fun p => HandbookNavItem.order p =? k) (HandbookCategory.items c)
            = filter (fun p => HandbookNavItem.order p =? k)
                (filter (belongs_to (HandbookCategory.name c)) pages).
Proof.
  intros Hnav Hpages.
  apply getHandbookNavigation_Ok in Hnav as (pages' & Hpages' & ->).
  assert (pages' = pages) by congruence. subst pages'.
  split; [apply mapM_Forall2, Hpages | ].
  split; [apply buildNavigation_sorted | ].
  intros c Hc.
  destruct (buildNavigation_category pages c Hc) as (p0 & rest & Hf & Hi & _).
  rewrite Hi, Hf. split; [apply sort_by_sorted | ].
  intros k. apply sort_by_stable.
Qed.

Lemma navigation_sorted_and_stable_witness :
  getHandbookNavigation scenario_dir = Ok scenario_nav
  /\ allPages scenario_dir = Ok scenario_pages
  /\ StronglySorted (key_le HandbookNavItem.order)
       (HandbookCategory.items scenario_fundamentals)
  /\ filter (fun p => HandbookNavItem.order p =? 1)
       (HandbookCategory.items scenario_fundamentals)
     = filter (fun p => HandbookNavItem.order p =? 1)
         (filter (belongs_to "Fundamentals") scenario_pages).
Proof.
  split; [reflexivity | ]. split; [reflexivity | ].
  destruct (proj2 (proj2 (navigation_sorted_and_stable scenario_dir scenario_nav
                            scenario_pages eq_refl eq_refl))
              scenario_fundamentals (or_introl eq_refl)) as [Hsorted Hstable].
  split; [exact Hsorted | exact (Hstable 1)].
Defined.

(** C4 fails as stated at these two directories.  In the first the
    introduction is the first file to declare the category "X", with
    [categoryOrder] 5, yet the category gets the order 1 of the next file:
    the introduction is kept out of [categorizedPages].  In the second the
    first file of "A" declares [categoryOrder] 0 and the category gets 999. *)
Lemma category_order_not_of_first_file :
  (allPages index_first_dir = Ok [index_first_intro; index_first_zeta]
   /\ getHandbookNavigation index_first_dir = Ok index_first_nav
   /\ HandbookNavItem.categoryOrder index_first_intro = 5
   /\ HandbookCategory.order index_first_category = 1)
  /\ (allPages zero_dir = Ok [zero_a; zero_b; zero_c]
      /\ getHandbookNavigation zero_dir = Ok zero_nav
      /\ HandbookNavItem.categoryOrder zero_a = 0
      /\ HandbookCategory.order zero_category_A = 999).
Proof. repeat split. Qed.

(** C4, amended.  The order of a category is the [categoryOrder] (999 when
    none is declared) of the first page of [categorizedPages] that declares
    its name, whenever that value is not 0; files that come later do not
    change it. *)
Theorem category_order_first_wins (dir : ContentDir)
    (nav : HandbookNavigation.t) (pages : list HandbookNavItem.t)
    (c : HandbookCategory.t) :
  getHandbookNavigation dir = Ok nav ->
  allPages dir = Ok pages ->
  In c (HandbookNavigation.categories nav) ->
  exists p0,
    find (belongs_to (HandbookCategory.name c)) pages = Some p0
    /\ (HandbookNavItem.categoryOrder p0 <> 0 ->
        HandbookCategory.order c = HandbookNavItem.categoryOrder p0).
Proof.
  intros Hnav Hpages Hc.
  apply getHandbookNavigation_Ok in Hnav as (pages' & Hpages' & ->).
  assert (pages' = pages) by congruence. subst pages'.
  destruct (buildNavigation_category pages c Hc) as (p0 & rest & Hf & _ & Ho & _).
  exists p0. split.
  - rewrite find_filter, Hf. reflexivity.
  - intros Hnz. rewrite Ho. unfold or_number.
    destruct (Z.eqb_spec (HandbookNavItem.categoryOrder p0) 0) as [E | _]; [tauto | ].
    destruct (Z.eqb_spec (HandbookNavItem.categoryOrder p0) 0) as [E | _]; [tauto | ].
    reflexivity.
Qed.

Lemma category_order_first_wins_witness :
  getHandbookNavigation index_first_dir = Ok index_first_nav
  /\ find (belongs_to "X") [index_first_intro; index_first_zeta]
     = Some index_first_zeta
  /\ HandbookCategory.order index_first_category
     = HandbookNavItem.categoryOrder index_first_zeta.
Proof.
  split; [reflexivity | ]. split; [reflexivity | ].
  destruct (category_order_first_wins index_first_dir index_first_nav
              [index_first_intro; index_first_zeta] index_first_category
              eq_refl eq_refl (or_introl eq_refl)) as (p0 & Hfind & Horder).
  injection Hfind as <-. apply Horder. discriminate.
Defined.

(** ** Page lookup *)

Lemma lookupFile_Some (dir : ContentDir) (file_name : string) :
  In file_name (map fileName dir) ->
  exists g, lookupFile dir file_name = Some g /\ In g dir /\ fileName g = file_name.
Proof.
  intros Hin. destruct (lookupFile dir file_name) as [g | ] eqn:E.
  - exists g. split; [reflexivity | ].
    unfold lookupFile in E. apply find_some in E as [Hg E].
    apply String.eqb_eq in E. auto.
  - apply lookupFile_None in E. tauto.
Qed.

Lemma getAllHandbookSlugs_In (dir : ContentDir) (s : string) :
  In s (getAllHandbookSlugs dir) <->
  exists f, In f dir /\ is_md f = true /\ s = slugOfFileName (fileName f).
Proof.
  unfold getAllHandbookSlugs. rewrite in_map_iff. split.
  - intros (f & <- & Hf). apply filter_In in Hf as [Hf Hmd]. eauto.
  - intros (f & Hf & Hmd & ->). exists f. rewrite filter_In. auto.
Qed.

(** ** Breadcrumbs *)

Lemma getHandbookPage_category (remarkHtml : string -> string) (dir : ContentDir)
    (s : string) (page : HandbookPage.t) :
  getHandbookPage remarkHtml dir s = Ok (Some page) ->
  HandbookPage.category page = None
  \/ exists c, HandbookPage.category page = Some c /\ JsString.truthy c = true.
Proof.
  unfold getHandbookPage. destruct (lookupFile dir (fileNameOfSlug s)) as [f | ];
    [ | discriminate].
  destruct (readMatter f) as [m | e]; simpl; [ | discriminate].
  intros H. inversion H; subst. cbn [pageOf HandbookPage.category].
  unfold or_null. destruct (fm_category (data m)) as [c | ]; [ | auto].
  destruct (JsString.truthy c) eqn:E; eauto.
Qed.

(** C8.  For a page that [getHandbookPage] returns, the breadcrumb trail is
    Home, Handbook, Page at positions 1, 2, 3 when the page has no
    category, and Home, Handbook, Category, Page at positions 1, 2, 3, 4
    when it has one. *)
Theorem breadcrumb_depth (remarkHtml : string -> string) (dir : ContentDir)
    (s : string) (page : HandbookPage.t) (slug : string) :
  getHandbookPage remarkHtml dir s = Ok (Some page) ->
  (HandbookPage.category page = None ->
     length (generateBreadcrumbJsonLd page slug) = 3%nat
     /\ map position (generateBreadcrumbJsonLd page slug) = [1; 2; 3]
     /\ map name (generateBreadcrumbJsonLd page slug)
        = ["Home"; "Front-end Engineer Handbook"; HandbookPage.title page])
  /\ (forall c, HandbookPage.category page = Some c ->
        length (generateBreadcrumbJsonLd page slug) = 4%nat
        /\ map position (generateBreadcrumbJsonLd page slug) = [1; 2; 3; 4]
        /\ map name (generateBreadcrumbJsonLd page slug)
           = ["Home"; "Front-end Engineer Handbook"; c; HandbookPage.title page]).
Proof.
  intros Hpage. apply getHandbookPage_category in Hpage.
  unfold generateBreadcrumbJsonLd. split.
  - intros E. rewrite E. simpl. repeat split.
  - intros c E. destruct Hpage as [Hnone | (c' & Ec & Htruthy)]; [congruence | ].
    rewrite E in *. inversion Ec; subst c'. rewrite Htruthy.
    simpl. repeat split.
Qed.

Lemma breadcrumb_depth_witness :
  getHandbookPage identity_html orphan_dir "orphan" = Ok (Some orphan_page)
  /\ HandbookPage.category orphan_page = None
  /\ map name (generateBreadcrumbJsonLd orphan_page "orphan")
     = ["Home"; "Front-end Engineer Handbook"; "orphan"].
Proof.
  split; [reflexivity | ]. split; [reflexivity | ].
  exact (proj2 (proj2 (proj1
    (breadcrumb_depth identity_html orphan_dir "orphan" orphan_page "orphan" eq_refl)
    eq_refl))).
Defined.

(** ** The sentinel 999 *)

(** C9, amended.  A [categoryOrder] of 0 reaches the nav item as 0, as an
    [order] of 0 does; but a category whose first grouped page (the first
    file with a non-empty slug that declares it) carries [categoryOrder] 0
    gets the order 999, as if none had been declared.  In [zero_dir] the
    category "A" so sorts after "B", while inside it the page of [order] 0
    stands first. *)
Theorem zero_category_order_is_sentinel :
  (forall file_name d,
     fm_categoryOrder d = Some 0 ->
     HandbookNavItem.categoryOrder (navItemOf file_name d) = 0)
  /\ (forall file_name d,
        fm_order d = Some 0 -> HandbookNavItem.order (navItemOf file_name d) = 0)
  /\ (forall dir nav pages c p0,
        getHandbookNavigation dir = Ok nav ->
        allPages dir = Ok pages ->
        In c (HandbookNavigation.categories nav) ->
        find (belongs_to (HandbookCategory.name c)) pages = Some p0 ->
        HandbookNavItem.categoryOrder p0 = 0 \/ HandbookNavItem.categoryOrder p0 = 999 ->
        HandbookCategory.order c = 999)
  /\ (getHandbookNavigation zero_dir = Ok zero_nav
      /\ allPages zero_dir = Ok [zero_a; zero_b; zero_c]
      /\ HandbookNavItem.categoryOrder zero_a = 0
      /\ HandbookNavigation.categories zero_nav = [zero_category_B; zero_category_A]
      /\ HandbookCategory.order zero_category_A = 999
      /\ HandbookCategory.items zero_category_A = [zero_b; zero_a]
      /\ HandbookNavItem.order zero_b = 0).
Proof.
  split; [intros file_name d E; unfold navItemOf; simpl; rewrite E; reflexivity | ].
  split; [intros file_name d E; unfold navItemOf; simpl; rewrite E; reflexivity | ].
  split; [ | repeat split].
  intros dir nav pages c p0 Hnav Hpages Hc Hfind Hzero.
  apply getHandbookNavigation_Ok in Hnav as (pages' & Hpages' & ->).
  assert (pages' = pages) by congruence. subst pages'.
  destruct (buildNavigation_category pages c Hc) as (q & rest & Hf & _ & Ho & _).
  rewrite find_filter, Hf in Hfind. simpl in Hfind. inversion Hfind; subst q.
  rewrite Ho. destruct Hzero as [-> | ->]; reflexivity.
Qed.

Lemma zero_category_order_is_sentinel_witness :
  find (belongs_to "A") [zero_a; zero_b; zero_c] = Some zero_a
  /\ HandbookNavItem.categoryOrder zero_a = 0
  /\ HandbookCategory.order zero_category_A = 999.
Proof.
  split; [reflexivity | ]. split; [reflexivity | ].
  exact (proj1 (proj2 (proj2 zero_category_order_is_sentinel))
           zero_dir zero_nav [zero_a; zero_b; zero_c] zero_category_A zero_a
           eq_refl eq_refl (or_intror (or_introl eq_refl)) eq_refl
           (or_introl eq_refl)).
Defined.

(** ** Pages without a category *)

(** C10.  A markdown file with a non-empty slug that declares no category,
    or an empty one, has its page in no category of the navigation and
    nowhere in the flattened list, while [getHandbookPage] returns it; and
    an item of the flattened list without a category is the introduction,
    with the empty slug. *)
Theorem uncategorized_page_unlisted (remarkHtml : string -> string)
    (dir : ContentDir) (nav : HandbookNavigation.t) (f : ContentFile) (m : Matter) :
  NoDup (map fileName dir) ->
  getHandbookNavigation dir = Ok nav ->
  In f dir ->
  is_md f = true ->
  entry f = RegularFile (Ok m) ->
  fm_category (data m) = None \/ fm_category (data m) = Some "" ->
  slugOfFileName (fileName f) <> "" ->
  (forall c, In c (HandbookNavigation.categories nav) ->
     ~ In (slugOfFileName (fileName f))
          (map HandbookNavItem.slug (HandbookCategory.items c)))
  /\ ~ In (slugOfFileName (fileName f)) (map HandbookNavItem.slug (flatten nav))
  /\ (exists page,
        getHandbookPage remarkHtml dir (slugOfFileName (fileName f)) = Ok (Some page)
        /\ HandbookPage.slug page = slugOfFileName (fileName f)
        /\ HandbookPage.category page = None)
  /\ (forall it, In it (flatten nav) ->
        HandbookNavItem.category it = None ->
        HandbookNavItem.slug it = ""
        /\ HandbookNavigation.introduction nav = Some it).
Proof.
  intros Hnd Hnav Hf Hmd Hentry Hcat Hslug.
  apply getHandbookNavigation_Ok in Hnav as (pages & Hpages & ->).
  assert (Hm : readMatter f = Ok m) by (unfold readMatter; rewrite Hentry; reflexivity).
  assert (Hnull : or_null (fm_category (data m)) = None).
  { destruct Hcat as [-> | ->]; reflexivity. }
  assert (Hkey : forall it, In it pages ->
            HandbookNavItem.slug it = slugOfFileName (fileName f) ->
            is_categorized it = false).
  { intros it Hit Eslug.
    destruct (allPages_In dir pages it Hpages Hit) as (g & mg & Hg & Hgmd & Hgm & ->).
    rewrite navItemOf_slug in Eslug.
    assert (Eg : g = f).
    { apply (same_name_same_file dir); auto.
      rewrite <- (fileNameOfSlug_slug (fileName g)), Eslug;
        [apply fileNameOfSlug_slug; auto | exact Hgmd | congruence]. }
    subst g. assert (mg = m) by congruence. subst mg.
    unfold is_categorized. cbn [navItemOf HandbookNavItem.category].
    rewrite Hnull. apply andb_false_r. }
  split; [ | split; [ | split]].
  - intros c Hc Hin. apply in_map_iff in Hin as (it & Eslug & Hit).
    destruct (category_item pages c it Hc Hit) as [Hpage Hbel].
    unfold belongs_to in Hbel. apply andb_prop in Hbel as [Hbel _].
    rewrite (Hkey it Hpage Eslug) in Hbel. discriminate.
  - intros Hin. apply in_map_iff in Hin as (it & Eslug & Hit).
    apply flatten_In in Hit as [Hintro | [Hpage Hc]].
    + apply find_some in Hintro as [_ Hintro]. unfold is_introduction in Hintro.
      apply String.eqb_eq in Hintro. congruence.
    + rewrite (Hkey it Hpage Eslug) in Hc. discriminate.
  - exists (pageOf remarkHtml (slugOfFileName (fileName f)) m).
    unfold getHandbookPage.
    rewrite (fileNameOfSlug_slug (fileName f) Hmd Hslug), (lookupFile_In dir f Hnd Hf), Hm.
    cbn [bind pageOf HandbookPage.slug HandbookPage.category]. rewrite Hnull.
    repeat split.
  - intros it Hit Hnone.
    rewrite buildNavigation_introduction.
    apply flatten_In in Hit as [Hintro | [_ Hc]].
    + split; [ | exact Hintro].
      apply find_some in Hintro as [_ Hintro]. unfold is_introduction in Hintro.
      apply String.eqb_eq in Hintro. exact Hintro.
    + apply is_categorized_inv in Hc as [_ Hc]. rewrite Hnone in Hc. discriminate.
Qed.

Lemma uncategorized_page_unlisted_witness :
  getHandbookNavigation orphan_dir = Ok (HandbookNavigation.mk (Some orphan_index) [])
  /\ ~ In "orphan" (map HandbookNavItem.slug
                     (flatten (HandbookNavigation.mk (Some orphan_index) [])))
  /\ exists page,
       getHandbookPage identity_html orphan_dir "orphan" = Ok (Some page)
       /\ HandbookPage.slug page = "orphan"
       /\ HandbookPage.category page = None.
Proof.
  split; [reflexivity | ].
  destruct (uncategorized_page_unlisted identity_html orphan_dir
              (HandbookNavigation.mk (Some orphan_index) [])
              (markdown "orphan.md" (frontMatter (Some 1) None None))
              (mkMatter (frontMatter (Some 1) None None) "body")
              ltac:(repeat constructor; simpl; intuition discriminate)
              eq_refl
              (or_intror (or_introl eq_refl))
              eq_refl eq_refl (or_introl eq_refl)
              ltac:(discriminate))
    as (_ & Hflat & Hpage & _).
  split; [exact Hflat | exact Hpage].
Defined.

(* ================================================================== *)
(** * Further properties of the navigation *)

(** ** Exceptions while the directory is read *)

Lemma mapM_Throw {A B : Type} (f : A -> result B) (l : list A) (e : string) :
  mapM f l = Throw e <->
  exists before x after,
    l = before ++ x :: after /\ f x = Throw e
    /\ forall y, In y before -> exists b, f y = Ok b.
Proof.
  revert e. induction l as [ | a t IH]; intros e; simpl.
  - split; [discriminate | ].
    intros (before & x & after & E & _). destruct before; discriminate.
  - destruct (f a) as [b | e'] eqn:Ea; simpl.
    + assert (Hshift : (ys <- mapM f t ;; Ok (b :: ys)) = Throw e
                       <-> mapM f t = Throw e).
      { destruct (mapM f t); simpl; split; congruence. }
      rewrite Hshift, IH. split.
      * intros (before & x & after & -> & Hx & Hb).
        exists (a :: before), x, after. repeat split; auto.
        intros y [<- | Hy]; eauto.
      * intros (before & x & after & E & Hx & Hb).
        destruct before as [ | a' before']; simpl in E; inversion E; subst.
        -- congruence.
        -- exists before', x, after. repeat split; auto.
           intros y Hy. apply Hb. right. exact Hy.
    + split.
      * intros H. inversion H; subst e'.
        exists [], a, t. repeat split; auto. intros y [].
      * intros (before & x & after & E & Hx & Hb).
        destruct before as [ | a' before']; simpl in E; inversion E; subst.
        -- congruence.
        -- destruct (Hb a' (or_introl eq_refl)) as (b & Hb'). congruence.
Qed.

Lemma readNavItem_Ok_iff (f : ContentFile) :
  (exists it, readNavItem f = Ok it) <-> (exists m, readMatter f = Ok m).
Proof.
  unfold readNavItem. destruct (readMatter f) as [m | e]; simpl; split;
    intros [x H]; try discriminate; eauto.
Qed.

(** ** What the categories hold *)

Lemma grouped_under_category (c : string) (p : HandbookNavItem.t) :
  grouped_under c p = true <->
  HandbookNavItem.category p = Some c /\ c <> "".
Proof.
  unfold grouped_under. destruct (HandbookNavItem.category p) as [c' | ].
  - rewrite andb_true_iff. unfold JsString.truthy.
    rewrite negb_true_iff, String.eqb_neq, String.eqb_eq. split.
    + intros [Hne ->]. auto.
    + intros [E Hne]. inversion E; subst. auto.
  - split; [discriminate | intros [E _]; discriminate].
Qed.

Lemma belongs_to_inv (c : string) (p : HandbookNavItem.t) :
  belongs_to c p = true <->
  is_categorized p = true /\ HandbookNavItem.category p = Some c.
Proof.
  unfold belongs_to. rewrite andb_true_iff, grouped_under_category. split.
  - intros [Hc [E _]]. auto.
  - intros [Hc E]. split; [exact Hc | ]. split; [exact E | ].
    apply is_categorized_inv in Hc as [_ Hc]. rewrite E in Hc. simpl in Hc.
    unfold JsString.truthy in Hc. apply negb_true_iff, String.eqb_neq in Hc.
    exact Hc.
Qed.

(** X2.  No category of the navigation is empty; each of its items has a
    non-empty slug and declares the category's name, which is not empty;
    and the category slug is [slugifyCategory] of that name. *)
Theorem category_items_declare_its_name (dir : ContentDir)
    (nav : HandbookNavigation.t) (c : HandbookCategory.t) :
  getHandbookNavigation dir = Ok nav ->
  In c (HandbookNavigation.categories nav) ->
  HandbookCategory.items c <> []
  /\ HandbookCategory.name c <> ""
  /\ HandbookCategory.slug c = slugifyCategory (HandbookCategory.name c)
  /\ forall it, In it (HandbookCategory.items c) ->
       HandbookNavItem.category it = Some (HandbookCategory.name c)
       /\ HandbookNavItem.slug it <> "".
Proof.
  intros Hnav Hc.
  apply getHandbookNavigation_Ok in Hnav as (pages & Hpages & ->).
  destruct (buildNavigation_category pages c Hc) as (p0 & rest & Hf & Hi & _ & Hs).
  assert (Hitems : forall it, In it (HandbookCategory.items c) ->
            belongs_to (HandbookCategory.name c) it = true).
  { intros it Hit. rewrite Hi in Hit. apply sort_by_In in Hit.
    rewrite <- Hf in Hit. apply filter_In in Hit as [_ Hit]. exact Hit. }
  split; [ | split; [ | split; [exact Hs | ]]].
  - intros E. assert (Hp : In p0 (HandbookCategory.items c)).
    { rewrite Hi. apply sort_by_In. left. reflexivity. }
    rewrite E in Hp. contradiction.
  - assert (Hp : In p0 (HandbookCategory.items c)).
    { rewrite Hi. apply sort_by_In. left. reflexivity. }
    apply Hitems in Hp. unfold belongs_to in Hp. apply andb_prop in Hp as [_ Hp].
    apply grouped_under_category in Hp as [_ Hp]. exact Hp.
  - intros it Hit. apply Hitems, belongs_to_inv in Hit as [Hcat E].
    split; [exact E | ]. apply is_categorized_inv in Hcat as [Hne _]. exact Hne.
Qed.

Lemma category_items_declare_its_name_witness :
  HandbookCategory.items scenario_fundamentals <> []
  /\ forall it, In it (HandbookCategory.items scenario_fundamentals) ->
       HandbookNavItem.category it = Some "Fundamentals"
       /\ HandbookNavItem.slug it <> "".
Proof.
  destruct (category_items_declare_its_name scenario_dir scenario_nav
              scenario_fundamentals eq_refl (or_introl eq_refl))
    as (Hne & _ & _ & Hitems).
  split; [exact Hne | exact Hitems].
Defined.

Lemma buildNavigation_names (pages : list HandbookNavItem.t) :
  NoDup (map HandbookCategory.name (HandbookNavigation.categories (buildNavigation pages)))
  /\ forall n,
       In n (map HandbookCategory.name
               (HandbookNavigation.categories (buildNavigation pages)))
       <-> exists p, In p pages /\ belongs_to n p = true.
Proof.
  unfold buildNavigation.
  pose proof (group_pages_inv (filter is_categorized pages)) as Hinv.
  destruct (group_pages (filter is_categorized pages)) as [cm om].
  destruct Hinv as (Hnd & Hcm & _ & _). cbn [fst snd] in *.
  cbn [HandbookNavigation.categories].
  assert (Hperm : Permutation
            (map HandbookCategory.name
               (sort_by HandbookCategory.order
                  (map (mkCategory om)
                     (JsMap.map_values (sort_by HandbookNavItem.order) cm))))
            (JsMap.keys cm)).
  { etransitivity; [apply Permutation_map, sort_by_perm | ].
    unfold JsMap.map_values, JsMap.keys. rewrite !map_map. simpl. reflexivity. }
  split.
  - eapply Permutation_NoDup; [symmetry; exact Hperm | exact Hnd].
  - intros n. split.
    + intros Hin. eapply Permutation_in in Hin; [ | exact Hperm].
      destruct (JsMap.get cm n) as [its | ] eqn:E.
      * rewrite Hcm, filter_categorized_grouped in E.
        apply nonempty_Some in E as [E Hne].
        destruct its as [ | p rest]; [congruence | ].
        exists p. apply filter_In. rewrite E. left. reflexivity.
      * apply get_None_keys in E. contradiction.
    + intros (p & Hp & Hb).
      eapply Permutation_in; [symmetry; exact Hperm | ].
      destruct (JsMap.get cm n) as [its | ] eqn:E.
      * destruct (in_dec string_dec n (JsMap.keys cm)) as [Hin | Hnot]; [exact Hin | ].
        apply get_None_keys in Hnot. congruence.
      * rewrite Hcm, filter_categorized_grouped in E.
        apply nonempty_None in E.
        assert (Hin : In p (filter (belongs_to n) pages)) by (apply filter_In; auto).
        rewrite E in Hin. contradiction.
Qed.

(** X3.  [getAllCategories] lists each category name once; the names are
    exactly the categories that the pages with a non-empty slug declare,
    and every slug is [slugifyCategory] of its name. *)
Theorem getAllCategories_names (dir : ContentDir) (cats : list (string * string))
    (pages : list HandbookNavItem.t) :
  getAllCategories dir = Ok cats ->
  allPages dir = Ok pages ->
  NoDup (map fst cats)
  /\ (forall n, In n (map fst cats) <->
        exists p, In p pages /\ HandbookNavItem.slug p <> "" /\ n <> ""
                  /\ HandbookNavItem.category p = Some n)
  /\ (forall n s, In (n, s) cats -> s = slugifyCategory n).
Proof.
  intros Hcats Hpages. unfold getAllCategories, getHandbookNavigation in Hcats.
  rewrite Hpages in Hcats. simpl in Hcats. inversion Hcats; subst cats; clear Hcats.
  rewrite map_map. cbn [fst].
  destruct (buildNavigation_names pages) as [Hnd Hin].
  split; [exact Hnd | ]. split.
  - intros n. rewrite Hin. split.
    + intros (p & Hp & Hb). exists p. split; [exact Hp | ].
      apply belongs_to_inv in Hb as [Hc E].
      apply is_categorized_inv in Hc as [Hs Ht].
      repeat split; auto.
      rewrite E in Ht. simpl in Ht. unfold JsString.truthy in Ht.
      apply negb_true_iff, String.eqb_neq in Ht. exact Ht.
    + intros (p & Hp & Hs & Hn & E). exists p. split; [exact Hp | ].
      apply belongs_to_inv. split; [ | exact E].
      unfold is_categorized. rewrite E. simpl. unfold JsString.truthy.
      apply String.eqb_neq in Hs, Hn. rewrite Hs, Hn. reflexivity.
  - intros n s Hns. apply in_map_iff in Hns as (c & E & Hc). inversion E; subst.
    destruct (buildNavigation_category pages c Hc) as (_ & _ & _ & _ & _ & Hs).
    exact Hs.
Qed.

Lemma getAllCategories_names_witness :
  getAllCategories scenario_dir = Ok [("Fundamentals", "fundamentals"); ("Career", "career")]
  /\ NoDup (map fst [("Fundamentals", "fundamentals"); ("Career", "career")]).
Proof.
  split; [reflexivity | ].
  exact (proj1 (getAllCategories_names scenario_dir
                  [("Fundamentals", "fundamentals"); ("Career", "career")]
                  scenario_pages eq_refl eq_refl)).
Defined.

(** ** What the flattened list holds *)

(** X4.  The flattened list is the introduction, when there is one,
    followed by a rearrangement of the pages that have a non-empty slug
    and a category: none of them is lost and none is listed twice. *)
Theorem flattened_list_conserves_pages (dir : ContentDir)
    (pages flat : list HandbookNavItem.t) :
  allPages dir = Ok pages ->
  getAllHandbookPages dir = Ok flat ->
  exists rest,
    flat = match find is_introduction pages with
           | Some i => [i]
           | None => []
           end ++ rest
    /\ Permutation rest (filter is_categorized pages)
    /\ incl flat pages.
Proof.
  intros Hpages Hflat. unfold getAllHandbookPages, getHandbookNavigation in Hflat.
  rewrite Hpages in Hflat. simpl in Hflat. inversion Hflat; subst flat; clear Hflat.
  exists (concat (map HandbookCategory.items
                    (HandbookNavigation.categories (buildNavigation pages)))).
  split; [ | split].
  - unfold flatten. rewrite buildNavigation_introduction. reflexivity.
  - apply buildNavigation_items.
  - intros it Hit. apply flatten_In in Hit as [Hintro | [Hin _]]; [ | exact Hin].
    apply find_some in Hintro as [Hin _]. exact Hin.
Qed.

Lemma flattened_list_conserves_pages_witness :
  exists rest,
    [scenario_index; scenario_b; scenario_c; scenario_a; scenario_d]
    = [scenario_index] ++ rest
    /\ Permutation rest [scenario_a; scenario_b; scenario_c; scenario_d]
    /\ incl [scenario_index; scenario_b; scenario_c; scenario_a; scenario_d]
            scenario_pages.
Proof.
  exact (flattened_list_conserves_pages scenario_dir scenario_pages
           [scenario_index; scenario_b; scenario_c; scenario_a; scenario_d]
           eq_refl eq_refl).
Defined.

(** X5.  When the navigation is returned, it has an introduction exactly
    when the directory holds [index.md] or a file named [.md], and the
    introduction has the empty slug. *)
Theorem introduction_iff_index_file (dir : ContentDir) (nav : HandbookNavigation.t) :
  getHandbookNavigation dir = Ok nav ->
  (HandbookNavigation.introduction nav <> None <->
   In "index.md" (map fileName dir) \/ In ".md" (map fileName dir))
  /\ forall i, HandbookNavigation.introduction nav = Some i ->
       HandbookNavItem.slug i = "".
Proof.
  intros Hnav. apply getHandbookNavigation_Ok in Hnav as (pages & Hpages & ->).
  rewrite buildNavigation_introduction. split.
  - split.
    + intros Hsome. destruct (find is_introduction pages) as [i | ] eqn:E; [ | tauto].
      apply find_some in E as [Hi Es]. unfold is_introduction in Es.
      apply String.eqb_eq in Es.
      destruct (allPages_In dir pages i Hpages Hi) as (f & m & Hf & Hmd & _ & ->).
      rewrite navItemOf_slug in Es.
      destruct (empty_slug_names (fileName f) Hmd Es) as [E | E]; rewrite <- E;
        [left | right]; apply in_map, Hf.
    + intros Hin.
      assert (Hf : exists f, In f dir /\ is_md f = true
                             /\ slugOfFileName (fileName f) = "").
      { destruct Hin as [Hin | Hin]; apply in_map_iff in Hin as (f & E & Hf);
          exists f; unfold is_md; rewrite E; repeat split; auto. }
      destruct Hf as (f & Hf & Hmd & Es).
      destruct (allPages_file dir pages f Hpages Hf Hmd) as (m & _ & Hit).
      destruct (find is_introduction pages) as [i | ] eqn:E; [discriminate | ].
      eapply find_none in E; [ | exact Hit].
      unfold is_introduction in E. rewrite navItemOf_slug, Es in E. discriminate.
  - intros i E. apply find_some in E as [_ E]. unfold is_introduction in E.
    apply String.eqb_eq in E. exact E.
Qed.

Lemma introduction_iff_index_file_witness :
  HandbookNavigation.introduction scenario_nav <> None
  <-> In "index.md" (map fileName scenario_dir) \/ In ".md" (map fileName scenario_dir).
Proof.
  exact (proj1 (introduction_iff_index_file scenario_dir scenario_nav eq_refl)).
Defined.




(* ================================================================== *)
(** * Further properties of the page lookup *)

(** ** Slugs and file names *)

Section MoreNameFacts.
Import JsString.

Lemma length_append (s t : string) :
  String.length (s ++ t) = (String.length s + String.length t)%nat.
Proof. induction s as [ | c s IH]; simpl; [reflexivity | rewrite IH; reflexivity]. Qed.

Lemma append_md_not_md (c : ascii) (t : string) :
  String.eqb (String c t ++ ".md") ".md" = false.
Proof.
  apply String.eqb_neq. intros E.
  apply (f_equal String.length) in E. rewrite length_append in E.
  simpl in E. lia.
Qed.

Lemma strip_md_of_append (s : string) : strip_md (s ++ ".md") = s.
Proof.
  induction s as [ | c t IH]; [reflexivity | ].
  rewrite strip_md_eq, append_md_not_md. simpl. rewrite IH. reflexivity.
Qed.

Lemma endsWith_of_append (s : string) : endsWith (s ++ ".md") ".md" = true.
Proof.
  induction s as [ | c t IH]; [reflexivity | ].
  rewrite endsWith_eq, append_md_not_md. simpl. exact IH.
Qed.

Lemma endsWith_fileNameOfSlug (slug : string) :
  endsWith (fileNameOfSlug slug) ".md" = true.
Proof.
  unfold fileNameOfSlug. destruct (String.eqb slug ""); [reflexivity | ].
  apply endsWith_of_append.
Qed.

Lemma slugOfFileName_fileNameOfSlug (slug : string) :
  slug <> "index" -> slugOfFileName (fileNameOfSlug slug) = slug.
Proof.
  intros Hne. unfold fileNameOfSlug.
  destruct (String.eqb_spec slug "") as [-> | _]; [reflexivity | ].
  unfold slugOfFileName. rewrite strip_md_of_append.
  apply String.eqb_neq in Hne. rewrite Hne. reflexivity.
Qed.

End MoreNameFacts.

(** X7.  A slug other than [index] is the slug of the file name it is
    looked up under, and a markdown file name other than [.md] is the file
    name its slug is looked up under.  Two slugs are looked up under the
    same file name only if they are equal or are the empty slug and
    [index], both of which name [index.md]. *)
Theorem slug_file_name_round_trip :
  (forall slug, slug <> "index" -> slugOfFileName (fileNameOfSlug slug) = slug)
  /\ (forall file_name,
        JsString.endsWith file_name ".md" = true -> file_name <> ".md" ->
        fileNameOfSlug (slugOfFileName file_name) = file_name)
  /\ (forall s1 s2,
        fileNameOfSlug s1 = fileNameOfSlug s2 ->
        s1 = s2 \/ (s1 = "" /\ s2 = "index") \/ (s1 = "index" /\ s2 = ""))
  /\ fileNameOfSlug "index" = fileNameOfSlug "".
Proof.
  split; [exact slugOfFileName_fileNameOfSlug | ].
  split; [ | split; [ | reflexivity]].
  - intros file_name Hmd Hdot.
    destruct (String.eqb_spec (slugOfFileName file_name) "") as [E | E].
    + destruct (empty_slug_names file_name Hmd E) as [-> | ->];
        [reflexivity | tauto].
    + apply fileNameOfSlug_slug; assumption.
  - intros s1 s2 E.
    destruct (String.eqb_spec s1 "index") as [-> | H1];
      destruct (String.eqb_spec s2 "index") as [-> | H2]; auto.
    + right. right. split; [reflexivity | ].
      rewrite <- (slugOfFileName_fileNameOfSlug s2 H2), <- E. reflexivity.
    + right. left. split; [ | reflexivity].
      rewrite <- (slugOfFileName_fileNameOfSlug s1 H1), E. reflexivity.
    + left. rewrite <- (slugOfFileName_fileNameOfSlug s1 H1), E.
      apply slugOfFileName_fileNameOfSlug, H2.
Qed.

Lemma slug_file_name_round_trip_witness :
  slugOfFileName (fileNameOfSlug "typeof") = "typeof"
  /\ fileNameOfSlug (slugOfFileName "index.md") = "index.md".
Proof.
  split.
  - apply (proj1 slug_file_name_round_trip). discriminate.
  - apply (proj1 (proj2 slug_file_name_round_trip)); [reflexivity | discriminate].
Defined.

(** ** [getHandbookPage] *)

(** X9.  Every item of the flattened list, other than an introduction
    taken from a file named [.md], resolves through [getHandbookPage] to a
    page with the same slug, order and category, whose [categoryOrder]
    defaults to the item's; the titles agree when the slug is not empty. *)
Theorem navigation_item_resolves (remarkHtml : string -> string)
    (dir : ContentDir) (flat : list HandbookNavItem.t) (it : HandbookNavItem.t) :
  NoDup (map fileName dir) ->
  getAllHandbookPages dir = Ok flat ->
  In it flat ->
  HandbookNavItem.slug it <> "" \/ ~ In ".md" (map fileName dir) ->
  exists page,
    getHandbookPage remarkHtml dir (HandbookNavItem.slug it) = Ok (Some page)
    /\ HandbookPage.slug page = HandbookNavItem.slug it
    /\ HandbookPage.order page = HandbookNavItem.order it
    /\ HandbookPage.category page = HandbookNavItem.category it
    /\ nullish (HandbookPage.categoryOrder page) 999 = HandbookNavItem.categoryOrder it
    /\ (HandbookNavItem.slug it <> "" ->
        HandbookPage.title page = HandbookNavItem.title it).
Proof.
  intros Hnd Hflat Hit Hcase.
  unfold getAllHandbookPages in Hflat.
  destruct (getHandbookNavigation dir) as [nav | e] eqn:Hnav; simpl in Hflat;
    [ | discriminate].
  inversion Hflat; subst flat; clear Hflat.
  apply getHandbookNavigation_Ok in Hnav as (pages & Hpages & ->).
  assert (Hin : In it pages).
  { apply flatten_In in Hit as [Hintro | [Hin _]]; [ | exact Hin].
    apply find_some in Hintro as [Hin _]. exact Hin. }
  destruct (allPages_In dir pages it Hpages Hin) as (f & m & Hf & Hmd & Hm & ->).
  rewrite navItemOf_slug in *.
  assert (Hname : fileNameOfSlug (slugOfFileName (fileName f)) = fileName f).
  { destruct (String.eqb_spec (slugOfFileName (fileName f)) "") as [E | E].
    - destruct (empty_slug_names (fileName f) Hmd E) as [E' | E'].
      + rewrite E'. reflexivity.
      + exfalso. destruct Hcase as [Hs | Hdot]; [tauto | ].
        apply Hdot. rewrite <- E'. apply in_map, Hf.
    - apply fileNameOfSlug_slug; assumption. }
  exists (pageOf remarkHtml (slugOfFileName (fileName f)) m).
  unfold getHandbookPage. rewrite Hname, (lookupFile_In dir f Hnd Hf), Hm.
  cbn. repeat split.
  intros Hs. unfold slugOfFileName in *.
  destruct (String.eqb (JsString.strip_md (fileName f)) "index"); [tauto | reflexivity].
Qed.

Lemma navigation_item_resolves_witness :
  exists page,
    getHandbookPage identity_html scenario_dir (HandbookNavItem.slug scenario_c)
      = Ok (Some page)
    /\ HandbookPage.slug page = HandbookNavItem.slug scenario_c
    /\ HandbookPage.order page = HandbookNavItem.order scenario_c
    /\ HandbookPage.category page = HandbookNavItem.category scenario_c
    /\ nullish (HandbookPage.categoryOrder page) 999
       = HandbookNavItem.categoryOrder scenario_c
    /\ (HandbookNavItem.slug scenario_c <> "" ->
        HandbookPage.title page = HandbookNavItem.title scenario_c).
Proof.
  assert (Hnd : NoDup (map fileName scenario_dir)).
  { repeat constructor; simpl; intuition discriminate. }
  assert (Hin : In scenario_c
                  [scenario_index; scenario_b; scenario_c; scenario_a; scenario_d]).
  { simpl. auto. }
  assert (Hslug : HandbookNavItem.slug scenario_c <> ""
                  \/ ~ In ".md" (map fileName scenario_dir)).
  { left. discriminate. }
  exact (navigation_item_resolves identity_html scenario_dir _ scenario_c
           Hnd eq_refl Hin Hslug).
Defined.

(** ** [generateStaticParams] *)

Lemma generateStaticParams_In (dir : ContentDir) (s : string) :
  In s (generateStaticParams dir) <->
  s <> "" /\ s <> "index"
  /\ exists f, In f dir /\ is_md f = true /\ fileName f = (s ++ ".md")%string.
Proof.
  unfold generateStaticParams. rewrite filter_In, getAllHandbookSlugs_In.
  rewrite negb_true_iff, String.eqb_neq. split.
  - intros [(f & Hf & Hmd & ->) Hne]. split; [exact Hne | ]. split.
    + unfold slugOfFileName in *.
      destruct (String.eqb_spec (JsString.strip_md (fileName f)) "index"); tauto.
    + exists f. repeat split; auto.
      rewrite <- (fileNameOfSlug_slug (fileName f) Hmd Hne) at 1.
      unfold fileNameOfSlug. apply String.eqb_neq in Hne. rewrite Hne. reflexivity.
  - intros (Hne & Hidx & f & Hf & Hmd & E). split; [ | exact Hne].
    exists f. repeat split; auto.
    assert (Es : fileName f = fileNameOfSlug s).
    { unfold fileNameOfSlug. destruct (String.eqb_spec s ""); [tauto | exact E]. }
    rewrite Es. symmetry. apply slugOfFileName_fileNameOfSlug, Hidx.
Qed.

(** X10.  A slug is a static parameter exactly when it is neither empty
    nor [index] and the directory holds its markdown file; for such a slug
    [getHandbookPage] never returns [null]; and the parameters are
    pairwise distinct when the file names are. *)
Theorem static_params_have_files (remarkHtml : string -> string) (dir : ContentDir) :
  (forall s, In s (generateStaticParams dir) <->
     s <> "" /\ s <> "index" /\ In (s ++ ".md")%string (map fileName dir))
  /\ (forall s, In s (generateStaticParams dir) ->
        getHandbookPage remarkHtml dir s <> Ok None)
  /\ (NoDup (map fileName dir) -> NoDup (generateStaticParams dir)).
Proof.
  split; [ | split].
  - intros s. rewrite generateStaticParams_In. split.
    + intros (Hne & Hidx & f & Hf & Hmd & E). repeat split; auto.
      rewrite <- E. apply in_map, Hf.
    + intros (Hne & Hidx & Hin). repeat split; auto.
      apply in_map_iff in Hin as (f & E & Hf). exists f. repeat split; auto.
      unfold is_md. rewrite E. apply endsWith_of_append.
  - intros s Hs. apply generateStaticParams_In in Hs as (Hne & _ & f & Hf & _ & E).
    unfold getHandbookPage.
    assert (Hin : In (fileNameOfSlug s) (map fileName dir)).
    { unfold fileNameOfSlug. destruct (String.eqb_spec s ""); [tauto | ].
      rewrite <- E. apply in_map, Hf. }
    destruct (lookupFile_Some dir _ Hin) as (g & -> & _).
    destruct (readMatter g); simpl; discriminate.
  - intros Hnd. unfold generateStaticParams, getAllHandbookSlugs.
    rewrite <- map_map. apply slugs_of_names_NoDup.
    + apply NoDup_map_filter, Hnd.
    + intros n Hn. apply in_map_iff in Hn as (f & <- & Hf).
      apply filter_In in Hf as [_ Hf]. exact Hf.
Qed.

Lemma static_params_have_files_witness :
  generateStaticParams scenario_dir = ["a"; "b"; "c"; "d"]
  /\ getHandbookPage identity_html scenario_dir "b" <> Ok None
  /\ NoDup (generateStaticParams scenario_dir).
Proof.
  assert (Hnd : NoDup (map fileName scenario_dir)).
  { repeat constructor; simpl; intuition discriminate. }
  assert (Hb : In "b" (generateStaticParams scenario_dir)).
  { simpl. auto. }
  split; [reflexivity | ]. split.
  - exact (proj1 (proj2 (static_params_have_files identity_html scenario_dir)) "b" Hb).
  - exact (proj2 (proj2 (static_params_have_files identity_html scenario_dir)) Hnd).
Defined.

(** X11.  Every item of the flattened list with a non-empty slug has a
    static parameter: each page the navigation links to is generated. *)
Theorem navigation_items_have_static_params (dir : ContentDir)
    (flat : list HandbookNavItem.t) :
  getAllHandbookPages dir = Ok flat ->
  forall it, In it flat -> HandbookNavItem.slug it <> "" ->
    In (HandbookNavItem.slug it) (generateStaticParams dir).
Proof.
  intros Hflat it Hit Hne.
  unfold getAllHandbookPages in Hflat.
  destruct (getHandbookNavigation dir) as [nav | e] eqn:Hnav; simpl in Hflat;
    [ | discriminate].
  inversion Hflat; subst flat; clear Hflat.
  apply getHandbookNavigation_Ok in Hnav as (pages & Hpages & ->).
  assert (Hin : In it pages).
  { apply flatten_In in Hit as [Hintro | [Hin _]]; [ | exact Hin].
    apply find_some in Hintro as [Hin _]. exact Hin. }
  destruct (allPages_In dir pages it Hpages Hin) as (f & m & Hf & Hmd & _ & ->).
  rewrite navItemOf_slug in *.
  unfold generateStaticParams. apply filter_In. split.
  - apply getAllHandbookSlugs_In. eauto.
  - apply negb_true_iff, String.eqb_neq, Hne.
Qed.

Lemma navigation_items_have_static_params_witness :
  In (HandbookNavItem.slug scenario_d) (generateStaticParams scenario_dir).
Proof.
  assert (Hin : In scenario_d
                  [scenario_index; scenario_b; scenario_c; scenario_a; scenario_d]).
  { simpl. auto 6. }
  assert (Hne : HandbookNavItem.slug scenario_d <> "") by discriminate.
  exact (navigation_items_have_static_params scenario_dir _ eq_refl scenario_d Hin Hne).
Defined.

(** ** Previous and next are inverse *)

Lemma ArticleContent_head (page : HandbookPage.t) (first : HandbookNavItem.t)
    (rest : list HandbookNavItem.t) :
  HandbookNavItem.slug first = HandbookPage.slug page ->
  ArticleContent page (first :: rest) = (None, hd_error rest).
Proof.
  intros E. unfold ArticleContent, findIndex. simpl findIndex_from.
  rewrite E, String.eqb_refl. f_equal.
  destruct (Z.ltb_spec 0 (Z.of_nat (length (first :: rest)) - 1)) as [H | H].
  - destruct rest; [simpl in H; lia | reflexivity].
  - destruct rest; [reflexivity | ]. simpl length in H. lia.
Qed.

(** X12.  In the flattened list of a directory with pairwise distinct file
    names, [q] is the next page of [p] exactly when [p] is the previous
    page of [q]. *)
Theorem prev_next_inverse (dir : ContentDir) (flat : list HandbookNavItem.t)
    (page_p page_q : HandbookPage.t) (p q : HandbookNavItem.t) :
  NoDup (map fileName dir) ->
  getAllHandbookPages dir = Ok flat ->
  In p flat -> In q flat ->
  HandbookPage.slug page_p = HandbookNavItem.slug p ->
  HandbookPage.slug page_q = HandbookNavItem.slug q ->
  snd (ArticleContent page_p flat) = Some q
  <-> fst (ArticleContent page_q flat) = Some p.
Proof.
  intros Hnd Hflat Hp Hq Ep Eq.
  unfold getAllHandbookPages, getHandbookNavigation in Hflat.
  destruct (allPages dir) as [pages | e] eqn:Hpages; simpl in Hflat; [ | discriminate].
  inversion Hflat; subst flat; clear Hflat.
  pose proof (flatten_slugs_NoDup dir pages Hnd Hpages) as Hslugs.
  pose proof (NoDup_map_inv _ _ Hslugs) as Hflat.
  remember (flatten (buildNavigation pages)) as flat.
  apply In_nth_error in Hp as (i & Hi). apply In_nth_error in Hq as (j & Hj).
  rewrite (ArticleContent_at page_p flat i p Hslugs Hi Ep).
  rewrite (ArticleContent_at page_q flat j q Hslugs Hj Eq). cbn [fst snd].
  assert (Hinj : forall a b x, nth_error flat a = Some x -> nth_error flat b = Some x ->
                   a = b).
  { intros a b x Ha Hb.
    apply (proj1 (NoDup_nth_error flat) Hflat).
    - apply nth_error_Some. congruence.
    - congruence. }
  split.
  - intros Hnext. assert (E : S i = j) by (eapply Hinj; eassumption).
    subst j. exact Hi.
  - intros Hprev. destruct j as [ | j']; [discriminate | ].
    assert (E : j' = i) by (eapply Hinj; eassumption).
    subst j'. exact Hj.
Qed.

Lemma prev_next_inverse_witness :
  snd (ArticleContent
         (HandbookPage.mk "c" "c" "" [] 1 (Some "Fundamentals") (Some 1) "body" "body")
         [scenario_index; scenario_b; scenario_c; scenario_a; scenario_d])
    = Some scenario_a
  /\ fst (ArticleContent
            (HandbookPage.mk "a" "a" "" [] 2 (Some "Fundamentals") (Some 1) "body" "body")
            [scenario_index; scenario_b; scenario_c; scenario_a; scenario_d])
     = Some scenario_c.
Proof.
  assert (Hnd : NoDup (map fileName scenario_dir)).
  { repeat constructor; simpl; intuition discriminate. }
  assert (Hc : In scenario_c
                 [scenario_index; scenario_b; scenario_c; scenario_a; scenario_d]).
  { simpl. auto. }
  assert (Ha : In scenario_a
                 [scenario_index; scenario_b; scenario_c; scenario_a; scenario_d]).
  { simpl. auto. }
  assert (Hnext : snd (ArticleContent
         (HandbookPage.mk "c" "c" "" [] 1 (Some "Fundamentals") (Some 1) "body" "body")
         [scenario_index; scenario_b; scenario_c; scenario_a; scenario_d])
    = Some scenario_a) by reflexivity.
  split; [exact Hnext | ].
  exact (proj1 (prev_next_inverse scenario_dir
                  [scenario_index; scenario_b; scenario_c; scenario_a; scenario_d]
                  (HandbookPage.mk "c" "c" "" [] 1 (Some "Fundamentals") (Some 1)
                     "body" "body")
                  (HandbookPage.mk "a" "a" "" [] 2 (Some "Fundamentals") (Some 1)
                     "body" "body")
                  scenario_c scenario_a
                  Hnd eq_refl Hc Ha eq_refl eq_refl) Hnext).
Defined.

(* ================================================================== *)
(** * The routes *)

(** X14.  The handbook index route shows the [Page not found] element
    exactly when the navigation is built and there is no [index.md].  When
    it shows the page, the navigation has an introduction, there is no
    previous page, and the next page is the first item of the first
    category. *)
Theorem index_route_links (remarkHtml : string -> string) (dir : ContentDir) :
  (HandbookIndexPage remarkHtml dir = Rendered None <->
   (exists nav, getHandbookNavigation dir = Ok nav)
   /\ ~ In "index.md" (map fileName dir))
  /\ forall v, HandbookIndexPage remarkHtml dir = Rendered (Some v) ->
       HandbookNavigation.introduction (index_navigation v) <> None
       /\ fst (index_prevNext v) = None
       /\ snd (index_prevNext v)
          = hd_error (concat (map HandbookCategory.items
                                (HandbookNavigation.categories (index_navigation v)))).
Proof.
  unfold HandbookIndexPage, getAllHandbookPages.
  destruct (getHandbookNavigation dir) as [nav | e0] eqn:Hnav; simpl.
  2:{ split; [ | discriminate].
      split; [discriminate | intros [[nav H] _]; discriminate]. }
  split.
  - change "index.md" with (fileNameOfSlug ""). rewrite <- lookupFile_None.
    unfold getHandbookPage.
    destruct (lookupFile dir (fileNameOfSlug "")) as [f | ].
    + destruct (readMatter f); simpl; split; try discriminate;
        intros [_ H]; discriminate.
    + split; eauto.
  - intros v. unfold getHandbookPage.
    destruct (lookupFile dir (fileNameOfSlug "")) as [f | ] eqn:Hlook; [ | discriminate].
    destruct (readMatter f) as [m | e] eqn:Hm; simpl; [ | discriminate].
    intros H. inversion H; subst v; clear H. cbn [index_navigation index_prevNext].
    apply getHandbookNavigation_Ok in Hnav as (pages & Hpages & ->).
    unfold lookupFile in Hlook. apply find_some in Hlook as [Hf Ename].
    apply String.eqb_eq in Ename.
    assert (Hmd : is_md f = true) by (unfold is_md; rewrite Ename; reflexivity).
    destruct (allPages_file dir pages f Hpages Hf Hmd) as (m' & _ & Hit).
    destruct (find is_introduction pages) as [i | ] eqn:Hintro.
    2:{ eapply find_none in Hintro; [ | exact Hit].
        unfold is_introduction in Hintro.
        rewrite navItemOf_slug, Ename in Hintro. discriminate. }
    apply find_some in Hintro as Hi. destruct Hi as [_ Hi].
    unfold is_introduction in Hi. apply String.eqb_eq in Hi.
    rewrite buildNavigation_introduction, Hintro.
    unfold flatten. rewrite buildNavigation_introduction, Hintro.
    cbn [app]. rewrite (ArticleContent_head (pageOf remarkHtml "" m) i _ Hi).
    cbn [fst snd]. repeat split. discriminate.
Qed.

Lemma index_route_links_witness :
  HandbookIndexPage identity_html dotfile_dir = Rendered None
  /\ exists v,
       HandbookIndexPage identity_html scenario_dir = Rendered (Some v)
       /\ fst (index_prevNext v) = None
       /\ snd (index_prevNext v)
          = hd_error (concat (map HandbookCategory.items
                                (HandbookNavigation.categories (index_navigation v)))).
Proof.
  split.
  - apply (proj1 (index_route_links identity_html dotfile_dir)).
    split; [eexists; reflexivity | ].
    simpl. intuition discriminate.
  - eexists. split; [reflexivity | ].
    exact (proj2 (proj2 (index_route_links identity_html scenario_dir) _ eq_refl)).
Defined.

(* ================================================================== *)
(** * The sidebar *)

(** X15.  From a pathname that is the [href] of a link, the sidebar reads
    the slug the link was built from: for the links of the category
    sections, for the previous and next links of an article, and for the
    handbook root with or without a trailing slash. *)
Theorem currentSlug_of_link :
  (forall it, Sidebar.currentSlug (Sidebar.categoryItemHref it) = HandbookNavItem.slug it)
  /\ (forall it, Sidebar.currentSlug (articleLinkHref it) = HandbookNavItem.slug it)
  /\ Sidebar.currentSlug "/front-end-engineer-handbook" = ""
  /\ Sidebar.currentSlug "/front-end-engineer-handbook/" = "".
Proof.
  split; [ | split; [ | split; reflexivity]].
  - intros it. unfold Sidebar.categoryItemHref.
    destruct (HandbookNavItem.slug it) as [ | c s]; reflexivity.
  - intros it. unfold articleLinkHref.
    destruct (HandbookNavItem.slug it) as [ | c s]; reflexivity.
Qed.

Lemma has_add (s : JsSet.t) (a b : string) :
  JsSet.has (JsSet.add s a) b = JsSet.has s b || String.eqb b a.
Proof.
  unfold JsSet.add. destruct (JsSet.has s a) eqn:Ha.
  - destruct (String.eqb_spec b a) as [-> | _]; [ | rewrite orb_false_r; reflexivity].
    rewrite Ha. reflexivity.
  - unfold JsSet.has. rewrite existsb_app. simpl. rewrite orb_false_r. reflexivity.
Qed.


Lemma NoDup_map_In_eq {A B : Type} (f : A -> B) (l : list A) (x y : A) :
  NoDup (map f l) -> In x l -> In y l -> f x = f y -> x = y.
Proof.
  induction l as [ | a t IH]; simpl; [tauto | ].
  intros Hnd Hx Hy E. inversion Hnd as [ | ? ? Hnotin Hnd']; subst.
  destruct Hx as [-> | Hx], Hy as [-> | Hy]; auto.
  - exfalso. apply Hnotin. rewrite E. apply in_map, Hy.
  - exfalso. apply Hnotin. rewrite <- E. apply in_map, Hx.
Qed.

Lemma fold_set_get {A V : Type} (key : A -> string) (val : A -> V) (l : list A) :
  forall (m0 : JsMap.t V) (k : string),
    JsMap.get (fold_left (fun m c => JsMap.set m (key c) (val c)) l m0) k
    = match find (fun c => String.eqb (key c) k) (rev l) with
      | Some c => Some (val c)
      | None => JsMap.get m0 k
      end.
Proof.
  induction l as [ | c l IH] using rev_ind; intros m0 k; [reflexivity | ].
  rewrite fold_left_app, rev_unit. simpl.
  destruct (String.eqb_spec (key c) k) as [<- | Hne].
  - apply get_set_same.
  - rewrite get_set_other by exact Hne. apply IH.
Qed.

(** X18.  The active flag the sidebar shows for a category is the one
    computed for the last category of the navigation with the same slug;
    it is the category's own flag when the category slugs are pairwise
    distinct. *)
Theorem active_flag_by_category_slug (nav : HandbookNavigation.t) (slug : string) :
  (forall c,
     Sidebar.hasActiveItem (Sidebar.categoryActiveStates nav slug) c
     = match find (fun c' => String.eqb (HandbookCategory.slug c') (HandbookCategory.slug c))
               (rev (HandbookNavigation.categories nav)) with
       | Some c' => Sidebar.hasItem slug c'
       | None => false
       end)
  /\ (NoDup (map HandbookCategory.slug (HandbookNavigation.categories nav)) ->
      forall c, In c (HandbookNavigation.categories nav) ->
        Sidebar.hasActiveItem (Sidebar.categoryActiveStates nav slug) c
        = Sidebar.hasItem slug c).
Proof.
  assert (Hgen : forall c,
     Sidebar.hasActiveItem (Sidebar.categoryActiveStates nav slug) c
     = match find (fun c' => String.eqb (HandbookCategory.slug c') (HandbookCategory.slug c))
               (rev (HandbookNavigation.categories nav)) with
       | Some c' => Sidebar.hasItem slug c'
       | None => false
       end).
  { intros c. unfold Sidebar.hasActiveItem, Sidebar.categoryActiveStates.
    rewrite (fold_set_get HandbookCategory.slug (Sidebar.hasItem slug)).
    destruct (find _ (rev (HandbookNavigation.categories nav))); reflexivity. }
  split; [exact Hgen | ].
  intros Hnd c Hc. rewrite Hgen.
  destruct (find (fun c' => String.eqb (HandbookCategory.slug c') (HandbookCategory.slug c))
              (rev (HandbookNavigation.categories nav))) as [c' | ] eqn:E.
  - apply find_some in E as [Hc' Es]. apply String.eqb_eq in Es.
    apply in_rev in Hc'.
    rewrite (NoDup_map_In_eq HandbookCategory.slug _ c' c Hnd Hc' Hc Es). reflexivity.
  - eapply find_none in E; [ | apply in_rev in Hc; exact Hc].
    rewrite String.eqb_refl in E. discriminate.
Qed.

Lemma active_flag_by_category_slug_witness :
  Sidebar.hasActiveItem (Sidebar.categoryActiveStates scenario_nav "c")
    scenario_fundamentals
  = Sidebar.hasItem "c" scenario_fundamentals.
Proof.
  apply (proj2 (active_flag_by_category_slug scenario_nav "c")).
  - repeat constructor; simpl; intuition discriminate.
  - simpl. auto.
Defined.

(* ================================================================== *)
(** * The generated objects *)

(** X19.  The FAQ block is emitted exactly for the categories
    Fundamentals, Frameworks & Libraries and Career.  It then holds one
    question, answered by the page description, and the article object of
    the same page has an [about] entry naming the category. *)
Theorem faq_for_three_categories (page : HandbookPage.t) (slug : string) :
  (generateFAQJsonLd page <> None <->
   HandbookPage.category page = Some "Fundamentals"
   \/ HandbookPage.category page = Some "Frameworks & Libraries"
   \/ HandbookPage.category page = Some "Career")
  /\ (forall faq, generateFAQJsonLd page = Some faq ->
        exists question,
          field "mainEntity" faq = Some (JArray [question])
          /\ path ["acceptedAnswer"; "text"] question
             = Some (JString (HandbookPage.description page)))
  /\ (forall faq c, generateFAQJsonLd page = Some faq ->
        HandbookPage.category page = Some c ->
        path ["about"; "name"] (generateJsonLd page slug) = Some (JString c)).
Proof.
  unfold generateFAQJsonLd, generateJsonLd.
  destruct (HandbookPage.category page) as [c | ].
  2:{ split; [split; [tauto | intros [H | [H | H]]; discriminate] | ].
      split; intros; discriminate. }
  unfold faqsOf.
  destruct (String.eqb_spec c "Fundamentals") as [-> | H1].
  { split; [split; [auto | discriminate] | ]. split.
    - intros faq H. inversion H; subst faq. eexists. split; reflexivity.
    - intros faq c' _ E. inversion E; subst c'. reflexivity. }
  destruct (String.eqb_spec c "Frameworks & Libraries") as [-> | H2].
  { split; [split; [auto | discriminate] | ]. split.
    - intros faq H. inversion H; subst faq. eexists. split; reflexivity.
    - intros faq c' _ E. inversion E; subst c'. reflexivity. }
  destruct (String.eqb_spec c "Career") as [-> | H3].
  { split; [split; [auto | discriminate] | ]. split.
    - intros faq H. inversion H; subst faq. eexists. split; reflexivity.
    - intros faq c' _ E. inversion E; subst c'. reflexivity. }
  assert (Hnone : (if JsString.truthy c then @None json else None) = None).
  { destruct (JsString.truthy c); reflexivity. }
  split; [ | split].
  - rewrite Hnone. split; [tauto | ].
    intros [E | [E | E]]; inversion E; tauto.
  - intros faq. rewrite Hnone. discriminate.
  - intros faq c'. rewrite Hnone. discriminate.
Qed.

Lemma faq_for_three_categories_witness :
  HandbookPage.category
    (HandbookPage.mk "typeof" "typeof" "About typeof." [] 4 (Some "Fundamentals")
       (Some 1) "body" "body")
  = Some "Fundamentals"
  /\ generateFAQJsonLd
       (HandbookPage.mk "typeof" "typeof" "About typeof." [] 4 (Some "Fundamentals")
          (Some 1) "body" "body")
     <> None.
Proof.
  split; [reflexivity | ].
  apply (proj1 (faq_for_three_categories
                  (HandbookPage.mk "typeof" "typeof" "About typeof." [] 4
                     (Some "Fundamentals") (Some 1) "body" "body") "typeof")).
  left. reflexivity.
Defined.

(** X20.  For a page that [getHandbookPage] returns, the canonical and
    Open Graph URL of the route metadata, the [url] and [@id] of the
    article object and the last breadcrumb are one and the same address,
    the handbook address followed by the slug; and the metadata title is
    the headline of the article object.  Where [getHandbookPage] returns
    [null], the metadata is the title "Page Not Found" alone. *)
Theorem article_addresses_agree (remarkHtml : string -> string)
    (dir : ContentDir) (slug : string) :
  (forall page,
     getHandbookPage remarkHtml dir slug = Ok (Some page) ->
     exists metadata,
       generateMetadata remarkHtml dir slug = Ok metadata
       /\ path ["alternates"; "canonical"] metadata = Some (JString (pageUrl slug))
       /\ path ["openGraph"; "url"] metadata = Some (JString (pageUrl slug))
       /\ field "url" (generateJsonLd page slug) = Some (JString (pageUrl slug))
       /\ path ["mainEntityOfPage"; "@id"] (generateJsonLd page slug)
          = Some (JString (pageUrl slug))
       /\ last (map item (generateBreadcrumbJsonLd page slug)) "" = pageUrl slug
       /\ field "title" metadata = field "headline" (generateJsonLd page slug))
  /\ (getHandbookPage remarkHtml dir slug = Ok None ->
      generateMetadata remarkHtml dir slug
      = Ok (JObject [ ("title", JString "Page Not Found") ])).
Proof.
  unfold generateMetadata. split.
  - intros page Hpage. rewrite Hpage. cbn [bind].
    eexists. split; [reflexivity | ].
    repeat split; try reflexivity.
    unfold generateBreadcrumbJsonLd.
    destruct (HandbookPage.category page) as [c | ]; [ | reflexivity].
    destruct (JsString.truthy c); reflexivity.
  - intros Hpage. rewrite Hpage. reflexivity.
Qed.

Lemma article_addresses_agree_witness :
  generateMetadata identity_html orphan_dir "typeof"
  = Ok (JObject [ ("title", JString "Page Not Found") ])
  /\ exists metadata,
       generateMetadata identity_html orphan_dir "orphan" = Ok metadata
       /\ path ["alternates"; "canonical"] metadata
          = Some (JString (pageUrl "orphan")).
Proof.
  split.
  - exact (proj2 (article_addresses_agree identity_html orphan_dir "typeof") eq_refl).
  - destruct (proj1 (article_addresses_agree identity_html orphan_dir "orphan")
                orphan_page eq_refl) as (metadata & H1 & H2 & _).
    exists metadata. split; [exact H1 | exact H2].
Defined.

(** ** The category anchor *)

Section AnchorFacts.
Import JsString.

Lemma replace_runs_snoc (pre : list ascii) (z : ascii) :
  is_slug_char z = true ->
  forall b, replace_runs b (pre ++ [z]) = replace_runs b pre ++ [z].
Proof.
  intros Hz. induction pre as [ | c t IH]; intros b; simpl.
  - rewrite Hz. reflexivity.
  - destruct (is_slug_char c); [rewrite IH; reflexivity | ].
    destruct b; rewrite IH; reflexivity.
Qed.

Lemma strip_trailing_snoc (x : list ascii) (z : ascii) :
  is_hyphen z = false -> strip_trailing (x ++ [z]) = x ++ [z].
Proof.
  intros Hz. induction x as [ | c t IH]; simpl.
  - rewrite Hz. reflexivity.
  - rewrite IH. destruct (t ++ [z]) eqn:E; [ | reflexivity].
    destruct t; discriminate.
Qed.

Lemma anchor_chars_trimmed (l : list ascii) (a z : ascii) (middle : list ascii) :
  l = a :: middle -> last l a = z ->
  is_alphanumeric a = true -> is_alphanumeric z = true ->
  trim_hyphens (replace_runs false (toLowerCase l))
  = replace_runs false (toLowerCase l).
Proof.
  intros El Elast Ha Hz. unfold is_alphanumeric in *.
  assert (Hsplit : exists pre, toLowerCase l = pre ++ [lower_char z]).
  { destruct (exists_last (l := l)) as (pre & z' & E); [congruence | ].
    exists (toLowerCase pre). rewrite E in Elast. rewrite last_last in Elast.
    subst z'. rewrite E. unfold toLowerCase. rewrite map_app. reflexivity. }
  destruct Hsplit as (pre & Epre).
  unfold trim_hyphens.
  rewrite strip_leading_fixed.
  - rewrite Epre, (replace_runs_snoc pre _ Hz).
    apply strip_trailing_snoc, slug_char_not_hyphen, Hz.
  - subst l. simpl. rewrite Ha. simpl.
    rewrite (slug_char_not_hyphen _ Ha). reflexivity.
Qed.

End AnchorFacts.

(** X21.  For a category name that begins and ends with an ASCII letter or
    digit, the anchor of the category breadcrumb is the category slug of
    the navigation. *)
Theorem category_anchor_is_slug (category : string) (a z : ascii) (middle : list ascii) :
  list_ascii_of_string category = a :: middle ->
  last (list_ascii_of_string category) a = z ->
  is_alphanumeric a = true ->
  is_alphanumeric z = true ->
  categoryAnchor category = slugifyCategory category.
Proof.
  intros El Elast Ha Hz. unfold categoryAnchor, slugifyCategory, slugify_chars.
  f_equal. symmetry. eapply anchor_chars_trimmed; eassumption.
Qed.

Lemma category_anchor_is_slug_witness :
  categoryAnchor "Objects & Arrays Basics" = slugifyCategory "Objects & Arrays Basics".
Proof.
  eapply (category_anchor_is_slug "Objects & Arrays Basics"); reflexivity.
Defined.

(** ** Slugs of the directory *)

(** X22.  When the navigation can be built, [getAllHandbookSlugs] is the
    list of the slugs of [allPages], in the same order: both derive the
    slug of a file in the same way. *)
Theorem slugs_match_pages (dir : ContentDir) (pages : list HandbookNavItem.t) :
  allPages dir = Ok pages ->
  getAllHandbookSlugs dir = map HandbookNavItem.slug pages
  /\ length (getAllHandbookSlugs dir) = length (filter is_md dir).
Proof.
  intros Hpages. split.
  - rewrite (allPages_slugs dir pages Hpages). unfold getAllHandbookSlugs.
    rewrite map_map. reflexivity.
  - unfold getAllHandbookSlugs. apply length_map.
Qed.

Lemma slugs_match_pages_witness :
  getAllHandbookSlugs scenario_dir = map HandbookNavItem.slug scenario_pages.
Proof.
  exact (proj1 (slugs_match_pages scenario_dir scenario_pages eq_refl)).
Defined.

(** ** Static generation *)

Lemma mapM_Ok_all {A B : Type} (f : A -> result B) (l : list A) :
  (forall x, In x l -> exists y, f x = Ok y) -> exists ys, mapM f l = Ok ys.
Proof.
  intros Hall. destruct (mapM f l) as [ys | e] eqn:E; [eauto | ].
  apply mapM_Throw in E as (before & x & after & -> & Hx & _).
  destruct (Hall x) as (y & Hy); [apply in_elt | congruence].
Qed.

(** X23.  In a directory where every markdown entry is a regular file
    whose front matter parses, the article route renders for every static
    parameter: it neither throws nor signals [notFound()], and the page it
    shows carries the parameter as slug. *)
Theorem static_params_render (remarkHtml : string -> string) (dir : ContentDir)
    (s : string) :
  (forall f, In f dir -> is_md f = true -> exists m, readMatter f = Ok m) ->
  In s (generateStaticParams dir) ->
  exists v,
    HandbookArticlePage remarkHtml dir s = Rendered v
    /\ HandbookPage.slug (view_page v) = s.
Proof.
  intros Hparse Hs.
  assert (Hnav : exists nav, getHandbookNavigation dir = Ok nav).
  { unfold getHandbookNavigation, allPages.
    destruct (mapM_Ok_all readNavItem (filter is_md dir)) as (pages & ->).
    - intros f Hf. apply filter_In in Hf as [Hf Hmd].
      apply readNavItem_Ok_iff, Hparse; assumption.
    - simpl. eauto. }
  destruct Hnav as (nav & Hnav).
  apply generateStaticParams_In in Hs as (Hne & _ & f & Hf & Hmd & E).
  assert (Hin : In (fileNameOfSlug s) (map fileName dir)).
  { unfold fileNameOfSlug. destruct (String.eqb_spec s ""); [tauto | ].
    rewrite <- E. apply in_map, Hf. }
  destruct (lookupFile_Some dir _ Hin) as (g & Hlook & Hg & Eg).
  assert (Hgmd : is_md g = true).
  { unfold is_md. rewrite Eg. apply endsWith_fileNameOfSlug. }
  destruct (Hparse g Hg Hgmd) as (m & Hm).
  unfold HandbookArticlePage, getAllHandbookPages, getHandbookPage.
  rewrite Hnav, Hlook, Hm. cbn [bind]. eexists. split; reflexivity.
Qed.

Lemma static_params_render_witness :
  exists v,
    HandbookArticlePage identity_html scenario_dir "d" = Rendered v
    /\ HandbookPage.slug (view_page v) = "d".
Proof.
  assert (Hparse : forall f, In f scenario_dir -> is_md f = true ->
                     exists m, readMatter f = Ok m).
  { intros f [<- | [<- | [<- | [<- | [<- | [<- | []]]]]]] Hmd;
      try (eexists; reflexivity); discriminate. }
  assert (Hs : In "d" (generateStaticParams scenario_dir)).
  { simpl. auto. }
  exact (static_params_render identity_html scenario_dir "d" Hparse Hs).
Defined.

(* ================================================================== *)
(** * Page lookup through the file system *)

Lemma segments_no_slash (s : string) :
  has_slash s = false -> Fs.segments s = [s].
Proof.
  induction s as [ | c t IH]; simpl; [reflexivity | ].
  destruct (Ascii.eqb c "/"); simpl; [discriminate | ].
  intros H. rewrite (IH H). reflexivity.
Qed.

Lemma has_slash_append (s t : string) :
  has_slash (s ++ t) = has_slash s || has_slash t.
Proof.
  induction s as [ | c s IH]; simpl; [reflexivity | ].
  rewrite IH. apply orb_assoc.
Qed.

Lemma has_slash_fileNameOfSlug (slug : string) :
  has_slash slug = false -> has_slash (fileNameOfSlug slug) = false.
Proof.
  intros H. unfold fileNameOfSlug. destruct (String.eqb slug ""); [reflexivity | ].
  rewrite has_slash_append, H. reflexivity.
Qed.

Lemma md_name_not_special (s : string) :
  String.eqb (s ++ ".md") "" = false
  /\ String.eqb (s ++ ".md") "." = false
  /\ String.eqb (s ++ ".md") ".." = false.
Proof.
  repeat split; apply String.eqb_neq; intros E;
    apply (f_equal String.length) in E; rewrite length_append in E;
    simpl in E; lia.
Qed.

Lemma step_md_name (stack : list string) (s : string) :
  Fs.step stack (s ++ ".md") = stack ++ [(s ++ ".md")%string].
Proof.
  unfold Fs.step. destruct (md_name_not_special s) as (-> & -> & ->). reflexivity.
Qed.

Lemma join_fileNameOfSlug (base : list string) (slug : string) :
  has_slash slug = false ->
  Fs.join base (fileNameOfSlug slug) = base ++ [fileNameOfSlug slug].
Proof.
  intros H. unfold Fs.join.
  rewrite (segments_no_slash _ (has_slash_fileNameOfSlug slug H)). simpl.
  unfold fileNameOfSlug. destruct (String.eqb slug ""); [reflexivity | ].
  apply step_md_name.
Qed.

Lemma strip_prefix_app (base rest : list string) :
  Fs.strip_prefix base (base ++ rest) = Some rest.
Proof.
  induction base as [ | b base IH]; simpl; [reflexivity | ].
  rewrite String.eqb_refl. exact IH.
Qed.

Lemma strip_prefix_Some (base p rest : list string) :
  Fs.strip_prefix base p = Some rest -> p = base ++ rest.
Proof.
  revert p. induction base as [ | b base IH]; intros p; simpl.
  - intros H. inversion H. reflexivity.
  - destruct p as [ | s p']; [discriminate | ].
    destruct (String.eqb_spec b s) as [-> | _]; [ | discriminate].
    intros H. rewrite (IH p' H). reflexivity.
Qed.

Lemma childName_child (base : list string) (name : string) :
  Fs.childName base (base ++ [name]) = Some name.
Proof. unfold Fs.childName. rewrite strip_prefix_app. reflexivity. Qed.

Lemma childName_Some (base p : list string) (name : string) :
  Fs.childName base p = Some name -> p = base ++ [name].
Proof.
  unfold Fs.childName. destruct (Fs.strip_prefix base p) as [rest | ] eqn:E;
    [ | discriminate].
  destruct rest as [ | n [ | ? ?]]; try discriminate.
  intros H. inversion H; subst. apply strip_prefix_Some, E.
Qed.

Lemma childName_sibling (parent : list string) (last name : string) :
  Fs.childName (parent ++ [last]) (parent ++ [name]) = None.
Proof.
  destruct (Fs.childName (parent ++ [last]) (parent ++ [name])) as [n | ] eqn:E;
    [ | reflexivity].
  apply childName_Some in E. apply (f_equal (@length string)) in E.
  rewrite !length_app in E. simpl in E. lia.
Qed.

Lemma handbookDirectory_eq (fs : Fs.t) :
  Fs.handbookDirectory fs = (Fs.cwd fs ++ ["content"]) ++ ["handbook"].
Proof. reflexivity. Qed.

(** For a slug without a separator the joined path is the entry of the
    content directory with the slug's file name. *)
Lemma Fs_getHandbookPage_segment (remarkHtml : string -> string) (fs : Fs.t)
    (slug : string) :
  has_slash slug = false ->
  Fs.getHandbookPage remarkHtml fs slug
  = getHandbookPage remarkHtml (Fs.handbook fs) slug.
Proof.
  intros H. unfold Fs.getHandbookPage, Fs.existsSync, Fs.nodeAt, getHandbookPage.
  rewrite (join_fileNameOfSlug _ slug H), childName_child.
  destruct (lookupFile (Fs.handbook fs) (fileNameOfSlug slug)) as [f | ]; reflexivity.
Qed.

Lemma Fs_getHandbookPage_elsewhere (remarkHtml : string -> string) (fs : Fs.t)
    (slug : string) (p : list string) :
  Fs.join (Fs.handbookDirectory fs) (fileNameOfSlug slug) = p ->
  Fs.childName (Fs.handbookDirectory fs) p = None ->
  Fs.getHandbookPage remarkHtml fs slug
  = match Fs.elsewhere fs p with
    | None => Ok None
    | Some e => m <- Fs.readEntry e ;; Ok (Some (pageOf remarkHtml slug m))
    end.
Proof.
  intros Hp Hc. unfold Fs.getHandbookPage, Fs.existsSync, Fs.nodeAt.
  rewrite Hp, Hc. destruct (Fs.elsewhere fs p); reflexivity.
Qed.

(** C5 fails as stated at these two directories.  In the first the only
    markdown file makes [matter] throw: its slug is listed, and
    [getHandbookPage], the first to parse the file, throws.  In the second
    the file [.md] is listed under the empty slug, which [getHandbookPage]
    looks up as [index.md]: it returns [null]. *)
Lemma listed_slug_without_page :
  (getAllHandbookSlugs (Fs.handbook (fs_of malformed_dir)) = ["a"]
   /\ Fs.getHandbookPage identity_html (fs_of malformed_dir) "a"
      = Throw "YAMLException")
  /\ (getAllHandbookSlugs (Fs.handbook (fs_of dotfile_dir)) = [""]
      /\ Fs.getHandbookPage identity_html (fs_of dotfile_dir) "" = Ok None).
Proof. repeat split. Qed.

(** C5, amended.  [getHandbookPage] returns a page, with the slug asked
    for, for a slug that [getAllHandbookSlugs] lists, provided that the
    file it looks up for the slug is a regular file whose front matter
    parses and, for the empty slug, that [index.md] exists.  Nothing is
    asked of the other entries of the directory.  A listed slug holds no
    path separator, as no file name does. *)
Theorem listed_slug_has_page (remarkHtml : string -> string) (fs : Fs.t)
    (s : string) :
  In s (getAllHandbookSlugs (Fs.handbook fs)) ->
  has_slash s = false ->
  (s = "" -> In "index.md" (map fileName (Fs.handbook fs))) ->
  (forall g, lookupFile (Fs.handbook fs) (fileNameOfSlug s) = Some g ->
             exists m, entry g = RegularFile (Ok m)) ->
  exists page,
    Fs.getHandbookPage remarkHtml fs s = Ok (Some page)
    /\ HandbookPage.slug page = s.
Proof.
  intros Hs Hslash Hindex Hparse.
  rewrite (Fs_getHandbookPage_segment _ _ _ Hslash).
  assert (Hname : In (fileNameOfSlug s) (map fileName (Fs.handbook fs))).
  { destruct (String.eqb_spec s "") as [E | E].
    - rewrite E. apply Hindex, E.
    - apply getAllHandbookSlugs_In in Hs as (f & Hf & Hmd & ->).
      rewrite (fileNameOfSlug_slug (fileName f) Hmd E). apply in_map, Hf. }
  destruct (lookupFile_Some _ _ Hname) as (g & Hlook & _ & _).
  destruct (Hparse g Hlook) as (m & Em).
  exists (pageOf remarkHtml s m).
  unfold getHandbookPage, readMatter. rewrite Hlook, Em. split; reflexivity.
Qed.

(** The slug "a" of [mixed_dir] has its page, although [bad.md] does not
    parse and [.md] is there without [index.md]. *)
Lemma listed_slug_has_page_witness :
  getAllHandbookSlugs (Fs.handbook (fs_of mixed_dir)) = ["bad"; "a"; ""]
  /\ exists page,
       Fs.getHandbookPage identity_html (fs_of mixed_dir) "a" = Ok (Some page)
       /\ HandbookPage.slug page = "a".
Proof.
  split; [reflexivity | ].
  assert (Hs : In "a" (getAllHandbookSlugs (Fs.handbook (fs_of mixed_dir)))).
  { simpl. auto. }
  assert (Hindex : "a" = "" -> In "index.md" (map fileName (Fs.handbook (fs_of mixed_dir)))).
  { discriminate. }
  assert (Hparse : forall g,
             lookupFile (Fs.handbook (fs_of mixed_dir)) (fileNameOfSlug "a") = Some g ->
             exists m, entry g = RegularFile (Ok m)).
  { intros g Hg. injection Hg as <-. simpl. eauto. }
  exact (listed_slug_has_page identity_html (fs_of mixed_dir) "a"
           Hs eq_refl Hindex Hparse).
Defined.



(** X8.  For a slug without a path separator, [getHandbookPage] returns
    [null] exactly when no entry of the content directory has the slug's
    file name.  A slug [./s] is looked up under the entry [s.md], and a
    slug [../s] under the file [s.md] beside the content directory; the
    page returned carries the slug as it was given. *)
Theorem getHandbookPage_null_iff (remarkHtml : string -> string) (fs : Fs.t) :
  (forall slug,
     has_slash slug = false ->
     (Fs.getHandbookPage remarkHtml fs slug = Ok None <->
      ~ In (fileNameOfSlug slug) (map fileName (Fs.handbook fs))))
  /\ (forall s,
        has_slash s = false ->
        Fs.getHandbookPage remarkHtml fs ("./" ++ s)
        = match lookupFile (Fs.handbook fs) (s ++ ".md") with
          | None => Ok None
          | Some f =>
              m <- readMatter f ;; Ok (Some (pageOf remarkHtml ("./" ++ s) m))
          end)
  /\ (forall s,
        has_slash s = false ->
        Fs.getHandbookPage remarkHtml fs ("../" ++ s)
        = match Fs.elsewhere fs (Fs.cwd fs ++ ["content"; (s ++ ".md")%string]) with
          | None => Ok None
          | Some e =>
              m <- Fs.readEntry e ;; Ok (Some (pageOf remarkHtml ("../" ++ s) m))
          end).
Proof.
  split; [ | split].
  - intros slug Hs. rewrite (Fs_getHandbookPage_segment _ _ _ Hs).
    unfold getHandbookPage. rewrite <- lookupFile_None.
    destruct (lookupFile (Fs.handbook fs) (fileNameOfSlug slug)) as [f | ]; [ | tauto].
    split; [ | discriminate].
    destruct (readMatter f); simpl; discriminate.
  - intros s Hs.
    assert (Hjoin : Fs.join (Fs.handbookDirectory fs) (fileNameOfSlug ("./" ++ s))
                    = Fs.handbookDirectory fs ++ [(s ++ ".md")%string]).
    { unfold Fs.join. cbn [fileNameOfSlug append String.eqb Ascii.eqb Bool.eqb].
      assert (Hmd : has_slash (s ++ ".md") = false).
      { rewrite has_slash_append, Hs. reflexivity. }
      simpl Fs.segments. rewrite (segments_no_slash _ Hmd).
      cbn [fold_left]. change (Fs.step (Fs.handbookDirectory fs) ".")
        with (Fs.handbookDirectory fs).
      apply step_md_name. }
    unfold Fs.getHandbookPage, Fs.existsSync, Fs.nodeAt.
    rewrite Hjoin, childName_child.
    destruct (lookupFile (Fs.handbook fs) (s ++ ".md")) as [f | ]; reflexivity.
  - intros s Hs.
    apply Fs_getHandbookPage_elsewhere.
    + unfold Fs.join. cbn [fileNameOfSlug append String.eqb Ascii.eqb Bool.eqb].
      assert (Hmd : has_slash (s ++ ".md") = false).
      { rewrite has_slash_append, Hs. reflexivity. }
      simpl Fs.segments. rewrite (segments_no_slash _ Hmd).
      cbn [fold_left].
      change (Fs.step (Fs.handbookDirectory fs) "..")
        with (removelast (Fs.handbookDirectory fs)).
      rewrite handbookDirectory_eq, removelast_last, step_md_name.
      rewrite <- app_assoc. reflexivity.
    + rewrite handbookDirectory_eq.
      change (Fs.cwd fs ++ ["content"; (s ++ ".md")%string])
        with (Fs.cwd fs ++ ["content"] ++ [(s ++ ".md")%string]).
      rewrite app_assoc. apply childName_sibling.
Qed.

Lemma getHandbookPage_null_iff_witness :
  Fs.getHandbookPage identity_html sample_fs "typeof" = Ok None
  /\ Fs.getHandbookPage identity_html sample_fs "./a"
     = Ok (Some (pageOf identity_html "./a"
                   (mkMatter (frontMatter (Some 2) (Some "Fundamentals") (Some 1)) "body")))
  /\ Fs.getHandbookPage identity_html sample_fs "../outside"
     = Ok (Some (pageOf identity_html "../outside"
                   (mkMatter (frontMatter None None None) "outside"))).
Proof.
  split; [ | split].
  - apply (proj1 (getHandbookPage_null_iff identity_html sample_fs) "typeof");
      [reflexivity | ].
    simpl. intuition discriminate.
  - exact (proj1 (proj2 (getHandbookPage_null_iff identity_html sample_fs))
             "a" eq_refl).
  - exact (proj2 (proj2 (getHandbookPage_null_iff identity_html sample_fs))
             "outside" eq_refl).
Defined.

(* ================================================================== *)
(** * The sentinel and the introduction *)

(** C9 fails as stated at [index_zero_dir].  The first file that declares
    the category "X" is [index.md], with [categoryOrder] 0; it is the
    introduction, which is not grouped.  The category takes the order 3 of
    [zeta.md], neither 0 nor the sentinel 999. *)
Lemma zero_category_order_on_introduction :
  getHandbookNavigation index_zero_dir = Ok index_zero_nav
  /\ allPages index_zero_dir = Ok [index_zero_intro; index_zero_zeta]
  /\ HandbookNavItem.category index_zero_intro = Some "X"
  /\ HandbookNavItem.categoryOrder index_zero_intro = 0
  /\ HandbookNavigation.categories index_zero_nav = [index_zero_category]
  /\ HandbookCategory.name index_zero_category = "X"
  /\ HandbookCategory.order index_zero_category = 3.
Proof. repeat split. Qed.

(* ================================================================== *)
(** * The sidebar and categories of one slug *)



(** The category of the navigation that holds an item is the one the
    sidebar finds for the item's slug. *)
Lemma activeCategory_of_item (dir : ContentDir) (nav : HandbookNavigation.t)
    (c : HandbookCategory.t) (it : HandbookNavItem.t) :
  NoDup (map fileName dir) ->
  getHandbookNavigation dir = Ok nav ->
  In c (HandbookNavigation.categories nav) ->
  In it (HandbookCategory.items c) ->
  Sidebar.activeCategory nav (HandbookNavItem.slug it) = Some c.
Proof.
  intros Hnd Hnav Hc Hit.
  apply getHandbookNavigation_Ok in Hnav as (pages & Hpages & ->).
  unfold Sidebar.activeCategory.
  destruct (find (Sidebar.hasItem (HandbookNavItem.slug it))
              (HandbookNavigation.categories (buildNavigation pages)))
    as [c' | ] eqn:E.
  - apply find_some in E as [Hc' Hhas].
    unfold Sidebar.hasItem in Hhas. apply existsb_exists in Hhas as (it' & Hit' & Es).
    apply String.eqb_eq in Es.
    destruct (category_item pages c it Hc Hit) as [Hp Hb].
    destruct (category_item pages c' it' Hc' Hit') as [Hp' Hb'].
    apply belongs_to_inv in Hb as [Hcat Ecat].
    apply belongs_to_inv in Hb' as [Hcat' Ecat'].
    assert (Eit : it' = it).
    { apply (NoDup_map_In_eq HandbookNavItem.slug (filter is_categorized pages)).
      - apply (categorized_slugs_NoDup dir); assumption.
      - apply filter_In. auto.
      - apply filter_In. auto.
      - exact Es. }
    subst it'. f_equal.
    apply (NoDup_map_In_eq HandbookCategory.name
             (HandbookNavigation.categories (buildNavigation pages))); auto.
    + apply buildNavigation_names.
    + congruence.
  - eapply find_none in E; [ | exact Hc].
    unfold Sidebar.hasItem in E.
    assert (Ht : existsb
              (fun item => String.eqb (HandbookNavItem.slug item) (HandbookNavItem.slug it))
              (HandbookCategory.items c) = true).
    { apply existsb_exists. exists it. split; [exact Hit | apply String.eqb_refl]. }
    congruence.
Qed.

Lemma activeCategory_of_introduction (dir : ContentDir) (nav : HandbookNavigation.t) :
  getHandbookNavigation dir = Ok nav -> Sidebar.activeCategory nav "" = None.
Proof.
  intros Hnav. apply getHandbookNavigation_Ok in Hnav as (pages & Hpages & ->).
  unfold Sidebar.activeCategory.
  destruct (find (Sidebar.hasItem "")
              (HandbookNavigation.categories (buildNavigation pages)))
    as [c' | ] eqn:E; [ | reflexivity].
  apply find_some in E as [Hc' Hhas].
  unfold Sidebar.hasItem in Hhas. apply existsb_exists in Hhas as (it' & Hit' & Es).
  apply String.eqb_eq in Es.
  destruct (category_item pages c' it' Hc' Hit') as [_ Hb'].
  apply belongs_to_inv in Hb' as [Hcat' _].
  apply is_categorized_inv in Hcat' as [Hne _]. congruence.
Qed.

(** X17.  For an item of a category of the navigation (file names pairwise
    distinct), the category the sidebar finds for the item's slug is that
    category.  After the mount effect the expanded sections are those of
    the categories with that category's slug, its own and that of any
    category whose name gives the same slug; the navigation effect adds
    these sections to the expanded ones and collapses none.  For the empty
    slug no category is found and both effects leave the sections as they
    are. *)
Theorem sidebar_expands_category_of_page (dir : ContentDir)
    (nav : HandbookNavigation.t) (c : HandbookCategory.t) (it : HandbookNavItem.t)
    (expanded : JsSet.t) :
  NoDup (map fileName dir) ->
  getHandbookNavigation dir = Ok nav ->
  In c (HandbookNavigation.categories nav) ->
  In it (HandbookCategory.items c) ->
  Sidebar.activeCategory nav (HandbookNavItem.slug it) = Some c
  /\ (forall c',
        Sidebar.isExpanded (Sidebar.expandOnMount nav (HandbookNavItem.slug it)) c'
        = String.eqb (HandbookCategory.slug c') (HandbookCategory.slug c))
  /\ (forall c',
        Sidebar.isExpanded
          (Sidebar.expandOnNavigate nav (HandbookNavItem.slug it) true expanded) c'
        = Sidebar.isExpanded expanded c'
          || String.eqb (HandbookCategory.slug c') (HandbookCategory.slug c))
  /\ Sidebar.activeCategory nav "" = None
  /\ Sidebar.expandOnMount nav "" = []
  /\ Sidebar.expandOnNavigate nav "" true expanded = expanded.
Proof.
  intros Hnd Hnav Hc Hit.
  pose proof (activeCategory_of_item dir nav c it Hnd Hnav Hc Hit) as Hactive.
  pose proof (activeCategory_of_introduction dir nav Hnav) as Hintro.
  split; [exact Hactive | ].
  unfold Sidebar.expandOnMount, Sidebar.expandOnNavigate, Sidebar.isExpanded.
  rewrite Hactive, Hintro. cbn [negb].
  split; [ | split; [ | auto]].
  - intros c'. unfold JsSet.has. simpl. apply orb_false_r.
  - intros c'.
    destruct (JsSet.has expanded (HandbookCategory.slug c)) eqn:E; cbn [negb].
    + destruct (String.eqb_spec (HandbookCategory.slug c') (HandbookCategory.slug c))
        as [-> | _]; [ | rewrite orb_false_r; reflexivity].
      rewrite E. reflexivity.
    + apply has_add.
Qed.

(** On the page [templates] of [colliding_dir] the sidebar finds the
    category "C++", and the mount effect expands its section and that of
    "C#". *)
Lemma sidebar_expands_category_of_page_witness :
  Sidebar.activeCategory colliding_nav (HandbookNavItem.slug colliding_templates)
  = Some colliding_cpp
  /\ Sidebar.isExpanded
       (Sidebar.expandOnMount colliding_nav (HandbookNavItem.slug colliding_templates))
       colliding_csharp
     = String.eqb (HandbookCategory.slug colliding_csharp)
         (HandbookCategory.slug colliding_cpp)
  /\ Sidebar.isExpanded
       (Sidebar.expandOnMount colliding_nav (HandbookNavItem.slug colliding_templates))
       colliding_csharp
     = true.
Proof.
  assert (Hnd : NoDup (map fileName colliding_dir)).
  { repeat constructor; simpl; intuition discriminate. }
  destruct (sidebar_expands_category_of_page colliding_dir colliding_nav
              colliding_cpp colliding_templates []
              Hnd eq_refl (or_introl eq_refl) (or_introl eq_refl))
    as (H1 & H2 & _).
  split; [exact H1 | ]. split; [exact (H2 colliding_csharp) | reflexivity].
Defined.

(* ================================================================== *)
(** * [slugifyCategory] on every string *)

Section Utf16Facts.
Import Utf16.
Local Open Scope N_scope.

Lemma u_slug_not_hyphen (u : N) : is_slug_unit u = true -> is_hyphen u = false.
Proof.
  unfold is_slug_unit, is_hyphen, hyphen. intros H. apply N.eqb_neq. intros ->.
  vm_compute in H. discriminate.
Qed.

Lemma u_slug_bounds (u : N) :
  is_slug_unit u = true -> (97 <= u <= 122) \/ (48 <= u <= 57).
Proof.
  unfold is_slug_unit. intros H. apply orb_prop in H as [H | H];
    apply andb_prop in H as [H1 H2]; apply N.leb_le in H1, H2; lia.
Qed.

Lemma u_lower_slug (u : N) : is_slug_unit u = true -> lower_ascii u = u.
Proof.
  intros H. apply u_slug_bounds in H. unfold lower_ascii.
  destruct ((65 <=? u) && (u <=? 90)) eqn:E; [ | reflexivity].
  apply andb_prop in E as [E1 E2]. apply N.leb_le in E1, E2. lia.
Qed.

Lemma u_lower_hyphen (u : N) : is_hyphen u = true -> lower_ascii u = u.
Proof.
  unfold is_hyphen, hyphen. intros H. apply N.eqb_eq in H. subst u. reflexivity.
Qed.

Lemma u_slug_ascii (u : N) : is_slug_unit u = true -> is_ascii u = true.
Proof.
  intros H. apply u_slug_bounds in H. unfold is_ascii. apply N.ltb_lt. lia.
Qed.

Lemma u_hyphen_ascii (u : N) : is_hyphen u = true -> is_ascii u = true.
Proof.
  unfold is_hyphen, hyphen. intros H. apply N.eqb_eq in H. subst u. reflexivity.
Qed.

Lemma u_replace_runs_collapsed (l : list N) :
  forall b, collapsed b (replace_runs b l) = true.
Proof.
  induction l as [ | u t IH]; intros b; simpl; [reflexivity | ].
  destruct (is_slug_unit u) eqn:E.
  - simpl. rewrite E. apply IH.
  - destruct b; [apply IH | ].
    simpl. rewrite IH. reflexivity.
Qed.

Lemma u_collapsed_weaken (l : list N) :
  collapsed true l = true -> collapsed false l = true.
Proof.
  destruct l as [ | u t]; simpl; [reflexivity | ].
  destruct (is_slug_unit u); [tauto | ].
  rewrite andb_false_r. discriminate.
Qed.

Lemma u_collapsed_tail (b : bool) (u : N) (t : list N) :
  collapsed b (u :: t) = true -> exists b', collapsed b' t = true.
Proof.
  simpl. destruct (is_slug_unit u); [eauto | ].
  intros H. apply andb_prop in H as [_ H]. eauto.
Qed.

Lemma u_replace_runs_fixed (l : list N) :
  forall b, collapsed b l = true -> replace_runs b l = l.
Proof.
  induction l as [ | u t IH]; intros b; simpl; [reflexivity | ].
  destruct (is_slug_unit u).
  - intros H. f_equal. apply IH, H.
  - intros H. apply andb_prop in H as [H Ht]. apply andb_prop in H as [Hu Hb].
    destruct b; [discriminate | ].
    unfold is_hyphen in Hu. apply N.eqb_eq in Hu. subst u. f_equal. apply IH, Ht.
Qed.

Lemma u_collapsed_ascii (l : list N) :
  forall b, collapsed b l = true ->
    forallb is_ascii l = true /\ map lower_ascii l = l.
Proof.
  induction l as [ | u t IH]; intros b; simpl; [auto | ].
  destruct (is_slug_unit u) eqn:E.
  - intros H. destruct (IH _ H) as [Ha Hl].
    rewrite (u_slug_ascii u E), (u_lower_slug u E), Ha, Hl. auto.
  - intros H. apply andb_prop in H as [H Ht]. apply andb_prop in H as [Hu _].
    destruct (IH _ Ht) as [Ha Hl].
    rewrite (u_hyphen_ascii u Hu), (u_lower_hyphen u Hu), Ha, Hl. auto.
Qed.

Lemma u_strip_leading_collapsed (l : list N) :
  collapsed false l = true -> collapsed false (strip_leading l) = true.
Proof.
  destruct l as [ | u t]; simpl; [reflexivity | ].
  destruct (is_hyphen u) eqn:Hu.
  - destruct (is_slug_unit u) eqn:E.
    + apply u_slug_not_hyphen in E. congruence.
    + simpl. intros H. apply u_collapsed_weaken, H.
  - simpl. rewrite Hu. tauto.
Qed.

Lemma u_strip_trailing_cons (u u' : N) (t : list N) :
  strip_trailing (u :: u' :: t) = u :: strip_trailing (u' :: t).
Proof. reflexivity. Qed.

Lemma u_strip_trailing_collapsed (l : list N) :
  forall b, collapsed b l = true -> collapsed b (strip_trailing l) = true.
Proof.
  induction l as [ | u t IH]; intros b; [reflexivity | ].
  destruct t as [ | u' t'].
  - simpl. destruct (is_hyphen u) eqn:Hu; [reflexivity | ].
    simpl. rewrite Hu. tauto.
  - rewrite u_strip_trailing_cons. remember (u' :: t') as v. simpl.
    destruct (is_slug_unit u).
    + apply IH.
    + intros H. apply andb_prop in H as [H Ht]. rewrite H. apply IH, Ht.
Qed.

Lemma u_strip_leading_head (l : list N) :
  collapsed false l = true -> head_not_hyphen (strip_leading l) = true.
Proof.
  destruct l as [ | u t]; simpl; [reflexivity | ].
  destruct (is_hyphen u) eqn:Hu; [ | simpl; rewrite Hu; reflexivity].
  destruct (is_slug_unit u) eqn:E.
  - apply u_slug_not_hyphen in E. congruence.
  - simpl. destruct t as [ | u' t']; simpl; [reflexivity | ].
    destruct (is_slug_unit u') eqn:E'.
    + intros _. rewrite (u_slug_not_hyphen u' E'). reflexivity.
    + rewrite andb_false_r. discriminate.
Qed.

Lemma u_strip_trailing_head (l : list N) :
  head_not_hyphen l = true -> head_not_hyphen (strip_trailing l) = true.
Proof.
  destruct l as [ | u [ | u' t']]; simpl; try tauto.
  destruct (is_hyphen u) eqn:Hu; [reflexivity | ]. simpl. rewrite Hu. tauto.
Qed.

Lemma u_strip_leading_fixed (l : list N) :
  head_not_hyphen l = true -> strip_leading l = l.
Proof.
  destruct l as [ | u t]; simpl; [reflexivity | ].
  destruct (is_hyphen u); [discriminate | reflexivity].
Qed.

(** After [strip_trailing], a collapsed list does not end with a hyphen. *)
Lemma u_strip_trailing_last (l : list N) :
  forall b, collapsed b l = true ->
    is_hyphen (last (strip_trailing l) 0) = false.
Proof.
  induction l as [ | u t IH]; intros b H; [reflexivity | ].
  destruct t as [ | u' t'].
  - simpl. destruct (is_hyphen u) eqn:Hu; [reflexivity | exact Hu].
  - rewrite u_strip_trailing_cons.
    destruct (u_collapsed_tail _ _ _ H) as (b' & Ht).
    specialize (IH b' Ht).
    destruct (strip_trailing (u' :: t')) as [ | d v] eqn:Ev.
    + destruct t' as [ | u'' t''].
      * simpl in Ev. destruct (is_hyphen u') eqn:Hu'; [ | discriminate].
        remember [u'] as w. simpl in H. subst w.
        destruct (is_slug_unit u) eqn:E.
        -- simpl. apply u_slug_not_hyphen, E.
        -- apply andb_prop in H as [_ H]. simpl in H.
           destruct (is_slug_unit u') eqn:E'.
           ++ apply u_slug_not_hyphen in E'. congruence.
           ++ rewrite andb_false_r in H. discriminate.
      * rewrite u_strip_trailing_cons in Ev. discriminate.
    + exact IH.
Qed.

Lemma u_strip_trailing_fixed (l : list N) :
  is_hyphen (last l 0) = false -> strip_trailing l = l.
Proof.
  induction l as [ | u t IH]; [reflexivity | ].
  destruct t as [ | u' t'].
  - simpl. intros ->. reflexivity.
  - intros H. rewrite u_strip_trailing_cons, IH; [reflexivity | exact H].
Qed.

Lemma u_trim_collapsed (l : list N) :
  collapsed false l = true -> collapsed false (trim_hyphens l) = true.
Proof.
  intros H. apply u_strip_trailing_collapsed, u_strip_leading_collapsed, H.
Qed.

Lemma u_trim_fixed (l : list N) :
  collapsed false l = true -> trim_hyphens (trim_hyphens l) = trim_hyphens l.
Proof.
  intros H. unfold trim_hyphens.
  rewrite (u_strip_leading_fixed (strip_trailing (strip_leading l))).
  - apply u_strip_trailing_fixed.
    apply (u_strip_trailing_last _ false), u_strip_leading_collapsed, H.
  - apply u_strip_trailing_head, u_strip_leading_head, H.
Qed.

(** The description's reading of runs and of trimming. *)

Lemma u_replace_runs_drop_run (l : list N) :
  replace_runs true l = replace_runs false (drop_run l).
Proof.
  induction l as [ | u t IH]; simpl; [reflexivity | ].
  destruct (is_slug_unit u) eqn:E; [simpl; rewrite E; reflexivity | exact IH].
Qed.

Lemma u_drop_run_length (l : list N) : (length (drop_run l) <= length l)%nat.
Proof.
  induction l as [ | u t IH]; simpl; [lia | ].
  destruct (is_slug_unit u); simpl; lia.
Qed.

Lemma u_replace_each_run_upto (fuel : nat) :
  forall l, (length l <= fuel)%nat ->
    replace_each_run_upto fuel l = replace_runs false l.
Proof.
  induction fuel as [ | fuel IH]; intros l Hl.
  - destruct l; [reflexivity | simpl in Hl; lia].
  - destruct l as [ | u t]; [reflexivity | ]. simpl in *.
    destruct (is_slug_unit u).
    + rewrite IH by lia. reflexivity.
    + rewrite IH, u_replace_runs_drop_run; [reflexivity | ].
      pose proof (u_drop_run_length t). lia.
Qed.

Lemma u_replace_each_run (l : list N) : replace_each_run l = replace_runs false l.
Proof. apply u_replace_each_run_upto. lia. Qed.

Lemma u_drop_leading_fixed (l : list N) :
  head_not_hyphen l = true -> drop_leading_hyphens l = l.
Proof.
  destruct l as [ | u t]; simpl; [reflexivity | ].
  destruct (is_hyphen u); [discriminate | reflexivity].
Qed.

Lemma u_drop_leading_collapsed (l : list N) :
  collapsed false l = true -> drop_leading_hyphens l = strip_leading l.
Proof.
  intros H. pose proof (u_strip_leading_head l H) as Hh.
  destruct l as [ | u t]; simpl in *; [reflexivity | ].
  destruct (is_hyphen u); [apply u_drop_leading_fixed, Hh | reflexivity].
Qed.

Lemma u_drop_trailing_collapsed (l : list N) :
  forall b, collapsed b l = true -> drop_trailing_hyphens l = strip_trailing l.
Proof.
  induction l as [ | u t IH]; intros b H; [reflexivity | ].
  destruct (u_collapsed_tail _ _ _ H) as (b' & Ht).
  specialize (IH b' Ht). simpl drop_trailing_hyphens. rewrite IH.
  destruct t as [ | u' t']; [reflexivity | ].
  rewrite u_strip_trailing_cons.
  destruct (strip_trailing (u' :: t')) as [ | d v] eqn:Ev; [ | reflexivity].
  (* the tail was a lone hyphen, so [u] is not one *)
  destruct t' as [ | u'' t'']; [ | rewrite u_strip_trailing_cons in Ev; discriminate].
  simpl in Ev. destruct (is_hyphen u') eqn:Hu'; [ | discriminate].
  remember [u'] as w. simpl in H. subst w.
  destruct (is_slug_unit u) eqn:E.
  - rewrite (u_slug_not_hyphen u E). reflexivity.
  - apply andb_prop in H as [_ H]. simpl in H.
    destruct (is_slug_unit u') eqn:E'.
    + apply u_slug_not_hyphen in E'. congruence.
    + rewrite andb_false_r in H. discriminate.
Qed.

Lemma u_slugify_refines (toLowerCase : list N -> list N) (s : list N) :
  slugifyCategory toLowerCase s = slugify_spec toLowerCase s.
Proof.
  unfold slugifyCategory, slugify_spec, trim_hyphens.
  rewrite u_replace_each_run.
  pose proof (u_replace_runs_collapsed (toLowerCase s) false) as H.
  rewrite (u_drop_leading_collapsed _ H).
  symmetry. apply (u_drop_trailing_collapsed _ false), u_strip_leading_collapsed, H.
Qed.

Lemma u_slugify_collapsed (toLowerCase : list N -> list N) (s : list N) :
  collapsed false (slugifyCategory toLowerCase s) = true.
Proof. apply u_trim_collapsed, u_replace_runs_collapsed. Qed.

Lemma u_slugify_idem (toLowerCase : list N -> list N) (s : list N) :
  ascii_law toLowerCase ->
  slugifyCategory toLowerCase (slugifyCategory toLowerCase s)
  = slugifyCategory toLowerCase s.
Proof.
  intros Hlaw. pose proof (u_slugify_collapsed toLowerCase s) as H.
  destruct (u_collapsed_ascii _ _ H) as [Ha Hl].
  unfold slugifyCategory at 1. rewrite (Hlaw _ Ha), Hl.
  rewrite (u_replace_runs_fixed _ false H).
  apply u_trim_fixed, u_replace_runs_collapsed.
Qed.

(** Agreement with the 8-bit [slugifyCategory] on ASCII names. *)

Lemma u_is_hyphen_ascii (c : ascii) :
  is_hyphen (N_of_ascii c) = JsString.is_hyphen c.
Proof.
  unfold is_hyphen, hyphen, JsString.is_hyphen.
  destruct (Ascii.eqb_spec c "-"%char) as [-> | Hne]; [reflexivity | ].
  apply N.eqb_neq. intros E. apply Hne.
  rewrite <- (ascii_N_embedding c), E. reflexivity.
Qed.

Lemma u_lower_char (c : ascii) :
  lower_ascii (N_of_ascii c) = N_of_ascii (JsString.lower_char c).
Proof.
  unfold lower_ascii, JsString.lower_char, JsString.code.
  destruct ((65 <=? N_of_ascii c) && (N_of_ascii c <=? 90)) eqn:E; [ | reflexivity].
  apply andb_prop in E as [E1 E2]. apply N.leb_le in E1, E2.
  symmetry. apply N_ascii_embedding. lia.
Qed.

Lemma u_replace_runs_ascii (l : list ascii) :
  forall b, replace_runs b (map N_of_ascii l)
            = map N_of_ascii (JsString.replace_runs b l).
Proof.
  induction l as [ | c t IH]; intros b; simpl; [reflexivity | ].
  change (is_slug_unit (N_of_ascii c)) with (JsString.is_slug_char c).
  destruct (JsString.is_slug_char c); simpl; [rewrite IH; reflexivity | ].
  destruct b; simpl; rewrite IH; reflexivity.
Qed.

Lemma u_strip_leading_ascii (l : list ascii) :
  strip_leading (map N_of_ascii l) = map N_of_ascii (JsString.strip_leading l).
Proof.
  destruct l as [ | c t]; simpl; [reflexivity | ].
  rewrite u_is_hyphen_ascii. destruct (JsString.is_hyphen c); reflexivity.
Qed.

Lemma u_strip_trailing_ascii (l : list ascii) :
  strip_trailing (map N_of_ascii l) = map N_of_ascii (JsString.strip_trailing l).
Proof.
  induction l as [ | c t IH]; [reflexivity | ].
  destruct t as [ | c' t'].
  - simpl. rewrite u_is_hyphen_ascii. destruct (JsString.is_hyphen c); reflexivity.
  - change (map N_of_ascii (c :: c' :: t'))
      with (N_of_ascii c :: N_of_ascii c' :: map N_of_ascii t').
    rewrite u_strip_trailing_cons.
    change (N_of_ascii c' :: map N_of_ascii t') with (map N_of_ascii (c' :: t')).
    rewrite IH. reflexivity.
Qed.

Lemma u_trim_ascii (l : list ascii) :
  trim_hyphens (map N_of_ascii l) = map N_of_ascii (JsString.trim_hyphens l).
Proof.
  unfold trim_hyphens, JsString.trim_hyphens.
  rewrite u_strip_leading_ascii, u_strip_trailing_ascii. reflexivity.
Qed.

Lemma toLowerCase_sample_law : ascii_law toLowerCase_sample.
Proof.
  intros l. induction l as [ | u t IH]; simpl; [reflexivity | ].
  intros H. apply andb_prop in H as [Hu Ht]. rewrite (IH Ht).
  unfold is_ascii in Hu. apply N.ltb_lt in Hu.
  destruct (N.eqb_spec u 8490) as [E | _]; [lia | ].
  destruct (N.eqb_spec u 304) as [E | _]; [lia | ].
  reflexivity.
Qed.

End Utf16Facts.

Lemma u_slugify_ascii (toLowerCase : list N -> list N) (s : string) :
  Utf16.ascii_law toLowerCase ->
  forallb Utf16.is_ascii (Utf16.of_string s) = true ->
  Utf16.slugifyCategory toLowerCase (Utf16.of_string s)
  = Utf16.of_string (slugifyCategory s).
Proof.
  intros Hlaw Ha. unfold Utf16.slugifyCategory, Utf16.of_string, slugifyCategory.
  rewrite list_ascii_of_string_of_list_ascii.
  unfold Utf16.of_string in Ha. rewrite (Hlaw _ Ha).
  rewrite map_map.
  rewrite (map_ext _ (fun c => N_of_ascii (JsString.lower_char c)))
    by apply u_lower_char.
  rewrite <- (map_map JsString.lower_char N_of_ascii).
  unfold slugify_chars, JsString.toLowerCase.
  rewrite u_replace_runs_ascii, u_trim_ascii. reflexivity.
Qed.

(** C7.  [slugifyCategory] (handbook.ts, line 62) on strings of UTF-16 code
    units, for every [toLowerCase] that acts on ASCII-only strings as
    [String.prototype.toLowerCase] does (letters A to Z to a to z, nothing
    else changed) and is otherwise unconstrained, which covers the code units
    whose lower case is an ASCII letter (U+212A) or longer than one unit
    (U+0130):
    - applying it twice gives the same slug as applying it once;
    - 'Frameworks & Libraries' gives 'frameworks-libraries';
    - it computes what the description says: lower-case, replace each maximal
      run of units outside a-z and 0-9 by one hyphen, then remove every
      leading and trailing hyphen;
    - a slug holds only a-z, 0-9 and single hyphens between them, and neither
      starts nor ends with a hyphen;
    - separators at either end leave no hyphen: '  --Objects & Arrays!! '
      gives 'objects-arrays', and '-' and '!?' give the empty slug;
    - on an ASCII-only name it is the 8-bit [slugifyCategory] used for the
      navigation. *)
Theorem slugifyCategory_every_string
    (toLowerCase : list N -> list N) (Hlaw : Utf16.ascii_law toLowerCase) :
  (forall s,
     Utf16.slugifyCategory toLowerCase (Utf16.slugifyCategory toLowerCase s)
     = Utf16.slugifyCategory toLowerCase s)
  /\ Utf16.slugifyCategory toLowerCase (Utf16.of_string "Frameworks & Libraries")
     = Utf16.of_string "frameworks-libraries"
  /\ (forall s,
        Utf16.slugifyCategory toLowerCase s = Utf16.slugify_spec toLowerCase s)
  /\ (forall s,
        Utf16.collapsed false (Utf16.slugifyCategory toLowerCase s) = true
        /\ Utf16.head_not_hyphen (Utf16.slugifyCategory toLowerCase s) = true
        /\ Utf16.is_hyphen (last (Utf16.slugifyCategory toLowerCase s) 0%N) = false)
  /\ Utf16.slugifyCategory toLowerCase (Utf16.of_string "  --Objects & Arrays!! ")
     = Utf16.of_string "objects-arrays"
  /\ Utf16.slugifyCategory toLowerCase (Utf16.of_string "-") = []
  /\ Utf16.slugifyCategory toLowerCase (Utf16.of_string "!?") = []
  /\ (forall s : string,
        forallb Utf16.is_ascii (Utf16.of_string s) = true ->
        Utf16.slugifyCategory toLowerCase (Utf16.of_string s)
        = Utf16.of_string (slugifyCategory s)).
Proof.
  assert (Hex : forall s : string,
             forallb Utf16.is_ascii (Utf16.of_string s) = true ->
             Utf16.slugifyCategory toLowerCase (Utf16.of_string s)
             = Utf16.of_string (slugifyCategory s))
    by (intros s Hs; apply u_slugify_ascii; assumption).
  split; [intros s; apply u_slugify_idem, Hlaw | ].
  split; [rewrite Hex by reflexivity; reflexivity | ].
  split; [intros s; apply u_slugify_refines | ].
  split.
  { intros s. split; [apply u_slugify_collapsed | ]. unfold Utf16.slugifyCategory.
    pose proof (u_replace_runs_collapsed (toLowerCase s) false) as H.
    split.
    - apply u_strip_trailing_head, u_strip_leading_head, H.
    - apply (u_strip_trailing_last _ false), u_strip_leading_collapsed, H. }
  split; [rewrite Hex by reflexivity; reflexivity | ].
  split; [rewrite Hex by reflexivity; reflexivity | ].
  split; [rewrite Hex by reflexivity; reflexivity | ].
  exact Hex.
Qed.

(** With a [toLowerCase] that sends U+212A to 'k' and U+0130 to 'i' followed
    by U+0307: the Kelvin sign and the dotted capital I end up in the slug as
    'k' and 'i', and slugifying that slug again changes nothing. *)
Lemma slugifyCategory_every_string_witness :
  Utf16.slugifyCategory Utf16.toLowerCase_sample [8490; 45; 304; 33]%N
  = [107; 45; 105]%N
  /\ Utf16.slugifyCategory Utf16.toLowerCase_sample
       (Utf16.slugifyCategory Utf16.toLowerCase_sample [8490; 45; 304; 33]%N)
     = Utf16.slugifyCategory Utf16.toLowerCase_sample [8490; 45; 304; 33]%N
  /\ Utf16.slugifyCategory Utf16.toLowerCase_sample [8490; 45; 304; 33]%N
     = Utf16.slugify_spec Utf16.toLowerCase_sample [8490; 45; 304; 33]%N
  /\ Utf16.slugifyCategory Utf16.toLowerCase_sample (Utf16.of_string " C++ ")
     = Utf16.of_string "c".
Proof.
  pose proof (slugifyCategory_every_string _ toLowerCase_sample_law)
    as (Hidem & _ & Hspec & _ & _ & _ & _ & Hascii).
  split; [reflexivity | ].
  split; [exact (Hidem _) | ].
  split; [exact (Hspec _) | ].
  exact (Hascii " C++ " eq_refl).
Defined.
